(** * lianjiaSpider: the crawl pipeline, its persistence and its command line

    A shallow embedding of [src/scraper/spider.py], [src/utils/data_processor.py]
    and [scripts/run_scraper.py].

    - Python values are a small sum type; a [dict] is an insertion-ordered
      association list; a pandas table is a column list with one finite map
      per row (a missing key is NaN).
    - Side effects (stdout, HTTP requests, sleeps, the file system, stdin) are
      threaded through a state-and-exception monad [IO].
    - Library primitives whose definition is not part of the repository
      ([str.strip], [int], [float], [re.search], the rounding of floating
      point arithmetic, the HTTP session, pandas' dtype inference and its
      CSV reader and writer) are fields of type classes, so that every
      statement holds for whatever these primitives compute. *)

From Stdlib Require Import QArith.
From Stdlib Require Import Ascii.
From stdpp Require Import gmap strings list sorting pretty.

Set Warnings "-register-all".

Open Scope string_scope.
Open Scope Z_scope.
Open Scope list_scope.

(** ** Python values, exceptions and dictionaries *)

Module Py.

(** A Python [int] is a [Z]; a finite [float] is the rational it denotes. *)
Inductive value : Type :=
| VStr (s : string)
| VInt (n : Z)
| VFloat (x : Q).

Inductive exn : Type :=
| ValueError
| TypeError
| KeyError
| IndexError
| EOFError
| OSError
| OverflowError
| KeyboardInterrupt.

(** [except Exception] does not catch [KeyboardInterrupt]. *)
Definition is_Exception (e : exn) : bool :=
  match e with
  | KeyboardInterrupt => false
  | _ => true
  end.

Inductive res (A : Type) : Type :=
| Ret (a : A)
| Raise (e : exn).
Arguments Ret {A} a.
Arguments Raise {A} e.

(** [dict]: keys in insertion order, each key once. *)
Definition dict : Type := list (string * value).

(** [d[k] = v] *)
Fixpoint dict_set (k : string) (v : value) (d : dict) : dict :=
  match d with
  | [] => [(k, v)]
  | (k', v') :: d' =>
      if decide (k = k') then (k, v) :: d' else (k', v') :: dict_set k v d'
  end.

(** [d.get(k)] *)
Fixpoint dict_get (k : string) (d : dict) : option value :=
  match d with
  | [] => None
  | (k', v) :: d' => if decide (k = k') then Some v else dict_get k d'
  end.

Definition dict_keys (d : dict) : list string := d.*1.

(** [sub in s] on [str] *)
Fixpoint str_contains (sub s : string) : bool :=
  String.prefix sub s ||
  match s with
  | EmptyString => false
  | String _ s' => str_contains sub s'
  end.

(** [sep.join(parts)] *)
Fixpoint str_join (sep : string) (parts : list string) : string :=
  match parts with
  | [] => ""
  | [p] => p
  | p :: ps => p +:+ sep +:+ str_join sep ps
  end.

Definition newline : string := String (Ascii.ascii_of_nat 10) "".

(** [s.split(sep)] for a separator of one character. *)
Fixpoint str_split (sep : Ascii.ascii) (s : string) : list string :=
  match s with
  | EmptyString => [""]
  | String c s' =>
      if decide (c = sep) then "" :: str_split sep s'
      else match str_split sep s' with
           | part :: parts => String c part :: parts
           | [] => [String c ""]
           end
  end.

(** [range(lo, hi)] *)
Definition range (lo hi : Z) : list Z := seqZ lo (hi - lo).

(** [v > 0]; comparing a [str] with an [int] raises [TypeError]. *)
Definition value_gt0 (v : value) : res bool :=
  match v with
  | VInt n => Ret (0 <? n)
  | VFloat x => Ret (negb (Qle_bool x 0))
  | VStr _ => Raise TypeError
  end.

(** [a == b] on values: numbers compare by magnitude, [1 == 1.0]. *)
Definition value_eqb (a b : value) : bool :=
  match a, b with
  | VStr s, VStr t => bool_decide (s = t)
  | VInt m, VInt n => m =? n
  | VInt m, VFloat y => Qeq_bool (inject_Z m) y
  | VFloat x, VInt n => Qeq_bool x (inject_Z n)
  | VFloat x, VFloat y => Qeq_bool x y
  | _, _ => false
  end.

(** The primitives of the interpreter and of the [re] module that the
    scraper calls.  [py_int] and [py_float] are [None] where the call raises
    [ValueError]; [re_search pattern text] is [None] where there is no match
    and otherwise lists the groups 1, 2, ... of the leftmost match.
    [py_round x] is the float nearest to the real number [x], as every
    operation that yields a float rounds its exact result, and [None] where
    [x] lies beyond the range of floats. *)
Class Prims : Type := {
  py_strip : string → string;
  py_int : string → option Z;
  py_float : string → option Q;
  re_search : string → string → option (list string);
  py_round : Q → option Q
}.

(** [match.group(i)], [i ≥ 1] *)
Definition group (m : list string) (i : nat) : res string :=
  match m !! pred i with
  | Some g => Ret g
  | None => Raise IndexError
  end.

Definition int_ `{Prims} (s : string) : res Z :=
  match py_int s with
  | Some n => Ret n
  | None => Raise ValueError
  end.

Definition float_ `{Prims} (s : string) : res Q :=
  match py_float s with
  | Some x => Ret x
  | None => Raise ValueError
  end.

(** [float(n)] for an [int]: [OverflowError] where [n] is beyond the range of
    floats. *)
Definition float_of_int `{Prims} (n : Z) : res Q :=
  match py_round (inject_Z n) with
  | Some x => Ret x
  | None => Raise OverflowError
  end.

Global Instance res_ret : MRet res := λ A a, Ret a.
Global Instance res_bind : MBind res := λ A B k m,
  match m with
  | Ret a => k a
  | Raise e => Raise e
  end.

End Py.
Export Py.

(** ** BeautifulSoup: the parsed markup *)

Module Bs4.

(** A tag with its [class] attribute and children, or a text node. *)
Inductive node : Type :=
| Text (s : string)
| Tag (name : string) (classes : list string) (children : list node).

(** [tag.descendants]: every node below [n], in document order. *)
Fixpoint descendants (n : node) : list node :=
  match n with
  | Text _ => []
  | Tag _ _ children =>
      (fix go (l : list node) : list node :=
         match l with
         | [] => []
         | c :: l' => c :: descendants c ++ go l'
         end) children
  end.

Definition is_tag (name : string) (class_ : option string) (n : node) : bool :=
  match n with
  | Text _ => false
  | Tag name' classes _ =>
      bool_decide (name = name') &&
      match class_ with
      | None => true
      | Some c => bool_decide (c ∈ classes)
      end
  end.

(** [tag.find_all(name, class_=...)] *)
Definition find_all (name : string) (class_ : option string) (n : node)
  : list node :=
  List.filter (is_tag name class_) (descendants n).

(** [tag.find(name, class_=...)] *)
Definition find (name : string) (class_ : option string) (n : node)
  : option node :=
  head (find_all name class_ n).

Definition text_of (n : node) : option string :=
  match n with
  | Text s => Some s
  | Tag _ _ _ => None
  end.

(** [tag.get_text(strip=True)]: the stripped, non-empty strings below
    [n], concatenated. *)
Definition get_text `{Prims} (n : node) : string :=
  str_join ""
    (List.filter (λ s, negb (bool_decide (s = "")))
       (py_strip <$> omap text_of (descendants n))).

End Bs4.
Export Bs4.

(** ** pandas: tables *)

Module Pd.

(** A table: the column index and, per row, the cells that are not NaN. *)
Record DataFrame : Type := mkDataFrame {
  df_columns : list string;
  df_rows : list (gmap string value)
}.

Definition dict_row (d : dict) : gmap string value := list_to_map d.

(** Keys in order of first appearance. *)
Definition first_seen (keys : list string) : list string :=
  foldl (λ acc k, if decide (k ∈ acc) then acc else acc ++ [k]) [] keys.

(** What the model takes from pandas as given.  Its dtype inference:
    pandas gives every column one dtype, and [float_column cells] tells
    whether a column with these cells (none for NaN) is a float column
    (float64); the integers of a float column are stored as the floats
    nearest to them, so that 5000 becomes 5000.0, and the cells of every
    other column are kept as they are.  Its CSV writer and reader, as
    [df.to_csv(index=False, encoding='utf-8-sig')] and
    [pd.read_csv(encoding='utf-8-sig')] use them; [read_csv] is [None]
    where the call raises. *)
Class Csv : Type := {
  float_column : list (option value) → bool;
  to_csv : DataFrame → string;
  read_csv : string → option DataFrame
}.

(** A cell on its way into a float column. *)
Definition widen `{Prims} (v : value) : value :=
  match v with
  | VInt n =>
      match py_round (inject_Z n) with
      | Some x => VFloat x
      | None => v
      end
  | _ => v
  end.

(** The rows of a table once every column has its dtype. *)
Definition unify `{Prims} `{Csv} (columns : list string)
    (rows : list (gmap string value)) : list (gmap string value) :=
  let floats :=
    List.filter (λ c, float_column ((λ r, r !! c) <$> rows)) columns in
  (λ r, foldr (alter widen) r floats) <$> rows.

(** [pd.DataFrame(listings)] for a list of dicts: one row per dict, the
    columns are the keys in order of first appearance. *)
Definition pd_DataFrame `{Prims} `{Csv} (listings : list dict) : DataFrame :=
  let columns := first_seen (listings ≫= dict_keys) in
  {| df_columns := columns;
     df_rows := unify columns (dict_row <$> listings) |}.

(** [pd.concat([a, b], ignore_index=True)] *)
Definition pd_concat `{Prims} `{Csv} (a b : DataFrame) : DataFrame :=
  let columns := first_seen (df_columns a ++ df_columns b) in
  {| df_columns := columns;
     df_rows := unify columns (df_rows a ++ df_rows b) |}.

(** [len(df)] *)
Definition df_len (df : DataFrame) : nat := length (df_rows df).

(** [df.empty] *)
Definition df_empty (df : DataFrame) : bool :=
  match df_rows df, df_columns df with
  | _ :: _, _ :: _ => false
  | _, _ => true
  end.

(** Two rows agree on every column (NaN cells count as equal), as
    [DataFrame.duplicated] compares them. *)
Definition cell_eqb (a b : option value) : bool :=
  match a, b with
  | None, None => true
  | Some x, Some y => value_eqb x y
  | _, _ => false
  end.

Definition row_eqb (columns : list string) (r1 r2 : gmap string value) : bool :=
  forallb (λ c, cell_eqb (r1 !! c) (r2 !! c)) columns.

(** [df.drop_duplicates()]: keep the first of every group of equal rows. *)
Fixpoint drop_dups (columns : list string) (seen rows : list (gmap string value))
  : list (gmap string value) :=
  match rows with
  | [] => []
  | r :: rows' =>
      if existsb (row_eqb columns r) seen
      then drop_dups columns seen rows'
      else r :: drop_dups columns (seen ++ [r]) rows'
  end.

Definition drop_duplicates (df : DataFrame) : DataFrame :=
  {| df_columns := df_columns df;
     df_rows := drop_dups (df_columns df) [] (df_rows df) |}.

(** [df.dropna(subset=cols)]; a label that is not a column raises
    [KeyError]. *)
Definition dropna (subset : list string) (df : DataFrame) : res DataFrame :=
  if forallb (λ c, bool_decide (c ∈ df_columns df)) subset
  then Ret {| df_columns := df_columns df;
              df_rows := List.filter
                           (λ r, forallb (λ c, bool_decide (is_Some (r !! c))) subset)
                           (df_rows df) |}
  else Raise KeyError.

(** [df[c] > 0]: one boolean per row; NaN compares false. *)
Fixpoint series_gt0 (c : string) (rows : list (gmap string value))
  : res (list bool) :=
  match rows with
  | [] => Ret []
  | r :: rows' =>
      b ← match r !! c with
          | None => Ret false
          | Some v => value_gt0 v
          end;
      bs ← series_gt0 c rows';
      Ret (b :: bs)
  end.

(** [df[mask]] *)
Fixpoint select {A : Type} (mask : list bool) (rows : list A) : list A :=
  match mask, rows with
  | true :: mask', r :: rows' => r :: select mask' rows'
  | false :: mask', _ :: rows' => select mask' rows'
  | _, _ => []
  end.

End Pd.
Export Pd.

(** ** The world the scripts run in *)

Module Sys.

(** What the remote site answers to the GET of a result page
    ([session.get] followed by [raise_for_status] and the HTML parser). *)
Inductive response : Type :=
| RequestException
| OtherException
| Html (soup : node).

Class Network : Type := { http_get : Z → response }.

Inductive fsnode : Type :=
| Dir
| File (content : string).

Inductive stdin_event : Type :=
| Line (s : string)
| CtrlC.

(** The lines the scripts print, one constructor per [print] statement (and
    per [input] prompt), with the values it interpolates. *)
Inductive line : Type :=
(* spider.py *)
| PParseFailed (e : exn)            (* 解析房源信息失败: {e} *)
| PNoContainer (page : Z)           (* 第{page}页未找到房源列表 *)
| PNoItems (page : Z)               (* 第{page}页没有房源数据，可能已到最后一页 *)
| PParsed (page : Z) (n : nat)      (* 第{page}页成功解析 {n} 条房源 *)
| PRequestFailed (page : Z)         (* 请求第{page}页失败: {e} *)
| PPageError (page : Z)             (* 处理第{page}页时发生错误: {e} *)
| PCrawlStart (s e : Z)             (* 开始爬取链家北京租房数据，第{s}页到第{e}页... *)
| PCrawling (page : Z)              (* 正在爬取第{page}页... *)
| PEmptyPage (page c : Z)           (* 第{page}页没有数据 (连续空页: {c}) *)
| PGapStop (m : Z)                  (* 连续{m}页都没有数据，停止爬取 *)
| PTotal (n : nat)                  (* 共获取 {n} 条房源数据 *)
| PSkippedSaved (path : string) (n : nat) (* 跳过页面信息已保存: ... *)
| PAppendTo (path : string)         (* 追加数据到现有文件: {path} *)
| PReadFailed                       (* 读取现有文件失败，将创建新文件: {e} *)
| PSaved (path : string) (n : nat)  (* 数据已保存到: {path} (共{n}条记录) *)
(* data_processor.py *)
| PCleaned (before after : nat)     (* 数据清理完成: {before} -> {after} 条记录 *)
(* run_scraper.py *)
| PBanner                           (* === 链家北京租房数据爬虫 === *)
| PAskRange                         (* 请输入要爬取的页数范围： *)
| PPromptStart                      (* 请输入起始页数 (默认: 1):  *)
| PPromptEnd                        (* 请输入结束页数:  *)
| PErrEndEmpty                      (* 错误：结束页数不能为空 *)
| PErrStartBelow1                   (* 错误：起始页数必须大于0 *)
| PErrEndBelowStart                 (* 错误：结束页数必须大于等于起始页数 *)
| PErrNotInteger                    (* 错误：请输入有效的整数 *)
| PCancelled                        (* 用户取消操作 *)
| PErrArgNotInteger                 (* 错误：页数参数必须是整数 *)
| PErrArgRange                      (* 错误：起始页数必须小于等于结束页数，且起始页数必须大于0 *)
| PRunStart (s e : Z)               (* 开始爬取第 {s} 页到第 {e} 页... *)
| PExpect (n : Z)                   (* 预计爬取页数: {n} 页 *)
| PRule                             (* -------------------------------------------------- *)
| POverview                         (* === 数据概览 === *)
| PCount (n : nat)                  (* 总记录数: {n} *)
| PAvgPrice (x : option Q)          (* 平均价格: ¥{x:.0f}; [None] is inf or nan *)
| PMinPrice (x : Q)                 (* 最低价格: ¥{x:.0f} *)
| PMaxPrice (x : Q)                 (* 最高价格: ¥{x:.0f} *)
| PAvgArea (x : option Q)           (* 平均面积: {x:.1f}㎡; [None] is inf or nan *)
| PDistricts (counts : list (value * Z)) (* 区域分布: {counts} *)
| PSavedTo (path : option string)   (* 数据已保存到: {path} *)
| PDone                             (* 爬取完成！ *)
| PNoData.                          (* 没有获取到任何数据 *)

Record world : Type := mkWorld {
  stdout : list line;          (* printed so far, oldest first *)
  requests : list Z;           (* result pages requested so far, oldest first *)
  sleeps : nat;                (* calls of time.sleep *)
  disk : gmap string fsnode;   (* the file system, by path *)
  stdin : list stdin_event     (* what the user will still type *)
}.

(** State and exceptions. *)
Definition IO (A : Type) : Type := world → res A * world.

Global Instance IO_ret : MRet IO := λ A a w, (Ret a, w).
Global Instance IO_bind : MBind IO := λ A B k m w,
  match m w with
  | (Ret a, w') => k a w'
  | (Raise e, w') => (Raise e, w')
  end.

Definition raise {A : Type} (e : exn) : IO A := λ w, (Raise e, w).

(** Lift a pure computation that may raise. *)
Definition lift {A : Type} (r : res A) : IO A := λ w, (r, w).

(** [try: m except ...: h] for the exceptions selected by [catches]. *)
Definition try_except {A : Type} (m : IO A) (catches : exn → bool)
    (h : exn → IO A) : IO A := λ w,
  match m w with
  | (Raise e, w') => if catches e then h e w' else (Raise e, w')
  | r => r
  end.

Definition with_disk (f : gmap string fsnode → gmap string fsnode) (w : world)
  : world :=
  mkWorld (stdout w) (requests w) (sleeps w) (f (disk w)) (stdin w).

(** [print(...)] *)
Definition print (l : line) : IO unit := λ w,
  (Ret tt, mkWorld (stdout w ++ [l]) (requests w) (sleeps w) (disk w) (stdin w)).

(** [session.get(url)] for the url of [page]; the request is on record even
    when it fails. *)
Definition session_get `{Network} (page : Z) : IO response := λ w,
  (Ret (http_get page),
   mkWorld (stdout w) (requests w ++ [page]) (sleeps w) (disk w) (stdin w)).

(** [time.sleep(...)] *)
Definition time_sleep : IO unit := λ w,
  (Ret tt, mkWorld (stdout w) (requests w) (S (sleeps w)) (disk w) (stdin w)).

(** [input(prompt)] *)
Definition input (prompt : line) : IO string := λ w,
  let w1 := mkWorld (stdout w ++ [prompt]) (requests w) (sleeps w) (disk w) in
  match stdin w with
  | [] => (Raise EOFError, w1 [])
  | Line s :: rest => (Ret s, w1 rest)
  | CtrlC :: rest => (Raise KeyboardInterrupt, w1 rest)
  end.

(** How much input is left (not a Python call; it bounds the prompt loop). *)
Definition pending_input : IO nat := λ w, (Ret (length (stdin w)), w).

(** [os.makedirs(d, exist_ok=True)] *)
Definition os_makedirs (d : string) : IO unit := λ w,
  match disk w !! d with
  | None => (Ret tt, with_disk (insert d Dir) w)
  | Some Dir => (Ret tt, w)
  | Some (File _) => (Raise OSError, w)
  end.

(** [os.path.join(a, b)] *)
Definition os_path_join (a b : string) : string :=
  if String.prefix "/" b then b
  else if bool_decide (a = "") || String.prefix "/" (String.rev a) then a +:+ b
  else a +:+ "/" +:+ b.

(** Paths.  A file or directory is on record under the path it was made
    with, or under its plain path: the names from the working directory
    (or, after a leading slash, from the root) down to it, joined by
    slashes.  The model follows the directories of a path, through [.],
    [..] and repeated slashes.  It knows no symbolic links, no permissions
    and no limits on the length of a name or on the space left; and a file
    that is written under another spelling than its plain path is on record
    under that spelling from then on. *)
Definition is_dir (d : gmap string fsnode) (p : string) : bool :=
  match d !! p with
  | Some Dir => true
  | _ => false
  end.

(** The directory reached from [cur] through the components [parts]: the
    names on the way are directories on record (those above the working
    directory are there), or there is no such directory. *)
Fixpoint walk (d : gmap string fsnode) (cur parts : list string)
  : option (list string) :=
  match parts with
  | [] => Some cur
  | part :: parts' =>
      if bool_decide (part = "") || bool_decide (part = ".") then
        walk d cur parts'
      else if bool_decide (part = "..") then
        walk d (match reverse cur with
                | [] => [".."]
                | [""] => [""]
                | ".." :: _ => cur ++ [".."]
                | _ :: above => reverse above
                end) parts'
      else if is_dir d (String.concat "/" (cur ++ [part])) then
        walk d (cur ++ [part]) parts'
      else None
  end.

(** A path with the character NUL in it names nothing. *)
Fixpoint has_nul (s : string) : bool :=
  match s with
  | EmptyString => false
  | String c s' => Ascii.eqb c Ascii.zero || has_nul s'
  end.

Inductive target : Type :=
| Invalid                    (* not a path: the character NUL is in it *)
| NoSuchPath                 (* a directory on the way is missing *)
| Nothing                    (* the directory is there, the name is free *)
| Node (n : fsnode).

(** What a path leads to. *)
Definition lookup_path (d : gmap string fsnode) (p : string) : target :=
  match d !! p with
  | Some n => Node n
  | None =>
      if bool_decide (p = "") then NoSuchPath
      else if has_nul p then Invalid
      else
        let parts := str_split "/" p in
        let start := if String.prefix "/" p then [""] else [] in
        match walk d start (removelast parts) with
        | None => NoSuchPath
        | Some directory =>
            let name := List.last parts "" in
            if bool_decide (name ∈ [""; "."; ".."]) then Node Dir
            else
              match d !! String.concat "/" (directory ++ [name]) with
              | Some n => Node n
              | None => Nothing
              end
        end
  end.

(** [os.path.exists(p)] *)
Definition os_path_exists (p : string) : IO bool := λ w,
  (Ret (match lookup_path (disk w) p with
        | Node _ => true
        | _ => false
        end), w).

(** [with open(p, 'a') as f: f.write(s)] *)
Definition append_file (p s : string) : IO unit := λ w,
  match disk w !! p with
  | None => (Ret tt, with_disk (insert p (File s)) w)
  | Some (File c) => (Ret tt, with_disk (insert p (File (c +:+ s))) w)
  | Some Dir => (Raise OSError, w)
  end.

(** [df.to_csv(p, index=False, encoding='utf-8-sig')]: the file is opened
    for writing, which fails on a directory, where the directory of the
    new file is missing, and on what is not a path. *)
Definition df_to_csv `{Csv} (df : DataFrame) (p : string) : IO unit := λ w,
  match lookup_path (disk w) p with
  | Node (File _) | Nothing =>
      (Ret tt, with_disk (insert p (File (to_csv df))) w)
  | Node Dir | NoSuchPath => (Raise OSError, w)
  | Invalid => (Raise ValueError, w)
  end.

(** [pd.read_csv(p, encoding='utf-8-sig')] *)
Definition pd_read_csv `{Csv} (p : string) : IO DataFrame := λ w,
  match lookup_path (disk w) p with
  | Node (File c) =>
      match read_csv c with
      | Some df => (Ret df, w)
      | None => (Raise ValueError, w)
      end
  | Invalid => (Raise ValueError, w)
  | _ => (Raise OSError, w)
  end.

End Sys.
Export Sys.

(** ** config/settings.py *)

Module Config.

Definition MAX_PAGES : Z := 300.
Definition OUTPUT_DIR : string := "data".
Definition OUTPUT_FILENAME_PREFIX : string := "beijing_rental_data".

End Config.
Export Config.

(** ** src/scraper/spider.py: class LianjiaSpider *)

Module LianjiaSpider.

Section Extractor.
Context {py : Prims}.

(** 1. title and rent type *)
Definition parse_title (item_div : node) (listing : dict) : dict :=
  match find "p" (Some "content__list--item--title") item_div with
  | Some title_elem =>
      let title_text := get_text title_elem in
      let listing := dict_set "title" (VStr title_text) listing in
      if str_contains "整租" title_text then
        dict_set "rent_type" (VStr "整租") listing
      else if str_contains "合租" title_text then
        dict_set "rent_type" (VStr "合租") listing
      else
        dict_set "rent_type" (VStr "其他") listing
  | None => listing
  end.

(** 3. the description line: district links, area, orientation, layout and
    the hidden floor span *)
Definition parse_links (des_elem : node) (listing : dict) : dict :=
  match find_all "a" None des_elem with
  | a0 :: a1 :: a2 :: _ =>
      let listing := dict_set "district" (VStr (get_text a0)) listing in
      let listing := dict_set "sub_district" (VStr (get_text a1)) listing in
      dict_set "community" (VStr (get_text a2)) listing
  | _ => listing
  end.

Definition parse_area (des_text : string) (listing : dict) : res dict :=
  match re_search "(\d+\.?\d*)㎡" des_text with
  | Some area_match =>
      g ← group area_match 1;
      x ← float_ g;
      Ret (dict_set "area" (VFloat x) listing)
  | None => Ret listing
  end.

Definition parse_orientation (des_text : string) (listing : dict) : res dict :=
  match re_search "/([^/]*?)/" des_text with
  | Some orientation_match =>
      g ← group orientation_match 1;
      Ret (dict_set "orientation" (VStr (py_strip g)) listing)
  | None => Ret listing
  end.

Definition parse_layout (des_text : string) (listing : dict) : res dict :=
  match re_search "(\d+)室(\d+)厅(\d+)卫" des_text with
  | Some layout_match =>
      g1 ← group layout_match 1;
      n1 ← int_ g1;
      let listing := dict_set "bedrooms" (VInt n1) listing in
      g2 ← group layout_match 2;
      n2 ← int_ g2;
      let listing := dict_set "living_rooms" (VInt n2) listing in
      g3 ← group layout_match 3;
      n3 ← int_ g3;
      Ret (dict_set "bathrooms" (VInt n3) listing)
  | None => Ret listing
  end.

Definition parse_floor (des_elem : node) (listing : dict) : res dict :=
  match find "span" (Some "hide") des_elem with
  | Some hide_elem =>
      let hide_text := get_text hide_elem in
      match re_search "(\w+)楼层.*?\((\d+)层\)" hide_text with
      | Some floor_match =>
          g1 ← group floor_match 1;
          let listing := dict_set "floor_level" (VStr g1) listing in
          g2 ← group floor_match 2;
          n ← int_ g2;
          Ret (dict_set "total_floors" (VInt n) listing)
      | None => Ret listing
      end
  | None => Ret listing
  end.

Definition parse_des (item_div : node) (listing : dict) : res dict :=
  match find "p" (Some "content__list--item--des") item_div with
  | Some des_elem =>
      let des_text := get_text des_elem in
      let listing := parse_links des_elem listing in
      listing ← parse_area des_text listing;
      listing ← parse_orientation des_text listing;
      listing ← parse_layout des_text listing;
      parse_floor des_elem listing
  | None => Ret listing
  end.

(** 4. tags *)
Definition parse_tags (item_div : node) (listing : dict) : dict :=
  match find "p" (Some "content__list--item--bottom") item_div with
  | Some bottom_elem =>
      let tags :=
        List.filter (λ tag_text, negb (bool_decide (tag_text = "")))
          (get_text <$> find_all "i" None bottom_elem) in
      dict_set "tags" (VStr (str_join "|" tags)) listing
  | None => listing
  end.

(** 5. platform *)
Definition parse_platform (item_div : node) (listing : dict) : dict :=
  match find "p" (Some "content__list--item--brand") item_div with
  | Some brand_elem =>
      match find "span" (Some "brand") brand_elem with
      | Some brand_span => dict_set "platform" (VStr (get_text brand_span)) listing
      | None => dict_set "platform" (VStr (get_text brand_elem)) listing
      end
  | None => listing
  end.

(** 6. price *)
Definition parse_price (item_div : node) (listing : dict) : dict :=
  match find "span" (Some "content__list--item-price") item_div with
  | Some price_elem =>
      match find "em" None price_elem with
      | Some em_elem =>
          let price_text := get_text em_elem in
          match py_int price_text with
          | Some n => dict_set "price" (VInt n) listing
          | None (* except ValueError *) => dict_set "price" (VInt 0) listing
          end
      | None => listing
      end
  | None => listing
  end.

(** The body of the [try] block of [parse_listing]. *)
Definition parse_listing_try (item_div : node) : res dict :=
  let listing : dict := [] in
  let listing := parse_title item_div listing in
  listing ← parse_des item_div listing;
  let listing := parse_tags item_div listing in
  let listing := parse_platform item_div listing in
  let listing := parse_price item_div listing in
  Ret listing.

(** [parse_listing(self, item_div)]: the record, or [None] after an
    exception was caught and reported. *)
Definition parse_listing (item_div : node) : IO (option dict) :=
  try_except
    (listing ← lift (parse_listing_try item_div); mret (Some listing))
    is_Exception
    (λ e, print (PParseFailed e);; mret None).

End Extractor.

Section Crawler.
Context {py : Prims} {net : Network} {csv : Csv}.

(** The loop over the items of a page in [scrape_page]: a listing is kept
    when [parse_listing] returned a non-empty dict. *)
Fixpoint parse_items (listings : list node) : IO (list dict) :=
  match listings with
  | [] => mret []
  | item :: rest =>
      parsed ← parse_listing item;
      parsed_listings ← parse_items rest;
      match parsed with
      | Some ((_ :: _) as listing) => mret (listing :: parsed_listings)
      | _ => mret parsed_listings
      end
  end.

(** [scrape_page(self, page_num)] *)
Definition scrape_page (page_num : Z) : IO (list dict) :=
  response ← session_get page_num;
  match response with
  | RequestException => print (PRequestFailed page_num);; mret []
  | OtherException => print (PPageError page_num);; mret []
  | Html soup =>
      match find "div" (Some "content__list") soup with
      | None => print (PNoContainer page_num);; mret []
      | Some list_container =>
          match find_all "div" (Some "content__list--item") list_container with
          | [] => print (PNoItems page_num);; mret []
          | listings =>
              parsed_listings ← parse_items listings;
              print (PParsed page_num (length parsed_listings));;
              mret parsed_listings
          end
      end
  end.

(** [save_skipped_pages(self, skipped_pages)] *)
Definition save_skipped_pages (skipped_pages : list Z) : IO unit :=
  match skipped_pages with
  | [] => mret tt
  | _ =>
      let filename := OUTPUT_FILENAME_PREFIX +:+ "_skipped_pages.txt" in
      os_makedirs OUTPUT_DIR;;
      let filepath := os_path_join OUTPUT_DIR filename in
      append_file filepath
        (String.concat "" ((λ page_num, pretty page_num +:+ newline)
                             <$> skipped_pages));;
      print (PSkippedSaved filepath (length skipped_pages))
  end.

(** The local variables of [scrape_page_range] that the loop updates. *)
Record crawl : Type := mkCrawl {
  all_listings : list dict;
  skipped_pages : list Z;
  consecutive_empty_pages : Z
}.

Definition max_consecutive_empty : Z := 3.

(** [for page_num in pages: ...], with its [break] and [continue]. *)
Fixpoint crawl_loop (pages : list Z) (st : crawl) : IO crawl :=
  match pages with
  | [] => mret st
  | page_num :: rest =>
      print (PCrawling page_num);;
      listings ← scrape_page page_num;
      match listings with
      | [] =>
          let c := consecutive_empty_pages st + 1 in
          let st := mkCrawl (all_listings st) (skipped_pages st ++ [page_num]) c in
          print (PEmptyPage page_num c);;
          if max_consecutive_empty <=? c then
            print (PGapStop max_consecutive_empty);;
            mret st                                    (* break *)
          else
            crawl_loop rest st                         (* continue *)
      | _ =>
          let st := mkCrawl (all_listings st ++ listings) (skipped_pages st) 0 in
          time_sleep;;
          crawl_loop rest st
      end
  end.

(** The loop of [scrape_page_range] from its initial state. *)
Definition crawl_pages (start_page end_page : Z) : IO crawl :=
  crawl_loop (range start_page (end_page + 1)) (mkCrawl [] [] 0).

(** [scrape_page_range(self, start_page, end_page)] *)
Definition scrape_page_range (start_page end_page : Z) : IO (list dict) :=
  print (PCrawlStart start_page end_page);;
  st ← crawl_pages start_page end_page;
  print (PTotal (length (all_listings st)));;
  match skipped_pages st with
  | [] => mret tt
  | _ => save_skipped_pages (skipped_pages st)
  end;;
  mret (all_listings st).

(** [scrape_all(self, max_pages=None)] *)
Definition scrape_all (max_pages : option Z) : IO (list dict) :=
  scrape_page_range 1
    (match max_pages with
     | Some n => if n =? 0 then MAX_PAGES else n
     | None => MAX_PAGES
     end).

(** [save_to_csv(self, listings, filename=None, append=False)] *)
Definition save_to_csv (listings : list dict) (filename : option string)
    (append : bool) : IO (option string) :=
  match listings with
  | [] => mret None
  | _ =>
      let filename :=
        match filename with
        | Some f => f
        | None => OUTPUT_FILENAME_PREFIX +:+ ".csv"
        end in
      let df := pd_DataFrame listings in
      os_makedirs OUTPUT_DIR;;
      let filepath := os_path_join OUTPUT_DIR filename in
      present ← os_path_exists filepath;
      df ← (if append && present then
              try_except
                (existing_df ← pd_read_csv filepath;
                 let df := pd_concat existing_df df in
                 print (PAppendTo filepath);;
                 mret df)
                is_Exception
                (λ _, print PReadFailed;; mret df)
            else mret df);
      df_to_csv df filepath;;
      print (PSaved filepath (df_len df));;
      mret (Some filepath)
  end.

End Crawler.

End LianjiaSpider.

(** ** src/utils/data_processor.py *)

Module data_processor.

(** [clean_data(df)] *)
Definition clean_data (df : option DataFrame) : IO (option DataFrame) :=
  match df with
  | None => mret None
  | Some df =>
      if df_empty df then mret (Some df)
      else
        let df_cleaned := drop_duplicates df in
        df_cleaned ← lift (dropna ["price"; "area"] df_cleaned);
        price_ok ← lift (series_gt0 "price" (df_rows df_cleaned));
        area_ok ← lift (series_gt0 "area" (df_rows df_cleaned));
        let df_cleaned :=
          {| df_columns := df_columns df_cleaned;
             df_rows := select (zip_with andb price_ok area_ok)
                          (df_rows df_cleaned) |} in
        print (PCleaned (df_len df) (df_len df_cleaned));;
        mret (Some df_cleaned)
  end.

End data_processor.

(** ** scripts/run_scraper.py *)

Module run_scraper.

Import LianjiaSpider.

Section Script.
Context {py : Prims} {net : Network} {csv : Csv}.

(** One round of the [while True] loop of [get_page_range_interactive]:
    [None] goes round again, [Some r] returns [r]. *)
Definition ask_once : IO (option (option (Z * Z))) :=
  try_except
    (start_input ← input PPromptStart;
     let start_input := py_strip start_input in
     start_page ← (if bool_decide (start_input = "") then mret 1
                   else lift (int_ start_input));
     end_input ← input PPromptEnd;
     let end_input := py_strip end_input in
     if bool_decide (end_input = "") then
       print PErrEndEmpty;; mret None
     else
       end_page ← lift (int_ end_input);
       if start_page <? 1 then
         print PErrStartBelow1;; mret None
       else if end_page <? start_page then
         print PErrEndBelowStart;; mret None
       else
         mret (Some (Some (start_page, end_page))))
    (λ e, match e with ValueError | KeyboardInterrupt => true | _ => false end)
    (λ e, match e with
          | ValueError => print PErrNotInteger;; mret None
          | _ => print PCancelled;; mret (Some None)
          end).

Fixpoint ask_loop (rounds : nat) : IO (option (Z * Z)) :=
  match rounds with
  | O => raise EOFError
  | S rounds =>
      r ← ask_once;
      match r with
      | Some answer => mret answer
      | None => ask_loop rounds
      end
  end.

(** [get_page_range_interactive()].  A round that goes round again has read
    at least one line, so one round more than there are lines left is
    enough for the loop to return or to hit the end of the input. *)
Definition get_page_range_interactive : IO (option (Z * Z)) :=
  print PBanner;;
  print PAskRange;;
  lines_left ← pending_input;
  ask_loop (S lines_left).

(** The argument handling at the top of [main]: the page range to crawl,
    or [None] where [main] returns early. *)
Definition page_range (argv : list string) : IO (option (Z * Z)) :=
  if bool_decide (length argv = 1%nat) then
    get_page_range_interactive
  else
    let start_page := 1 in
    let end_page := 10 in
    if bool_decide (length argv = 2%nat) then
      match py_int (argv !!! 1%nat) with
      | Some end_page => mret (Some (start_page, end_page))
      | None => print PErrArgNotInteger;; mret None
      end
    else if bool_decide (length argv = 3%nat) then
      match py_int (argv !!! 1%nat) with
      | Some start_page =>
          match py_int (argv !!! 2%nat) with
          | Some end_page =>
              if (end_page <? start_page) || (start_page <? 1) then
                print PErrArgRange;; mret None
              else mret (Some (start_page, end_page))
          | None => print PErrArgNotInteger;; mret None
          end
      | None => print PErrArgNotInteger;; mret None
      end
    else mret (Some (start_page, end_page)).

Definition num (v : value) : Q :=
  match v with
  | VInt n => inject_Z n
  | VFloat x => x
  | VStr _ => 0%Q
  end.

(** [[item[k] for item in listings if item.get(k, 0) > 0]] *)
Fixpoint positive_field (k : string) (listings : list dict) : res (list value) :=
  match listings with
  | [] => Ret []
  | item :: rest =>
      let v := default (VInt 0) (dict_get k item) in
      b ← value_gt0 v;
      vs ← positive_field k rest;
      Ret (if b : bool then v :: vs else vs)
  end.

(** A running sum: an [int], or a float, which is [None] once it is inf or
    nan. *)
Inductive number : Type :=
| NInt (n : Z)
| NFloat (x : option Q).

(** [x + y] on floats *)
Definition float_add (x y : option Q) : option Q :=
  match x, y with
  | Some x, Some y => py_round (x + y)
  | _, _ => None
  end.

(** [a + v]: integers add up exactly; an [int] that meets a float is made a
    float first. *)
Definition py_add (a : number) (v : value) : res number :=
  match a, v with
  | _, VStr _ => Raise TypeError
  | NInt a, VInt n => Ret (NInt (a + n))
  | NInt a, VFloat x => a ← float_of_int a; Ret (NFloat (float_add (Some a) (Some x)))
  | NFloat a, VInt n => n ← float_of_int n; Ret (NFloat (float_add a (Some n)))
  | NFloat a, VFloat x => Ret (NFloat (float_add a (Some x)))
  end.

(** [sum(vs)], begun at the [int] 0: the values are added from left to
    right, and every sum that is a float is rounded. *)
Fixpoint py_sum (a : number) (vs : list value) : res number :=
  match vs with
  | [] => Ret a
  | v :: vs' => a ← py_add a v; py_sum a vs'
  end.

(** [a / n] for a count [n] above 0: the quotient of two [int]s is rounded
    once, and raises [OverflowError] where it is beyond the range of floats. *)
Definition py_truediv (a : number) (n : nat) : res (option Q) :=
  match a with
  | NInt a =>
      match py_round (inject_Z a / inject_Z (Z.of_nat n)) with
      | Some x => Ret (Some x)
      | None => Raise OverflowError
      end
  | NFloat (Some x) => Ret (py_round (x / inject_Z (Z.of_nat n)))
  | NFloat None => Ret None
  end.

(** [sum(vs) / len(vs)] *)
Definition mean (vs : list value) : res (option Q) :=
  total ← py_sum (NInt 0) vs;
  py_truediv total (length vs).

(** [min(vs)] and [max(vs)] on numbers: the first of the least, or
    greatest, values. *)
Definition py_min (vs : list value) : value :=
  foldl (λ best v, if Qle_bool (num best) (num v) then best else v)
    (default (VInt 0) (head vs)) (tail vs).

Definition py_max (vs : list value) : value :=
  foldl (λ best v, if Qle_bool (num v) (num best) then best else v)
    (default (VInt 0) (head vs)) (tail vs).

(** The number a [:.0f] field formats: an [int] is made a float first. *)
Definition to_float (v : value) : res Q :=
  match v with
  | VInt n => float_of_int n
  | VFloat x => Ret x
  | VStr _ => Raise ValueError
  end.

(** [districts[district] = districts.get(district, 0) + 1] *)
Fixpoint count_incr (district : value) (districts : list (value * Z))
  : list (value * Z) :=
  match districts with
  | [] => [(district, 1)]
  | (d, n) :: rest =>
      if value_eqb district d then (d, n + 1) :: rest
      else (d, n) :: count_incr district rest
  end.

Definition count_districts (listings : list dict) : list (value * Z) :=
  foldl (λ districts item,
           count_incr (default (VStr "未知") (dict_get "district" item)) districts)
        [] listings.

(** [sorted(items, key=lambda x: x[1], reverse=True)]: by falling count,
    items of equal count in the order they had. *)
Fixpoint insert_by_count (item : value * Z) (sorted : list (value * Z))
  : list (value * Z) :=
  match sorted with
  | [] => [item]
  | other :: rest =>
      if other.2 <? item.2 then item :: sorted
      else other :: insert_by_count item rest
  end.

Definition sorted_by_count (items : list (value * Z)) : list (value * Z) :=
  foldl (λ sorted item, insert_by_count item sorted) [] items.

(** [dict(sorted(districts.items(), ...)[:5])] *)
Definition top_districts (listings : list dict) : list (value * Z) :=
  take 5 (sorted_by_count (count_districts listings)).

(** The data overview that [main] prints after saving. *)
Definition overview (listings : list dict) (filepath : option string) : IO unit :=
  print POverview;;
  print (PCount (length listings));;
  prices ← lift (positive_field "price" listings);
  match prices with
  | [] => mret tt
  | _ =>
      average ← lift (mean prices);
      print (PAvgPrice average);;
      lowest ← lift (to_float (py_min prices));
      print (PMinPrice lowest);;
      highest ← lift (to_float (py_max prices));
      print (PMaxPrice highest)
  end;;
  areas ← lift (positive_field "area" listings);
  match areas with
  | [] => mret tt
  | _ =>
      average ← lift (mean areas);
      print (PAvgArea average)
  end;;
  print (PDistricts (top_districts listings));;
  print (PSavedTo filepath);;
  print PDone.

(** [main()], run with [sys.argv = argv]. *)
Definition main (argv : list string) : IO unit :=
  r ← page_range argv;
  match r with
  | None => mret tt
  | Some (start_page, end_page) =>
      print (PRunStart start_page end_page);;
      print (PExpect (end_page - start_page + 1));;
      print PRule;;
      listings ← scrape_page_range start_page end_page;
      match listings with
      | [] => print PNoData
      | _ =>
          filepath ← save_to_csv listings None true;
          overview listings filepath
      end
  end.

End Script.

End run_scraper.

(** ** Vocabulary of the statements *)

Module Spec.

Import LianjiaSpider.

Definition world0 : world := mkWorld [] [] 0 ∅ [].

(** What the Page Fetcher yields for a page: the list [scrape_page] returns. *)
Definition page_result `{Prims} `{Network} (page : Z) : list dict :=
  match (scrape_page page world0).1 with
  | Ret listings => listings
  | Raise _ => []
  end.

(** What [scrape_page] prints for a page. *)
Definition page_output `{Prims} `{Network} (page : Z) : list line :=
  stdout (scrape_page page world0).2.

(** [w] after more lines were printed, more pages requested and more naps
    taken. *)
Definition extend (out : list line) (pages : list Z) (naps : nat) (w : world)
  : world :=
  mkWorld (stdout w ++ out) (requests w ++ pages) (sleeps w + naps)%nat
    (disk w) (stdin w).

(** The file system once [os.makedirs(OUTPUT_DIR)] has run. *)
Definition with_output_dir (d : gmap string fsnode) : gmap string fsnode :=
  match d !! OUTPUT_DIR with
  | None => <[OUTPUT_DIR := Dir]> d
  | Some _ => d
  end.

(** Whatever [r] raises is an [Exception]. *)
Definition catchable {A : Type} (r : res A) : Prop :=
  ∀ e, r = Raise e → is_Exception e = true.

Definition is_empty {A : Type} (l : list A) : bool :=
  match l with
  | [] => true
  | _ => false
  end.

(** The skipped-pages log and the text appended to it for [pages]. *)
Definition skipped_log : string :=
  os_path_join OUTPUT_DIR (OUTPUT_FILENAME_PREFIX +:+ "_skipped_pages.txt").

Definition log_lines (pages : list Z) : string :=
  String.concat "" ((λ page_num, pretty page_num +:+ newline) <$> pages).

Definition file_text (d : gmap string fsnode) (p : string) : string :=
  match d !! p with
  | Some (File c) => c
  | _ => ""
  end.

(** The output directory can be made and [p] can be opened for writing. *)
Definition writable (d : gmap string fsnode) (p : string) : Prop :=
  (∀ c, d !! OUTPUT_DIR ≠ Some (File c)) ∧ d !! p ≠ Some Dir.

(** The destination of [save_to_csv]. *)
Definition csv_path (filename : option string) : string :=
  os_path_join OUTPUT_DIR
    (match filename with
     | Some f => f
     | None => OUTPUT_FILENAME_PREFIX +:+ ".csv"
     end).

(** The rent type [parse_title] derives from a title. *)
Definition rent_type_of (title_text : string) : string :=
  if str_contains "整租" title_text then "整租"
  else if str_contains "合租" title_text then "合租"
  else "其他".

(** Neither cell of the row under [c] is a string. *)
Definition numeric_at (c : string) (r : gmap string value) : Prop :=
  ∀ s, r !! c ≠ Some (VStr s).

Definition positive_at (c : string) (r : gmap string value) : Prop :=
  ∃ v, r !! c = Some v ∧ value_gt0 v = Ret true.

(** The page holds no listing. *)
Definition empty_page `{Prims} `{Network} (page : Z) : bool :=
  is_empty (page_result page).

(** Somewhere in [bs] three consecutive entries are true. *)
Definition three_in_a_row (bs : list bool) : Prop :=
  ∃ l1 l2, bs = l1 ++ [true; true; true] ++ l2.



(** With the output directory there, [p] leads to no file. *)
Definition no_file_at (d : gmap string fsnode) (p : string) : Prop :=
  ∀ content, lookup_path (with_output_dir d) p ≠ Node (File content).

(** The output directory can be made and [p] can then be opened for
    writing: it is a file, or a free name in a directory that is there. *)
Definition can_save (d : gmap string fsnode) (p : string) : Prop :=
  (∀ c, d !! OUTPUT_DIR ≠ Some (File c))
  ∧ (lookup_path (with_output_dir d) p = Nothing
     ∨ ∃ content, lookup_path (with_output_dir d) p = Node (File content)).

End Spec.

(** ** Concrete primitives, a site and a CSV codec to run the model on *)

Module Demo.

Import LianjiaSpider Spec.

Definition is_space (c : Ascii.ascii) : bool :=
  let n := Ascii.nat_of_ascii c in
  bool_decide (n = 32%nat) || bool_decide (9 ≤ n ≤ 13)%nat.

Definition is_digit (c : Ascii.ascii) : bool :=
  let n := Ascii.nat_of_ascii c in
  bool_decide (48 ≤ n ≤ 57)%nat.

Fixpoint lstrip (s : string) : string :=
  match s with
  | String c s' => if is_space c then lstrip s' else s
  | EmptyString => s
  end.

(** [str.strip] on ASCII white space *)
Definition strip (s : string) : string :=
  String.rev (lstrip (String.rev (lstrip s))).

(** The longest prefix of digits, and what follows it. *)
Fixpoint span_digits (s : string) : string * string :=
  match s with
  | String c s' =>
      if is_digit c then let '(d, r) := span_digits s' in (String c d, r)
      else ("", s)
  | EmptyString => ("", "")
  end.

Fixpoint digits_value (acc : Z) (s : string) : Z :=
  match s with
  | String c s' => digits_value (10 * acc + Z.of_nat (Ascii.nat_of_ascii c - 48)) s'
  | EmptyString => acc
  end.

Definition unsigned (s : string) : option Z :=
  match span_digits s with
  | (String c d, "") => Some (digits_value 0 (String c d))
  | _ => None
  end.

(** [int] on ASCII decimal literals: white space, a sign, digits. *)
Definition int (s : string) : option Z :=
  match strip s with
  | String "-"%char s' => Z.opp <$> unsigned s'
  | String "+"%char s' => unsigned s'
  | s' => unsigned s'
  end.

(** [float] on literals [digits] or [digits.digits]. *)
Definition float (s : string) : option Q :=
  match span_digits (strip s) with
  | (String c d, "") => Some (inject_Z (digits_value 0 (String c d)))
  | (String c d, String "."%char f) =>
      match span_digits f with
      | (fd, "") =>
          Some (Qred (Qmake (digits_value 0 (String c d +:+ fd))
                        (Z.to_pos (10 ^ Z.of_nat (String.length fd)))))
      | _ => None
      end
  | _ => None
  end.

(** [s] without its prefix [p] *)
Fixpoint after_prefix (p s : string) : option string :=
  match p, s with
  | EmptyString, _ => Some s
  | String a p', String b s' => if decide (a = b) then after_prefix p' s' else None
  | _, _ => None
  end.

(** Leftmost position where [at_ : string → option A] succeeds. *)
Fixpoint leftmost {A : Type} (at_ : string → option A) (s : string) : option A :=
  match at_ s with
  | Some r => Some r
  | None =>
      match s with
      | String _ s' => leftmost at_ s'
      | EmptyString => None
      end
  end.

(** The area pattern of [parse_area], anchored at the start of [s] *)
Definition area_at (s : string) : option (list string) :=
  match span_digits s with
  | (String c d, String "."%char r) =>
      let '(f, r') := span_digits r in
      (λ _, [String c d +:+ "." +:+ f]) <$> after_prefix "㎡" r'
  | (String c d, r) => (λ _, [String c d]) <$> after_prefix "㎡" r
  | _ => None
  end.

Fixpoint until_slash (s : string) : option string :=
  match s with
  | String "/"%char _ => Some ""
  | String c s' => String c <$> until_slash s'
  | EmptyString => None
  end.

(** The pattern of [parse_orientation], anchored at the start of [s] *)
Definition orientation_at (s : string) : option (list string) :=
  match s with
  | String "/"%char s' => (λ g, [g]) <$> until_slash s'
  | _ => None
  end.

(** The pattern of [parse_layout], anchored at the start of [s] *)
Definition layout_at (s : string) : option (list string) :=
  match span_digits s with
  | (String c1 d1, r1) =>
      r1 ← after_prefix "室" r1;
      match span_digits r1 with
      | (String c2 d2, r2) =>
          r2 ← after_prefix "厅" r2;
          match span_digits r2 with
          | (String c3 d3, r3) =>
              (λ _, [String c1 d1; String c2 d2; String c3 d3])
                <$> after_prefix "卫" r3
          | _ => None
          end
      | _ => None
      end
  | _ => None
  end.

(** [re.search] for the three patterns above on ASCII digits; any other
    pattern has no match here. *)
Definition search (pattern text : string) : option (list string) :=
  if bool_decide (pattern = "(\d+\.?\d*)㎡") then leftmost area_at text
  else if bool_decide (pattern = "/([^/]*?)/") then leftmost orientation_at text
  else if bool_decide (pattern = "(\d+)室(\d+)厅(\d+)卫") then leftmost layout_at text
  else None.

(** Rounding that keeps every number within the range of floats as it is:
    the numbers that round to a float are those below 2^1024 - 2^970 in
    magnitude. *)
Definition round (x : Q) : option Q :=
  let bound := inject_Z (2 ^ 1024 - 2 ^ 970) in
  if Qle_bool bound x || Qle_bool x (- bound) then None else Some x.

Definition prims : Prims :=
  {| py_strip := strip; py_int := int; py_float := float; re_search := search;
     py_round := round |}.

(** Markup of a listing with nothing but a title and a price. *)
Definition title_and_price (title price : string) : node :=
  Tag "div" ["content__list--item"]
    [ Tag "p" ["content__list--item--title"; "twoline"]
        [Tag "a" [] [Text title]];
      Tag "span" ["content__list--item-price"]
        [Tag "em" [] [Text price]; Text " 元/月"] ].

(** Markup of a full listing. *)
Definition full_item : node :=
  Tag "div" ["content__list--item"]
    [ Tag "p" ["content__list--item--title"] [Text " 合租·望京花园 3居室 "];
      Tag "p" ["content__list--item--des"]
        [ Tag "a" [] [Text "朝阳"]; Text "-"; Tag "a" [] [Text "望京"];
          Text "-"; Tag "a" [] [Text "望京花园"]; Text "/";
          Text " 12.50㎡ "; Text "/"; Text "南"; Text "/";
          Text " 3室1厅1卫 " ];
      Tag "p" ["content__list--item--bottom"]
        [Tag "i" [] [Text "近地铁"]; Tag "i" [] [Text " "]; Tag "i" [] [Text "精装"]];
      Tag "p" ["content__list--item--brand"]
        [Tag "span" ["brand"] [Text "链家"]; Tag "span" [] [Text "3天前"]];
      Tag "span" ["content__list--item-price"] [Tag "em" [] [Text "2300-2600"]] ].

Definition page_of (items : list node) : node :=
  Tag "[document]" []
    [Tag "html" [] [Tag "body" [] [Tag "div" ["content__list"] items]]].

(** A site whose pages 6, 7 and 8 hold no listing. *)
Definition gap_site : Network :=
  {| http_get page :=
       if bool_decide (6 ≤ page ≤ 8) then Html (page_of [])
       else Html (page_of [title_and_price ("整租·" +:+ pretty page) "5000"]) |}.

(** A site where every page holds two listings. *)
Definition full_site : Network :=
  {| http_get page :=
       Html (page_of [title_and_price ("整租·" +:+ pretty page) "5000";
                      title_and_price ("合租·" +:+ pretty page) "1800"]) |}.

(** A site that is down. *)
Definition dead_site : Network := {| http_get _ := RequestException |}.

Fixpoint split_on (sep : Ascii.ascii) (s : string) : list string :=
  match s with
  | EmptyString => [""]
  | String c s' =>
      if decide (c = sep) then "" :: split_on sep s'
      else match split_on sep s' with
           | field :: fields => String c field :: fields
           | [] => [String c ""]
           end
  end.

Definition show_cell (cell : option value) : string :=
  match cell with
  | None => ""
  | Some (VStr s) => s
  | Some (VInt n) => pretty n
  | Some (VFloat x) =>
      if (Qden x =? 1)%positive then pretty (Qnum x) +:+ ".0"
      else pretty (Qnum x) +:+ "/" +:+ pretty (Zpos (Qden x))
  end.

Definition read_cell (field : string) : option value :=
  if bool_decide (field = "") then None
  else match int field, float field with
       | Some n, _ => Some (VInt n)
       | None, Some x => Some (VFloat x)
       | None, None => Some (VStr field)
       end.

Definition show_row (columns : list string) (r : gmap string value) : string :=
  str_join "," ((λ c, show_cell (r !! c)) <$> columns) +:+ newline.

Definition read_row (columns : list string) (l : string) : gmap string value :=
  list_to_map
    (omap (λ '(c, field), (λ v, (c, v)) <$> read_cell field)
       (zip columns (split_on ","%char l))).

(** The dtype inference of the sample tables.  A column that holds text
    is no float column, nor is a column with an integer beyond 64 bits, or
    with a negative integer beside one beyond 63 bits.  Any other column
    that holds a float or lacks a value in some row is a float column. *)
Definition fits_64 (cells : list (option value)) : bool :=
  forallb (λ cell, match cell with
                   | Some (VInt n) => (- 2 ^ 63 <=? n) && (n <? 2 ^ 64)
                   | _ => true
                   end) cells
  && negb (existsb (λ cell, match cell with
                            | Some (VInt n) => n <? 0
                            | _ => false
                            end) cells
           && existsb (λ cell, match cell with
                               | Some (VInt n) => 2 ^ 63 <=? n
                               | _ => false
                               end) cells).

Definition float64 (cells : list (option value)) : bool :=
  forallb (λ cell, match cell with
                   | Some (VStr _) => false
                   | _ => true
                   end) cells
  && fits_64 cells
  && existsb (λ cell, match cell with
                      | None | Some (VFloat _) => true
                      | _ => false
                      end) cells.

(** A comma-separated codec without quoting: a header line, then one line
    per row, an empty field for NaN. *)
Definition plain_csv : Csv :=
  {| float_column := float64;
     to_csv df :=
       str_join "," (df_columns df) +:+ newline
       +:+ String.concat "" (show_row (df_columns df) <$> df_rows df);
     read_csv text :=
       match List.filter (λ l, negb (bool_decide (l = "")))
               (split_on (Ascii.ascii_of_nat 10) text) with
       | [] => None
       | header :: lines =>
           let columns := split_on ","%char header in
           Some {| df_columns := columns;
                   df_rows := read_row columns <$> lines |}
       end |}.

Definition record (title : string) (price : Z) : dict :=
  [("title", VStr title); ("rent_type", VStr (rent_type_of title));
   ("price", VInt price)].

(** A table as it may come back from a file: a listing that appears twice,
    one without area, one with price 0 and one with a negative area. *)
Definition loaded_table : DataFrame :=
  {| df_columns := ["title"; "area"; "price"];
     df_rows :=
       dict_row <$>
         [ [("title", VStr "A"); ("area", VFloat (25 # 2)); ("price", VInt 2300)];
           [("title", VStr "B"); ("price", VInt 4100)];
           [("title", VStr "A"); ("area", VFloat (25 # 2)); ("price", VInt 2300)];
           [("title", VStr "C"); ("area", VFloat 60); ("price", VInt 0)];
           [("title", VStr "D"); ("area", VFloat (-1)); ("price", VInt 5000)];
           [("title", VStr "E"); ("area", VFloat 88); ("price", VFloat 7000)] ] |}.

End Demo.

(** ** config/settings.py: the field list *)

Module Settings.

Definition DATA_FIELDS : list string :=
  ["title"; "rent_type"; "district"; "sub_district"; "community"; "area";
   "orientation"; "bedrooms"; "living_rooms"; "bathrooms"; "floor_level";
   "total_floors"; "tags"; "platform"; "price"].

End Settings.
Export Settings.

(** ** src/scraper/spider.py: the cookie string *)

Module Cookies.

(** The text before the first [sep] and the text after it. *)
Fixpoint split_once (sep : Ascii.ascii) (s : string) : option (string * string) :=
  match s with
  | EmptyString => None
  | String c s' =>
      if decide (c = sep) then Some ("", s')
      else match split_once sep s' with
           | Some (before, after) => Some (String c before, after)
           | None => None
           end
  end.

(** [s.split(sep, 1)] *)
Definition str_split1 (sep : Ascii.ascii) (s : string) : list string :=
  match split_once sep s with
  | Some (before, after) => [before; after]
  | None => [s]
  end.

Section Parser.
Context {py : Prims}.

(** One round of the loop of [parse_cookie_string]. *)
Definition parse_pair (cookies : dict) (pair : string) : res dict :=
  let pair := py_strip pair in
  if str_contains "=" pair then
    match str_split1 "="%char pair with
    | [key; value] => Ret (dict_set (py_strip key) (VStr (py_strip value)) cookies)
    | _ => Raise ValueError           (* key, value = ... does not unpack *)
    end
  else Ret cookies.

Fixpoint parse_pairs (pairs : list string) (cookies : dict) : res dict :=
  match pairs with
  | [] => Ret cookies
  | first :: rest =>
      cookies ← parse_pair cookies first;
      parse_pairs rest cookies
  end.

(** [parse_cookie_string(self, cookie_string)] *)
Definition parse_cookie_string (cookie_string : string) : res dict :=
  if bool_decide (cookie_string = "") then Ret []
  else parse_pairs (str_split ";"%char cookie_string) [].

End Parser.

End Cookies.
Export Cookies.

(** ** Further vocabulary *)

Module Terms.

Import LianjiaSpider Spec.

(** The pages of [pages] that are, or are not, empty. *)
Definition empty_pages `{Prims} `{Network} (pages : list Z) : list Z :=
  List.filter empty_page pages.

Definition full_pages `{Prims} `{Network} (pages : list Z) : list Z :=
  List.filter (λ p, negb (empty_page p)) pages.

(** What [scrape_page] keeps of an item: the record [parse_listing] returns
    when it is not empty. *)
Definition kept_record `{Prims} (item : node) : option dict :=
  match parse_listing_try item with
  | Ret ((_ :: _) as listing) => Some listing
  | _ => None
  end.

(** The items of the listing container of a page, in document order; none
    where the request failed or the page has no container. *)
Definition page_items `{Network} (page : Z) : list node :=
  match http_get page with
  | Html soup =>
      match find "div" (Some "content__list") soup with
      | Some list_container =>
          find_all "div" (Some "content__list--item") list_container
      | None => []
      end
  | _ => []
  end.

Definition found {A : Type} (o : option A) : bool :=
  match o with
  | Some _ => true
  | None => false
  end.

(** The keys [ks] where [present], none otherwise. *)
Definition keys_if (present : bool) (ks : list string) : list string :=
  if present then ks else [].

(** Which parts of a listing's markup are there to be read. *)
Definition des_elem (item_div : node) : option node :=
  find "p" (Some "content__list--item--des") item_div.

Definition has_title (item_div : node) : bool :=
  found (find "p" (Some "content__list--item--title") item_div).

Definition has_links (item_div : node) : bool :=
  match des_elem item_div with
  | Some d => bool_decide (3 ≤ length (find_all "a" None d))%nat
  | None => false
  end.

Definition has_area `{Prims} (item_div : node) : bool :=
  match des_elem item_div with
  | Some d => found (re_search "(\d+\.?\d*)㎡" (get_text d))
  | None => false
  end.

Definition has_orientation `{Prims} (item_div : node) : bool :=
  match des_elem item_div with
  | Some d => found (re_search "/([^/]*?)/" (get_text d))
  | None => false
  end.

Definition has_layout `{Prims} (item_div : node) : bool :=
  match des_elem item_div with
  | Some d => found (re_search "(\d+)室(\d+)厅(\d+)卫" (get_text d))
  | None => false
  end.

Definition has_floor `{Prims} (item_div : node) : bool :=
  match des_elem item_div with
  | Some d =>
      match find "span" (Some "hide") d with
      | Some h => found (re_search "(\w+)楼层.*?\((\d+)层\)" (get_text h))
      | None => false
      end
  | None => false
  end.

Definition has_tags (item_div : node) : bool :=
  found (find "p" (Some "content__list--item--bottom") item_div).

Definition has_platform (item_div : node) : bool :=
  found (find "p" (Some "content__list--item--brand") item_div).

Definition has_price (item_div : node) : bool :=
  match find "span" (Some "content__list--item-price") item_div with
  | Some price_elem => found (find "em" None price_elem)
  | None => false
  end.

(** The keys of the record of a listing, by the parts that are there. *)
Definition record_keys `{Prims} (item_div : node) : list string :=
  keys_if (has_title item_div) ["title"; "rent_type"]
  ++ keys_if (has_links item_div) ["district"; "sub_district"; "community"]
  ++ keys_if (has_area item_div) ["area"]
  ++ keys_if (has_orientation item_div) ["orientation"]
  ++ keys_if (has_layout item_div) ["bedrooms"; "living_rooms"; "bathrooms"]
  ++ keys_if (has_floor item_div) ["floor_level"; "total_floors"]
  ++ keys_if (has_tags item_div) ["tags"]
  ++ keys_if (has_platform item_div) ["platform"]
  ++ keys_if (has_price item_div) ["price"].

(** The type of value each field of [DATA_FIELDS] holds. *)
Definition well_typed (k : string) (v : value) : bool :=
  if bool_decide (k ∈ ["bedrooms"; "living_rooms"; "bathrooms"; "total_floors";
                       "price"])
  then match v with VInt _ => true | _ => false end
  else if bool_decide (k = "area")
  then match v with VFloat _ => true | _ => false end
  else match v with VStr _ => true | _ => false end.

Definition typed_record (l : dict) : Prop :=
  ∀ k v, dict_get k l = Some v → well_typed k v = true.

(** The value is a number, an [int] or a float. *)
Definition numeric (v : value) : bool :=
  match v with
  | VStr _ => false
  | _ => true
  end.

(** The result is a value, or the exception [OverflowError]. *)
Definition overflows_at_worst {A : Type} (r : res A) : Prop :=
  match r with
  | Ret _ => True
  | Raise e => e = OverflowError
  end.

(** Whatever the world, [m] ends in a value that meets [post] or in an
    exception that meets [allowed]. *)
Definition ends {A : Type} (allowed : exn → Prop) (post : A → Prop) (m : IO A)
  : Prop :=
  ∀ w, match (m w).1 with
       | Ret a => post a
       | Raise e => allowed e
       end.

(** The cell of the row under [c] is there and above 0. *)
Definition positive_cell (c : string) (r : gmap string value) : bool :=
  match r !! c with
  | Some v =>
      match value_gt0 v with
      | Ret b => b
      | Raise _ => false
      end
  | None => false
  end.

(** The rows [clean_data] keeps. *)
Definition valid_row (r : gmap string value) : bool :=
  positive_cell "price" r && positive_cell "area" r.

(** No row of [rows] equals a row of [seen] or a row before it. *)
Fixpoint fresh_rows (columns : list string) (seen rows : list (gmap string value))
  : Prop :=
  match rows with
  | [] => True
  | r :: rows' =>
      existsb (row_eqb columns r) seen = false
      ∧ fresh_rows columns (seen ++ [r]) rows'
  end.

(** The value the pair gives the cookie [name], where it names it. *)
Definition cookie_named `{Prims} (name pair : string) : option string :=
  match split_once "="%char (py_strip pair) with
  | Some (key, value) =>
      if decide (py_strip key = name) then Some (py_strip value) else None
  | None => None
  end.

(** [m] requests no page and leaves the file system as it is, however it
    ends. *)
Definition quiet {A : Type} (m : IO A) : Prop :=
  ∀ w, requests (m w).2 = requests w ∧ disk (m w).2 = disk w.

(** The counts fall from the front of the table to its end. *)
Definition falling (districts : list (value * Z)) : Prop :=
  ∀ (i j : nat) (a b : value * Z),
    (i < j)%nat → districts !! i = Some a → districts !! j = Some b →
    b.2 ≤ a.2.

(** The records counted by a table of district counts. *)
Definition total_count (districts : list (value * Z)) : Z :=
  foldr (λ dn total, dn.2 + total) 0 districts.

End Terms.

(** ** Sample sites, records, tables and file systems *)

Module Samples.

Import LianjiaSpider Spec.

(** A site where every page holds the same listing. *)
Definition steady_site : Network :=
  {| http_get _ := Html (Demo.page_of [Demo.full_item]) |}.

(** A site whose pages 2, 3 and 5 hold no listing. *)
Definition patchy_site : Network :=
  {| http_get page :=
       if bool_decide (page ∈ [2; 3; 5]) then Html (Demo.page_of [])
       else Html (Demo.page_of [Demo.full_item]) |}.

(** The record of [Demo.full_item]. *)
Definition full_record : dict :=
  [("title", VStr "合租·望京花园 3居室"); ("rent_type", VStr "合租");
   ("district", VStr "朝阳"); ("sub_district", VStr "望京");
   ("community", VStr "望京花园"); ("area", VFloat (25 # 2));
   ("orientation", VStr "12.50㎡"); ("bedrooms", VInt 3);
   ("living_rooms", VInt 1); ("bathrooms", VInt 1);
   ("tags", VStr "近地铁|精装"); ("platform", VStr "链家");
   ("price", VInt 0)].

(** A file system where a file sits in the place of the output directory,
    and one where the destination of [save_to_csv] is an empty file. *)
Definition blocked_world : world :=
  mkWorld [] [] 0 {[OUTPUT_DIR := File ""]} [].

Definition garbled_world : world :=
  mkWorld [] [] 0 {[csv_path None := File ""]} [].

(** A site whose one listing asks a price of 401 digits, above every
    float. *)
Definition huge_price : string :=
  "1" +:+ String.concat "" (replicate 400 "0").

Definition dear_site : Network :=
  {| http_get _ :=
       Html (Demo.page_of [Demo.title_and_price "整租·两居" huge_price]) |}.

(** What is left of [Demo.loaded_table] once cleaned. *)
Definition cleaned_table : DataFrame :=
  {| df_columns := ["title"; "area"; "price"];
     df_rows :=
       dict_row <$>
         [ [("title", VStr "A"); ("area", VFloat (25 # 2)); ("price", VInt 2300)];
           [("title", VStr "E"); ("area", VFloat 88); ("price", VFloat 7000)] ] |}.

(** A table without area column, and one with a price that is text. *)
Definition table_without_area : DataFrame :=
  {| df_columns := ["title"; "price"];
     df_rows := dict_row <$> [ [("title", VStr "A"); ("price", VInt 2300)] ] |}.

Definition table_with_text : DataFrame :=
  {| df_columns := ["title"; "area"; "price"];
     df_rows :=
       dict_row <$>
         [ [("title", VStr "A"); ("area", VFloat 60); ("price", VStr "面议")] ] |}.

End Samples.

(** * Properties *)

Import LianjiaSpider Spec.

(** ** Running [IO] computations *)

Section IOFacts.

Lemma bind_ret {A B : Type} (m : IO A) (k : A → IO B) (w w' : world) (a : A) :
  m w = (Ret a, w') → (m ≫= k) w = k a w'.
Proof. intros Hm. unfold mbind, IO_bind. by rewrite Hm. Qed.

Lemma bind_raise {A B : Type} (m : IO A) (k : A → IO B) (w w' : world) (e : exn) :
  m w = (Raise e, w') → (m ≫= k) w = (Raise e, w').
Proof. intros Hm. unfold mbind, IO_bind. by rewrite Hm. Qed.

Lemma extend_nothing (w : world) : extend [] [] 0 w = w.
Proof.
  destruct w. unfold extend. simpl.
  by rewrite !app_nil_r, Nat.add_0_r.
Qed.

Lemma extend_extend (o1 o2 : list line) (p1 p2 : list Z) (n1 n2 : nat) (w : world) :
  extend o2 p2 n2 (extend o1 p1 n1 w) = extend (o1 ++ o2) (p1 ++ p2) (n1 + n2) w.
Proof.
  unfold extend. simpl. by rewrite !app_assoc, Nat.add_assoc.
Qed.

Lemma append_empty_r (s : string) : s +:+ "" = s.
Proof.
  induction s as [|c s IH]; [done|].
  change (String c (s +:+ "") = String c s). by rewrite IH.
Qed.

Lemma print_run (l : line) (w : world) : print l w = (Ret tt, extend [l] [] 0 w).
Proof. unfold print, extend. by rewrite app_nil_r, Nat.add_0_r. Qed.

Lemma time_sleep_run (w : world) : time_sleep w = (Ret tt, extend [] [] 1 w).
Proof.
  unfold time_sleep, extend. by rewrite !app_nil_r, Nat.add_1_r.
Qed.

End IOFacts.

(** ** Field Extractor *)

Section ExtractorFacts.
Context {py : Prims}.

Lemma catchable_ret {A : Type} (a : A) : catchable (Ret a).
Proof. by intros e ?. Qed.

Lemma catchable_bind {A B : Type} (m : res A) (k : A → res B) :
  catchable m → (∀ a, catchable (k a)) → catchable (m ≫= k).
Proof.
  intros Hm Hk e. destruct m as [a|e']; simpl.
  - apply Hk.
  - intros [= ->]. by apply Hm.
Qed.

Lemma catchable_group (m : list string) (i : nat) : catchable (group m i).
Proof. unfold group. intros e. by case_match; intros [= <-]. Qed.

Lemma catchable_int (s : string) : catchable (int_ s).
Proof. unfold int_. intros e. by case_match; intros [= <-]. Qed.

Lemma catchable_float (s : string) : catchable (float_ s).
Proof. unfold float_. intros e. by case_match; intros [= <-]. Qed.

Ltac solve_catchable :=
  repeat first
    [ apply catchable_ret | apply catchable_group | apply catchable_int
    | apply catchable_float | apply catchable_bind; [|intros ?]
    | case_match ].

Lemma catchable_area (des_text : string) (l : dict) : catchable (parse_area des_text l).
Proof. unfold parse_area. solve_catchable. Qed.

Lemma catchable_orientation (des_text : string) (l : dict) :
  catchable (parse_orientation des_text l).
Proof. unfold parse_orientation. solve_catchable. Qed.

Lemma catchable_layout (des_text : string) (l : dict) :
  catchable (parse_layout des_text l).
Proof. unfold parse_layout. solve_catchable. Qed.

Lemma catchable_floor (des_elem : node) (l : dict) :
  catchable (parse_floor des_elem l).
Proof. unfold parse_floor. solve_catchable. Qed.

Lemma catchable_des (item_div : node) (l : dict) : catchable (parse_des item_div l).
Proof.
  unfold parse_des. case_match; [|apply catchable_ret].
  repeat (apply catchable_bind; [|intros ?]);
    auto using catchable_area, catchable_orientation, catchable_layout,
      catchable_floor.
Qed.

Lemma catchable_try (item_div : node) : catchable (parse_listing_try item_div).
Proof.
  unfold parse_listing_try.
  apply catchable_bind; [apply catchable_des|intros ?; apply catchable_ret].
Qed.

Lemma parse_listing_returns (item_div : node) (listing : dict) (w : world) :
  parse_listing_try item_div = Ret listing →
  parse_listing item_div w = (Ret (Some listing), w).
Proof.
  intros Htry. unfold parse_listing, try_except, lift, mbind, IO_bind.
  by rewrite Htry.
Qed.

Lemma parse_listing_drops (item_div : node) (e : exn) (w : world) :
  parse_listing_try item_div = Raise e →
  parse_listing item_div w = (Ret None, extend [PParseFailed e] [] 0 w).
Proof.
  intros Htry. unfold parse_listing, try_except, lift, mbind, IO_bind.
  rewrite Htry, (catchable_try _ _ Htry), print_run. done.
Qed.

(** Whatever the markup, [parse_listing] returns: a record, or [None]
    after it printed the exception it caught. *)
Lemma parse_listing_total (item_div : node) :
  ∃ (r : option dict) (out : list line),
    ∀ w, parse_listing item_div w = (Ret r, extend out [] 0 w).
Proof.
  destruct (parse_listing_try item_div) as [listing|e] eqn:Htry.
  - exists (Some listing), []. intros w.
    rewrite extend_nothing. by apply parse_listing_returns.
  - exists None, [PParseFailed e]. intros w. by apply parse_listing_drops.
Qed.

End ExtractorFacts.

Section ExtractorClaims.
Context {py : Prims}.

Lemma dict_set_fresh (k : string) (v : value) (d : dict) :
  k ∉ dict_keys d → dict_set k v d = d ++ [(k, v)].
Proof.
  unfold dict_keys. induction d as [|[k' v'] d IH]; simpl; [done|].
  intros Hk. apply not_elem_of_cons in Hk as [Hne Hk].
  rewrite decide_False by done. by rewrite IH.
Qed.

Lemma dict_get_set (k : string) (v : value) (d : dict) :
  dict_get k (dict_set k v d) = Some v.
Proof.
  induction d as [|[k' v'] d IH]; simpl.
  - by rewrite decide_True.
  - destruct (decide (k = k')) as [->|Hne]; simpl.
    + by rewrite decide_True.
    + by rewrite decide_False.
Qed.

Lemma parse_title_found (item_div title_elem : node) :
  find "p" (Some "content__list--item--title") item_div = Some title_elem →
  parse_title item_div [] =
    [("title", VStr (get_text title_elem));
     ("rent_type", VStr (rent_type_of (get_text title_elem)))].
Proof.
  intros Hfind. unfold parse_title, rent_type_of. rewrite Hfind.
  by repeat case_match.
Qed.

Lemma parse_price_found (item_div price_elem em_elem : node) (listing : dict) :
  find "span" (Some "content__list--item-price") item_div = Some price_elem →
  find "em" None price_elem = Some em_elem →
  parse_price item_div listing =
    dict_set "price" (VInt (default 0 (py_int (get_text em_elem)))) listing.
Proof.
  intros Hspan Hem. unfold parse_price. rewrite Hspan, Hem.
  by destruct (py_int _).
Qed.

(** C5, as amended.  [parse_listing] never raises: for every markup it
    returns a record or [None], having printed at most the exception it
    caught.  For markup with a title element and a price element holding an
    [em], and no description, tag or brand element, it returns the record
    with exactly three fields: the title, the rent type derived from the
    title, and the price (0 where the text is no integer). *)
Theorem parse_listing_title_and_price (item_div : node) :
  (∃ (r : option dict) (out : list line),
     ∀ w, parse_listing item_div w = (Ret r, extend out [] 0 w))
  ∧ ∀ title_elem price_elem em_elem : node,
      find "p" (Some "content__list--item--title") item_div = Some title_elem →
      find "p" (Some "content__list--item--des") item_div = None →
      find "p" (Some "content__list--item--bottom") item_div = None →
      find "p" (Some "content__list--item--brand") item_div = None →
      find "span" (Some "content__list--item-price") item_div = Some price_elem →
      find "em" None price_elem = Some em_elem →
      ∀ w, parse_listing item_div w =
             (Ret (Some [("title", VStr (get_text title_elem));
                         ("rent_type", VStr (rent_type_of (get_text title_elem)));
                         ("price", VInt (default 0 (py_int (get_text em_elem))))]),
              w).
Proof.
  split; [apply parse_listing_total|].
  intros title_elem price_elem em_elem Htitle Hdes Hbottom Hbrand Hprice Hem w.
  apply parse_listing_returns.
  unfold parse_listing_try, parse_des, parse_tags, parse_platform.
  rewrite Hdes, Hbottom, Hbrand. simpl.
  rewrite (parse_price_found _ _ _ _ Hprice Hem), (parse_title_found _ _ Htitle).
  done.
Qed.

(** C7.  Where the price element and its [em] are present and the text of
    the [em] is no integer, the price step sets the price to 0: the step
    itself cannot fail, and the listing is returned with price 0 whenever
    the description step before it returned. *)
Theorem invalid_price_is_zero (item_div price_elem em_elem : node) :
  find "span" (Some "content__list--item-price") item_div = Some price_elem →
  find "em" None price_elem = Some em_elem →
  py_int (get_text em_elem) = None →
  (∀ listing, parse_price item_div listing = dict_set "price" (VInt 0) listing)
  ∧ ∀ described w,
      parse_des item_div (parse_title item_div []) = Ret described →
      ∃ listing,
        parse_listing item_div w = (Ret (Some listing), w)
        ∧ dict_get "price" listing = Some (VInt 0).
Proof.
  intros Hprice Hem Hint.
  assert (∀ listing,
    parse_price item_div listing = dict_set "price" (VInt 0) listing) as Hzero.
  { intros listing. rewrite (parse_price_found _ _ _ _ Hprice Hem). by rewrite Hint. }
  split; [done|].
  intros described w Hdes. eexists. split.
  - apply parse_listing_returns. unfold parse_listing_try.
    rewrite Hdes. simpl. reflexivity.
  - rewrite Hzero. apply dict_get_set.
Qed.

End ExtractorClaims.

(** Witness of C5: a listing with nothing but a title and a price. *)
Lemma parse_listing_title_and_price_witness :
  parse_listing (py:=Demo.prims) (Demo.title_and_price "合租·次卧" "1800") world0
  = (Ret (Some (Demo.record "合租·次卧" 1800)), world0).
Proof.
  exact (proj2 (parse_listing_title_and_price (py:=Demo.prims)
                  (Demo.title_and_price "合租·次卧" "1800"))
           (Tag "p" ["content__list--item--title"; "twoline"]
              [Tag "a" [] [Text "合租·次卧"]])
           (Tag "span" ["content__list--item-price"]
              [Tag "em" [] [Text "1800"]; Text " 元/月"])
           (Tag "em" [] [Text "1800"])
           eq_refl eq_refl eq_refl eq_refl eq_refl eq_refl world0).
Defined.

(** C5 as stated fails: the rent type is a third field of the record, and
    its value follows the title, so it is at no fixed default. *)
Lemma title_and_price_also_sets_rent_type :
  ¬ ∃ field_default : string → value,
      ∀ (title price : string) (listing : dict) (k : string) (v : value),
        parse_listing_try (py:=Demo.prims) (Demo.title_and_price title price)
          = Ret listing →
        dict_get k listing = Some v →
        k = "title" ∨ k = "price" ∨ v = field_default k.
Proof.
  intros [field_default Hclaim].
  pose proof (Hclaim "整租·两居" "5000" _ "rent_type" (VStr "整租") eq_refl eq_refl)
    as [?|[?|H1]]; [done..|].
  pose proof (Hclaim "合租·次卧" "1800" _ "rent_type" (VStr "合租") eq_refl eq_refl)
    as [?|[?|H2]]; [done..|].
  rewrite <- H1 in H2. discriminate H2.
Qed.

(** Witness of C7: a price that reads "面议". *)
Lemma invalid_price_is_zero_witness :
  ∃ listing,
    parse_listing (py:=Demo.prims) (Demo.title_and_price "整租·两居" "面议") world0
      = (Ret (Some listing), world0)
    ∧ dict_get "price" listing = Some (VInt 0).
Proof.
  exact (proj2 (invalid_price_is_zero (py:=Demo.prims)
                  (Demo.title_and_price "整租·两居" "面议")
                  (Tag "span" ["content__list--item-price"]
                     [Tag "em" [] [Text "面议"]; Text " 元/月"])
                  (Tag "em" [] [Text "面议"])
                  eq_refl eq_refl eq_refl)
           _ world0 eq_refl).
Defined.

(** ** Page Fetcher *)

Section FetcherFacts.
Context {py : Prims} {net : Network}.

Lemma parse_items_run (items : list node) :
  ∃ (listings : list dict) (out : list line),
    ∀ w, parse_items items w = (Ret listings, extend out [] 0 w).
Proof.
  induction items as [|item items (rest & out_rest & IH)]; simpl.
  - exists [], []. intros w. by rewrite extend_nothing.
  - destruct (parse_listing_total item) as (r & out & Hitem).
    exists (match r with Some ((_ :: _) as l) => l :: rest | _ => rest end),
      (out ++ out_rest).
    intros w.
    rewrite (bind_ret _ _ _ _ _ (Hitem w)), (bind_ret _ _ _ _ _ (IH _)).
    rewrite extend_extend. simpl.
    by destruct r as [[|]|].
Qed.

Lemma session_get_run (page : Z) (w : world) :
  session_get page w = (Ret (http_get page), extend [] [page] 0 w).
Proof. unfold session_get, extend. by rewrite app_nil_r, Nat.add_0_r. Qed.

Lemma scrape_page_total (page : Z) :
  ∃ (listings : list dict) (out : list line),
    ∀ w, scrape_page page w = (Ret listings, extend out [page] 0 w).
Proof.
  unfold scrape_page.
  match goal with |- context [session_get page ≫= ?f] => set (k := f) end.
  cut (∃ (listings : list dict) (out : list line),
         ∀ w, k (http_get page) (extend [] [page] 0 w)
              = (Ret listings, extend out [page] 0 w)).
  { intros (l & out & Hl). exists l, out. intros w.
    rewrite (bind_ret _ _ _ _ _ (session_get_run _ _)). apply Hl. }
  assert (∀ (l : line),
    ∃ (listings : list dict) (out : list line), ∀ w,
      (print l;; mret []) (extend [] [page] 0 w)
      = (Ret listings, extend out [page] 0 w)) as Hfail.
  { intros l. exists [], [l]. intros w.
    rewrite (bind_ret _ _ _ _ _ (print_run _ _)), extend_extend. done. }
  subst k. simpl.
  destruct (http_get page) as [| |soup]; [apply Hfail..|].
  destruct (find "div" (Some "content__list") soup) as [list_container|];
    [|apply Hfail].
  destruct (find_all "div" (Some "content__list--item") list_container)
    as [|item items]; [apply Hfail|].
  destruct (parse_items_run (item :: items)) as (l & out & Hitems).
  exists l, (out ++ [PParsed page (length l)]). intros w.
  rewrite (bind_ret _ _ _ _ _ (Hitems _)).
  rewrite (bind_ret _ _ _ _ _ (print_run _ _)), !extend_extend. done.
Qed.

(** [scrape_page] always returns, and what it returns and prints depends on
    the page alone; the request is on record. *)
Lemma scrape_page_run (page : Z) (w : world) :
  scrape_page page w
  = (Ret (page_result page), extend (page_output page) [page] 0 w).
Proof.
  destruct (scrape_page_total page) as (l & out & Hrun).
  unfold page_result, page_output. rewrite (Hrun world0), (Hrun w). done.
Qed.

End FetcherFacts.

(** ** Crawl Controller *)

Section CrawlFacts.
Context {py : Prims} {net : Network}.

(** One round of the loop on a page that holds listings. *)
Lemma crawl_loop_page (page : Z) (rest : list Z) (st : crawl) (w : world) :
  page_result page ≠ [] →
  crawl_loop (page :: rest) st w
  = crawl_loop rest
      (mkCrawl (all_listings st ++ page_result page) (skipped_pages st) 0)
      (extend (PCrawling page :: page_output page) [page] 1 w).
Proof.
  intros Hne. simpl.
  rewrite (bind_ret _ _ _ _ _ (print_run _ _)).
  rewrite (bind_ret _ _ _ _ _ (scrape_page_run _ _)).
  destruct (page_result page) as [|l ls]; [done|].
  rewrite (bind_ret _ _ _ _ _ (time_sleep_run _)), !extend_extend.
  simpl. by rewrite app_nil_r.
Qed.

(** One round on an empty page below the threshold: skip and go on. *)
Lemma crawl_loop_skip (page : Z) (rest : list Z) (st : crawl) (w : world) :
  page_result page = [] →
  consecutive_empty_pages st + 1 < max_consecutive_empty →
  crawl_loop (page :: rest) st w
  = crawl_loop rest
      (mkCrawl (all_listings st) (skipped_pages st ++ [page])
         (consecutive_empty_pages st + 1))
      (extend (PCrawling page :: page_output page
                 ++ [PEmptyPage page (consecutive_empty_pages st + 1)])
         [page] 0 w).
Proof.
  intros Hempty Hlt. simpl.
  rewrite (bind_ret _ _ _ _ _ (print_run _ _)).
  rewrite (bind_ret _ _ _ _ _ (scrape_page_run _ _)), Hempty.
  rewrite (bind_ret _ _ _ _ _ (print_run _ _)).
  destruct (Z.leb_spec max_consecutive_empty (consecutive_empty_pages st + 1));
    [lia|].
  rewrite !extend_extend. simpl. by rewrite <- ?app_assoc, ?app_nil_r.
Qed.

(** One round on an empty page that reaches the threshold: stop. *)
Lemma crawl_loop_stop (page : Z) (rest : list Z) (st : crawl) (w : world) :
  page_result page = [] →
  max_consecutive_empty ≤ consecutive_empty_pages st + 1 →
  crawl_loop (page :: rest) st w
  = (Ret (mkCrawl (all_listings st) (skipped_pages st ++ [page])
            (consecutive_empty_pages st + 1)),
     extend (PCrawling page :: page_output page
               ++ [PEmptyPage page (consecutive_empty_pages st + 1);
                   PGapStop max_consecutive_empty])
       [page] 0 w).
Proof.
  intros Hempty Hle. simpl.
  rewrite (bind_ret _ _ _ _ _ (print_run _ _)).
  rewrite (bind_ret _ _ _ _ _ (scrape_page_run _ _)), Hempty.
  rewrite (bind_ret _ _ _ _ _ (print_run _ _)).
  destruct (Z.leb_spec max_consecutive_empty (consecutive_empty_pages st + 1));
    [|lia].
  rewrite (bind_ret _ _ _ _ _ (print_run _ _)).
  rewrite !extend_extend. simpl. by rewrite <- ?app_assoc, ?app_nil_r.
Qed.

End CrawlFacts.

Section CrawlOutput.
Context {py : Prims} {net : Network}.

Lemma file_text_with_output_dir (d : gmap string fsnode) (p : string) :
  p ≠ OUTPUT_DIR → with_output_dir d !! p = d !! p.
Proof.
  intros Hne. unfold with_output_dir. case_match; [done|].
  by rewrite lookup_insert_ne.
Qed.

Lemma os_makedirs_run (w : world) :
  (∀ c, disk w !! OUTPUT_DIR ≠ Some (File c)) →
  os_makedirs OUTPUT_DIR w = (Ret tt, with_disk with_output_dir w).
Proof.
  intros Hdir. unfold os_makedirs, with_disk, with_output_dir.
  destruct (disk w !! OUTPUT_DIR) as [[|c]|] eqn:Hd; [|by destruct (Hdir c)|done].
  by destruct w.
Qed.

(** The effect of [save_skipped_pages] on a file system that lets it write:
    the page numbers are appended to the log, one per line. *)
Lemma save_skipped_pages_run (pages : list Z) (w : world) :
  pages ≠ [] →
  writable (disk w) skipped_log →
  save_skipped_pages pages w
  = (Ret tt,
     mkWorld (stdout w ++ [PSkippedSaved skipped_log (length pages)])
       (requests w) (sleeps w)
       (<[skipped_log := File (file_text (disk w) skipped_log +:+ log_lines pages)]>
          (with_output_dir (disk w)))
       (stdin w)).
Proof.
  intros Hne [Hdir Hlog]. unfold save_skipped_pages.
  destruct pages as [|page pages]; [done|].
  rewrite (bind_ret _ _ _ _ _ (os_makedirs_run _ Hdir)).
  fold skipped_log. fold (log_lines (page :: pages)).
  unfold mbind, IO_bind, append_file, file_text, with_disk, print. simpl.
  rewrite file_text_with_output_dir by done.
  by destruct (disk w !! skipped_log) as [[|c]|].
Qed.

(** The loop, for any list of pages and from any state: it returns; the
    pages it requested are a prefix of the list; it collected their
    listings and skipped those that were empty; and it stopped either at the
    end of the list or on an empty page with the counter at the threshold. *)
Lemma crawl_loop_spec (pages : list Z) (st : crawl) (w : world) :
  ∃ (st' : crawl) (fetched : list Z) (out : list line) (naps : nat),
    crawl_loop pages st w = (Ret st', extend out fetched naps w)
    ∧ fetched `prefix_of` pages
    ∧ all_listings st' = all_listings st ++ concat (page_result <$> fetched)
    ∧ skipped_pages st'
      = skipped_pages st ++ List.filter (λ p, is_empty (page_result p)) fetched
    ∧ (fetched = pages ∨ max_consecutive_empty ≤ consecutive_empty_pages st').
Proof.
  revert st w. induction pages as [|page rest IH]; intros st w.
  - exists st, [], [], 0%nat. simpl.
    rewrite extend_nothing, !app_nil_r. by repeat split; [|left].
  - destruct (page_result page) as [|l ls] eqn:Hpage.
    + destruct (Z.lt_ge_cases (consecutive_empty_pages st + 1)
                  max_consecutive_empty) as [Hlt|Hge].
      * rewrite (crawl_loop_skip _ _ _ _ Hpage Hlt).
        edestruct IH as (st' & fetched & out & naps & -> & Hpre & Hall & Hskip & Hend).
        exists st', (page :: fetched). eexists _, _.
        rewrite extend_extend. split; [done|]. simpl in *.
        rewrite Hpage. simpl. rewrite Hskip, <- app_assoc.
        repeat split; [by apply prefix_cons|done|].
        destruct Hend as [->|?]; [by left|by right].
      * rewrite (crawl_loop_stop _ _ _ _ Hpage Hge).
        eexists _, [page], _, _. split; [done|]. simpl.
        rewrite Hpage, app_nil_r. simpl.
        repeat split; [by apply prefix_cons, prefix_nil|by right].
    + rewrite crawl_loop_page by by rewrite Hpage.
      edestruct IH as (st' & fetched & out & naps & -> & Hpre & Hall & Hskip & Hend).
      exists st', (page :: fetched). eexists _, _.
      rewrite extend_extend. split; [done|]. simpl in *.
      rewrite Hpage in *. simpl. rewrite Hall, <- app_assoc.
      repeat split; [by apply prefix_cons|done|].
      destruct Hend as [->|?]; [by left|by right].
Qed.

(** After the loop: the total is printed, the skipped pages (if any) go to
    the log, and the listings are returned. *)
Lemma scrape_page_range_run (start_page end_page : Z) (st : crawl) (w w1 : world) :
  crawl_pages start_page end_page (extend [PCrawlStart start_page end_page] [] 0 w)
    = (Ret st, w1) →
  writable (disk w1) skipped_log ∨ skipped_pages st = [] →
  ∃ w2,
    scrape_page_range start_page end_page w = (Ret (all_listings st), w2)
    ∧ requests w2 = requests w1
    ∧ file_text (disk w2) skipped_log
      = file_text (disk w1) skipped_log +:+ log_lines (skipped_pages st)
    ∧ (skipped_pages st = [] → disk w2 = disk w1)
    ∧ ∀ p, p ≠ skipped_log → p ≠ OUTPUT_DIR → disk w2 !! p = disk w1 !! p.
Proof.
  intros Hcrawl Hdisk. unfold scrape_page_range.
  rewrite (bind_ret _ _ _ _ _ (print_run _ _)).
  rewrite (bind_ret _ _ _ _ _ Hcrawl).
  rewrite (bind_ret _ _ _ _ _ (print_run _ _)).
  destruct (skipped_pages st) as [|page pages] eqn:Hskipped.
  - eexists. split; [done|]. simpl.
    unfold log_lines. simpl.
    by rewrite append_empty_r, app_nil_r.
  - destruct Hdisk as [Hdisk|]; [|done].
    erewrite bind_ret; last by apply save_skipped_pages_run.
    eexists. split; [done|]. simpl.
    unfold file_text at 1. rewrite lookup_insert_eq, app_nil_r.
    repeat split; [done|].
    intros p Hp Hdir. rewrite lookup_insert_ne by done.
    by apply file_text_with_output_dir.
Qed.

End CrawlOutput.

Section CrawlTerminal.
Context {py : Prims} {net : Network}.

Lemma is_empty_true {A : Type} (l : list A) : is_empty l = true → l = [].
Proof. by destruct l. Qed.

Lemma three_in_a_row_cons (b : bool) (bs : list bool) :
  three_in_a_row bs → three_in_a_row (b :: bs).
Proof. intros (l1 & l2 & ->). by exists (b :: l1), l2. Qed.

Lemma three_in_a_row_app (l bs : list bool) :
  three_in_a_row bs → three_in_a_row (l ++ bs).
Proof. induction l; simpl; auto using three_in_a_row_cons. Qed.

Lemma three_in_a_row_app_l (bs l : list bool) :
  three_in_a_row bs → three_in_a_row (bs ++ l).
Proof.
  intros (l1 & l2 & ->). exists l1, (l2 ++ l). by rewrite <- !app_assoc.
Qed.

Lemma replicate_true_snoc (k : nat) (bs : list bool) :
  replicate (S k) true ++ bs = replicate k true ++ true :: bs.
Proof.
  change (true :: bs) with ([true] ++ bs).
  by rewrite app_assoc, <- replicate_S_end.
Qed.

Lemma three_replicate (k : nat) (bs : list bool) :
  (3 ≤ k)%nat → three_in_a_row (replicate k true ++ bs).
Proof.
  intros Hk. apply three_in_a_row_app_l.
  replace k with (3 + (k - 3))%nat by lia.
  exists [], (replicate (k - 3) true). by rewrite replicate_add.
Qed.

Lemma three_in_a_row_length (bs : list bool) :
  three_in_a_row bs → (3 ≤ length bs)%nat.
Proof. intros (l1 & l2 & ->). rewrite !length_app. simpl. lia. Qed.

(** Three in a row do not reach across an entry that is false. *)
Lemma three_in_a_row_split (l r : list bool) :
  three_in_a_row (l ++ false :: r) → three_in_a_row l ∨ three_in_a_row r.
Proof.
  intros (l1 & l2 & Heq).
  apply app_eq_inv in Heq as [(k & -> & Hk)|(k & -> & Hk)].
  - left. destruct k as [|[] [|[] [|[] k]]]; simplify_eq/=.
    by exists l1, k.
  - right. destruct k as [|b k]; simplify_eq/=. by exists k, l2.
Qed.

(** The loop, with its terminal state: started below the threshold it
    either runs through all the pages, never meeting a third empty page in
    a row, or stops on the first page that is the third empty one in a row,
    the counter at the threshold and the stop message printed last. *)
Lemma crawl_loop_terminal (pages : list Z) (st : crawl) (w : world) :
  0 ≤ consecutive_empty_pages st < max_consecutive_empty →
  ∃ (st' : crawl) (fetched : list Z) (out : list line) (naps : nat),
    crawl_loop pages st w = (Ret st', extend out fetched naps w)
    ∧ fetched `prefix_of` pages
    ∧ all_listings st' = all_listings st ++ concat (page_result <$> fetched)
    ∧ skipped_pages st'
      = skipped_pages st ++ List.filter (λ p, is_empty (page_result p)) fetched
    ∧ ((fetched = pages
        ∧ ¬ three_in_a_row
              (replicate (Z.to_nat (consecutive_empty_pages st)) true
                 ++ (empty_page <$> fetched))
        ∧ 0 ≤ consecutive_empty_pages st' < max_consecutive_empty)
       ∨ (∃ bs,
            replicate (Z.to_nat (consecutive_empty_pages st)) true
              ++ (empty_page <$> fetched) = bs ++ [true; true; true]
            ∧ ¬ three_in_a_row (bs ++ [true; true])
            ∧ consecutive_empty_pages st' = max_consecutive_empty
            ∧ last out = Some (PGapStop max_consecutive_empty))).
Proof.
  revert st w. induction pages as [|page rest IH]; intros st w Hc.
  - exists st, [], [], 0%nat. simpl.
    rewrite extend_nothing, !app_nil_r. repeat split; [done|]. left.
    repeat split; [|lia..].
    intros Hthree%three_in_a_row_length. rewrite length_replicate in Hthree.
    unfold max_consecutive_empty in Hc. lia.
  - destruct (page_result page) as [|l ls] eqn:Hpage.
    + destruct (Z.lt_ge_cases (consecutive_empty_pages st + 1)
                  max_consecutive_empty) as [Hlt|Hge].
      * rewrite (crawl_loop_skip _ _ _ _ Hpage Hlt).
        edestruct (IH (mkCrawl (all_listings st) (skipped_pages st ++ [page])
                         (consecutive_empty_pages st + 1)))
          as (st' & fetched & out & naps & Hrun & Hpre & Hall & Hskip & Hend).
        { simpl. lia. }
        rewrite Hrun.
        exists st', (page :: fetched). eexists _, _.
        rewrite extend_extend. split; [done|]. simpl in *.
        rewrite Hpage. simpl. rewrite Hskip, <- app_assoc.
        repeat split; [by apply prefix_cons|done|].
        rewrite Z2Nat.inj_add, Nat.add_1_r, replicate_true_snoc in Hend by lia.
        unfold empty_page at 1 3. rewrite Hpage. simpl.
        destruct Hend as [(-> & Hno & Hc')|(bs & Hbs & Hno & Hc' & Hlast)].
        -- by left.
        -- right. exists bs. repeat split; [done..|].
           rewrite app_comm_cons, last_app, Hlast. done.
      * rewrite (crawl_loop_stop _ _ _ _ Hpage Hge).
        eexists _, [page], _, _. split; [done|]. simpl.
        rewrite Hpage, app_nil_r. simpl.
        repeat split; [by apply prefix_cons, prefix_nil|]. right.
        assert (consecutive_empty_pages st = 2) as Hc2
          by (unfold max_consecutive_empty in *; lia).
        exists []. unfold empty_page. rewrite Hc2, Hpage. simpl.
        repeat split.
        -- intros Hthree%three_in_a_row_length. simpl in Hthree. lia.
        -- by rewrite app_comm_cons, last_app.
    + rewrite crawl_loop_page by by rewrite Hpage.
      edestruct (IH (mkCrawl (all_listings st ++ page_result page)
                       (skipped_pages st) 0))
        as (st' & fetched & out & naps & Hrun & Hpre & Hall & Hskip & Hend).
      { simpl. unfold max_consecutive_empty. lia. }
      rewrite Hrun.
      exists st', (page :: fetched). eexists _, _.
      rewrite extend_extend. split; [done|]. simpl in *.
      rewrite Hpage in *. simpl. rewrite Hall, <- app_assoc.
      repeat split; [by apply prefix_cons|done|].
      unfold empty_page at 1 3. rewrite Hpage. simpl.
      assert (¬ three_in_a_row
                (replicate (Z.to_nat (consecutive_empty_pages st)) true))
        as Hshort.
      { intros Hthree%three_in_a_row_length.
        rewrite length_replicate in Hthree.
        unfold max_consecutive_empty in Hc. lia. }
      destruct Hend as [(-> & Hno & Hc')|(bs & Hbs & Hno & Hc' & Hlast)].
      -- left. repeat split; [|lia..].
         by intros [?|?]%three_in_a_row_split.
      -- right.
         exists (replicate (Z.to_nat (consecutive_empty_pages st)) true
                   ++ false :: bs).
         split; [rewrite <- app_assoc; simpl; do 2 f_equal; exact Hbs|].
         repeat split; [|done|].
         ++ rewrite <- app_assoc, <- app_comm_cons.
            by intros [?|?]%three_in_a_row_split.
         ++ rewrite app_comm_cons, last_app, Hlast. done.
Qed.

End CrawlTerminal.

Section CrawlScenarios.
Context {py : Prims} {net : Network}.

Lemma range_1_10 : range 1 (10 + 1) = [1; 2; 3; 4; 5; 6; 7; 8; 9; 10].
Proof. reflexivity. Qed.

(** The loop over pages 1 to 10 when pages 1-5 hold listings and pages 6, 7
    and 8 are empty. *)
Lemma crawl_pages_gap (w : world) :
  (∀ p, 1 ≤ p ≤ 5 → page_result p ≠ []) →
  page_result 6 = [] → page_result 7 = [] → page_result 8 = [] →
  ∃ out,
    crawl_pages 1 10 w
    = (Ret (mkCrawl (concat (page_result <$> [1; 2; 3; 4; 5])) [6; 7; 8] 3),
       extend (out ++ [PEmptyPage 8 3; PGapStop 3]) [1; 2; 3; 4; 5; 6; 7; 8] 5 w).
Proof.
  intros Hfull H6 H7 H8. unfold crawl_pages. rewrite range_1_10.
  rewrite !crawl_loop_page by (apply Hfull; lia).
  rewrite (crawl_loop_skip 6), (crawl_loop_skip 7) by done.
  rewrite (crawl_loop_stop 8) by done.
  rewrite !extend_extend. simpl.
  rewrite app_nil_r, <- !app_assoc.
  eexists. f_equal. f_equal.
  rewrite !app_comm_cons, !app_assoc. f_equal.
Qed.

(** C1.  With listings on each of pages 1-5 and none on pages 6, 7 and 8
    (whatever pages 9 and 10 hold), a crawl of [1,10] requests pages 1 to 8
    and no other, leaves the loop on the third consecutive empty page (the
    stop message is the last thing the loop prints), and its skipped-pages
    list is [6,7,8]; where the log can be written, these three page numbers
    are what [scrape_page_range] appends to it. *)
Theorem crawl_stops_at_third_empty_page (w : world) :
  (∀ p, 1 ≤ p ≤ 5 → page_result p ≠ []) →
  page_result 6 = [] → page_result 7 = [] → page_result 8 = [] →
  ∃ (st : crawl) (w1 : world),
    crawl_pages 1 10 w = (Ret st, w1)
    ∧ requests w1 = requests w ++ [1; 2; 3; 4; 5; 6; 7; 8]
    ∧ last (stdout w1) = Some (PGapStop 3)
    ∧ skipped_pages st = [6; 7; 8]
    ∧ consecutive_empty_pages st = 3
    ∧ all_listings st = concat (page_result <$> [1; 2; 3; 4; 5])
    ∧ (writable (disk w) skipped_log →
       ∃ w2,
         scrape_page_range 1 10 w = (Ret (all_listings st), w2)
         ∧ requests w2 = requests w ++ [1; 2; 3; 4; 5; 6; 7; 8]
         ∧ file_text (disk w2) skipped_log
           = file_text (disk w) skipped_log +:+ log_lines [6; 7; 8]).
Proof.
  intros Hfull H6 H7 H8.
  destruct (crawl_pages_gap w Hfull H6 H7 H8) as [out Hrun].
  eexists _, _. split; [exact Hrun|]. simpl.
  repeat split.
  - change [PEmptyPage 8 3; PGapStop 3] with ([PEmptyPage 8 3] ++ [PGapStop 3]).
    rewrite !app_assoc. apply last_snoc.
  - intros Hdisk.
    destruct (crawl_pages_gap (extend [PCrawlStart 1 10] [] 0 w) Hfull H6 H7 H8)
      as [out' Hrun'].
    destruct (scrape_page_range_run _ _ _ _ _ Hrun' (or_introl Hdisk))
      as (w2 & Hrange & Hreq & Hlog & _).
    exists w2. split; [exact Hrange|]. split; [|exact Hlog].
    rewrite Hreq. simpl. by rewrite app_nil_r.
Qed.

(** C6.  With listings on every page from 1 to 10, the crawl of [1,10]
    requests exactly the pages 1, 2, ..., 10 in this order and returns their
    listings concatenated in page order; no page is skipped, and nothing is
    written to the file system. *)
Theorem crawl_without_gaps (w : world) :
  (∀ p, 1 ≤ p ≤ 10 → page_result p ≠ []) →
  ∃ (st : crawl) (w1 w2 : world),
    crawl_pages 1 10 w = (Ret st, w1)
    ∧ requests w1 = requests w ++ [1; 2; 3; 4; 5; 6; 7; 8; 9; 10]
    ∧ skipped_pages st = []
    ∧ all_listings st
      = concat (page_result <$> [1; 2; 3; 4; 5; 6; 7; 8; 9; 10])
    ∧ scrape_page_range 1 10 w = (Ret (all_listings st), w2)
    ∧ requests w2 = requests w ++ [1; 2; 3; 4; 5; 6; 7; 8; 9; 10]
    ∧ disk w2 = disk w.
Proof.
  intros Hfull.
  assert (∀ w, ∃ out,
    crawl_pages 1 10 w
    = (Ret (mkCrawl (concat (page_result <$> [1; 2; 3; 4; 5; 6; 7; 8; 9; 10])) [] 0),
       extend out [1; 2; 3; 4; 5; 6; 7; 8; 9; 10] 10 w)) as Hrun.
  { intros w'. unfold crawl_pages. rewrite range_1_10.
    rewrite !crawl_loop_page by (apply Hfull; lia).
    rewrite !extend_extend. simpl. rewrite app_nil_r, <- !app_assoc.
    by eexists. }
  destruct (Hrun w) as [out Hw].
  destruct (Hrun (extend [PCrawlStart 1 10] [] 0 w)) as [out' Hw'].
  destruct (scrape_page_range_run _ _ _ _ _ Hw' (or_intror eq_refl))
    as (w2 & Hrange & Hreq & _ & Hdisk & _).
  eexists _, _, w2. split; [exact Hw|]. simpl.
  repeat split; [exact Hrange| |by rewrite Hdisk].
  rewrite Hreq. simpl. by rewrite app_nil_r.
Qed.

(** C3.  Every range crawl on a file system that lets the log be written
    returns, in one of two terminal states.  End of range: every page of
    the range was requested, no three consecutive of them were empty, and
    the counter of empty pages is below the threshold.  Gap stop: the last
    three pages requested were empty, the first three in a row to be so, the
    counter is at the threshold and the stop message is the last thing the
    loop printed.  In either state the value returned is the aggregate list,
    the listings of the pages requested in page order, and the skipped page
    numbers, the requested pages that were empty, are appended to the
    skipped-pages log; no other file changes. *)
Theorem crawl_output (start_page end_page : Z) (w : world) :
  writable (disk w) skipped_log →
  ∃ (st : crawl) (fetched : list Z) (w1 w2 : world),
    crawl_pages start_page end_page
      (extend [PCrawlStart start_page end_page] [] 0 w) = (Ret st, w1)
    ∧ scrape_page_range start_page end_page w = (Ret (all_listings st), w2)
    ∧ requests w2 = requests w ++ fetched
    ∧ fetched `prefix_of` range start_page (end_page + 1)
    ∧ ((fetched = range start_page (end_page + 1)
        ∧ ¬ three_in_a_row (empty_page <$> fetched)
        ∧ 0 ≤ consecutive_empty_pages st < max_consecutive_empty)
       ∨ (∃ (l : list Z) (p1 p2 p3 : Z),
            fetched = l ++ [p1; p2; p3]
            ∧ page_result p1 = [] ∧ page_result p2 = [] ∧ page_result p3 = []
            ∧ ¬ three_in_a_row (empty_page <$> l ++ [p1; p2])
            ∧ consecutive_empty_pages st = max_consecutive_empty
            ∧ last (stdout w1) = Some (PGapStop max_consecutive_empty)))
    ∧ all_listings st = concat (page_result <$> fetched)
    ∧ skipped_pages st = List.filter (λ p, is_empty (page_result p)) fetched
    ∧ file_text (disk w2) skipped_log
      = file_text (disk w) skipped_log +:+ log_lines (skipped_pages st)
    ∧ ∀ p, p ≠ skipped_log → p ≠ OUTPUT_DIR → disk w2 !! p = disk w !! p.
Proof.
  intros Hdisk.
  destruct (crawl_loop_terminal (range start_page (end_page + 1))
              (mkCrawl [] [] 0)
              (extend [PCrawlStart start_page end_page] [] 0 w))
    as (st & fetched & out & naps & Hrun & Hpre & Hall & Hskip & Hend).
  { simpl. unfold max_consecutive_empty. lia. }
  destruct (scrape_page_range_run _ _ _ _ _ Hrun (or_introl Hdisk))
    as (w2 & Hrange & Hreq & Hlog & _ & Hframe).
  exists st, fetched. eexists _, w2. split; [exact Hrun|].
  split; [exact Hrange|].
  split; [rewrite Hreq; simpl; by rewrite app_nil_r|].
  split; [done|]. split; [|done].
  simpl in Hend.
  destruct Hend as [(Hall' & Hno & Hc)|(bs & Hbs & Hno & Hc & Hlast)];
    [by left|right].
  apply fmap_app_inv in Hbs as (l & tail & Hl & Htail & ->).
  destruct tail as [|p1 [|p2 [|p3 [|]]]]; simplify_eq/=.
  exists l, p1, p2, p3. unfold empty_page in *.
  rename select (true = is_empty (page_result p1)) into H.
  rename select (true = is_empty (page_result p2)) into H0.
  repeat split; try by apply is_empty_true.
  - rewrite fmap_app. simpl. by rewrite <- H, <- H0.
  - done.
  - by rewrite last_app, Hlast.
Qed.

End CrawlScenarios.

(** ** Persistence Writer *)

Section WriterClaims.
Context {py : Prims} {csv : Csv}.

(** C10.  Called with no listings, [save_to_csv] returns [None] and leaves
    the world as it found it: no directory is made, no file is created or
    changed, nothing is printed. *)
Theorem save_to_csv_nothing (filename : option string) (append : bool) (w : world) :
  save_to_csv [] filename append w = (Ret None, w).
Proof. reflexivity. Qed.

Lemma csv_path_not_output_dir (filename : option string) :
  csv_path filename ≠ OUTPUT_DIR.
Proof.
  unfold csv_path, os_path_join.
  destruct filename as [f|]; [|by vm_compute].
  destruct (String.prefix "/" f) eqn:Hf.
  - intros ->. by vm_compute in Hf.
  - by vm_compute.
Qed.

Lemma lookup_path_invalid (d : gmap string fsnode) (p : string) :
  lookup_path d p = Invalid → has_nul p = true.
Proof.
  unfold lookup_path. destruct (d !! p) as [n|]; [done|].
  destruct (has_nul p); [done|]. repeat case_match; done.
Qed.

Lemma lookup_path_node (d : gmap string fsnode) (p : string) (n : fsnode) :
  d !! p = Some n → lookup_path d p = Node n.
Proof. intros Hp. unfold lookup_path. by rewrite Hp. Qed.

(** What [save_to_csv] does with records, by what its destination leads to
    once the output directory is there. *)
Lemma save_to_csv_run (listings : list dict) (filename : option string)
    (append : bool) (w : world) :
  listings ≠ [] →
  (∀ c, disk w !! OUTPUT_DIR ≠ Some (File c)) →
  save_to_csv listings filename append w
  = let path := csv_path filename in
    let new := pd_DataFrame listings in
    let d := with_output_dir (disk w) in
    let after out d := mkWorld (stdout w ++ out) (requests w) (sleeps w) d (stdin w) in
    match lookup_path d path with
    | Invalid => (Raise ValueError, after [] d)
    | NoSuchPath => (Raise OSError, after [] d)
    | Node Dir => (Raise OSError, after (if append then [PReadFailed] else []) d)
    | Node (File content) =>
        let df := if append then
                    match read_csv content with
                    | Some existing => pd_concat existing new
                    | None => new
                    end
                  else new in
        (Ret (Some path),
         after ((if append then
                   [match read_csv content with
                    | Some _ => PAppendTo path
                    | None => PReadFailed
                    end]
                 else []) ++ [PSaved path (df_len df)])
           (<[path := File (to_csv df)]> d))
    | Nothing =>
        (Ret (Some path),
         after [PSaved path (df_len new)] (<[path := File (to_csv new)]> d))
    end.
Proof.
  intros Hne Hdir. unfold save_to_csv.
  destruct listings as [|l ls]; [done|]. clear Hne.
  fold (csv_path filename).
  rewrite (bind_ret _ _ _ _ _ (os_makedirs_run _ Hdir)).
  unfold mbind, IO_bind, os_path_exists, try_except, pd_read_csv, df_to_csv,
    print, mret, IO_ret, with_disk. cbn [disk stdout requests sleeps stdin].
  cbv zeta.
  destruct (lookup_path (with_output_dir (disk w)) (csv_path filename))
    as [| | |[|content]] eqn:Hpath.
  all: destruct append; cbn [andb is_Exception stdout requests sleeps disk stdin];
    rewrite ?Hpath; try destruct (read_csv content) as [existing|];
    cbn [is_Exception stdout requests sleeps disk stdin]; rewrite ?Hpath;
    cbn [stdout requests sleeps disk stdin];
    by rewrite <- ?app_assoc, ?app_nil_r.
Qed.

(** A first write to a destination: what [save_to_csv] leaves behind when
    it returns a path, in overwrite mode or with no file there yet. *)
Lemma save_to_csv_fresh (listings : list dict) (filename : option string)
    (append : bool) (path : string) (w w' : world) :
  save_to_csv listings filename append w = (Ret (Some path), w') →
  (append = true → no_file_at (disk w) (csv_path filename)) →
  path = csv_path filename
  ∧ listings ≠ []
  ∧ (∀ c, disk w !! OUTPUT_DIR ≠ Some (File c))
  ∧ disk w' = <[path := File (to_csv (pd_DataFrame listings))]>
                (with_output_dir (disk w)).
Proof.
  intros Hsave Hfresh.
  destruct listings as [|l ls]; [done|].
  assert (∀ c, disk w !! OUTPUT_DIR ≠ Some (File c)) as Hdir.
  { intros c Hd. unfold save_to_csv, mbind, IO_bind, os_makedirs in Hsave.
    by rewrite Hd in Hsave. }
  rewrite save_to_csv_run in Hsave by done. cbv zeta in Hsave.
  destruct (lookup_path _ _) as [| | |[|content]] eqn:Hpath;
    [done|done| |done|].
  - by injection Hsave as <- <-.
  - destruct append; [by destruct (Hfresh eq_refl content)|].
    by injection Hsave as <- <-.
Qed.






Lemma unify_length (columns : list string) (rows : list (gmap string value)) :
  length (unify columns rows) = length rows.
Proof. unfold unify. by rewrite length_fmap. Qed.

Lemma df_len_DataFrame (listings : list dict) :
  df_len (pd_DataFrame listings) = length listings.
Proof. unfold df_len. simpl. by rewrite unify_length, length_fmap. Qed.


(** Reading back what a first write left: [pd.read_csv] is handed the text
    [to_csv] made of [pd.DataFrame(listings)], a table with one row per
    listing. *)
Lemma save_to_csv_then_read (listings : list dict) (filename : option string)
    (append : bool) (path : string) (w w' : world) :
  save_to_csv listings filename append w = (Ret (Some path), w') →
  (append = true → no_file_at (disk w) (csv_path filename)) →
  pd_read_csv path w'
  = (match read_csv (to_csv (pd_DataFrame listings)) with
     | Some df => Ret df
     | None => Raise ValueError
     end, w')
  ∧ df_len (pd_DataFrame listings) = length listings.
Proof.
  intros Hsave Hfresh.
  destruct (save_to_csv_fresh _ _ _ _ _ _ Hsave Hfresh) as (-> & _ & _ & Hdisk).
  split; [|apply df_len_DataFrame].
  unfold pd_read_csv.
  rewrite (lookup_path_node _ _ (File (to_csv (pd_DataFrame listings))))
    by by rewrite Hdisk, lookup_insert_eq.
  by destruct (read_csv _).
Qed.

End WriterClaims.

(** ** Cleaning a table *)

Section CleanFacts.

Lemma Forall_sublist {A : Type} (P : A → Prop) (l k : list A) :
  l `sublist_of` k → Forall P k → Forall P l.
Proof.
  induction 1 as [|x l k _ IH|x l k _ IH]; intros Hk; [done| |].
  - apply Forall_cons in Hk as [? ?]. constructor; auto.
  - apply Forall_cons in Hk as [? ?]. auto.
Qed.

Lemma drop_dups_sublist (columns : list string)
    (seen rows : list (gmap string value)) :
  drop_dups columns seen rows `sublist_of` rows.
Proof.
  revert seen. induction rows as [|r rows IH]; intros seen; simpl; [constructor|].
  case_match; [by apply sublist_cons|by apply sublist_skip].
Qed.

Lemma select_sublist {A : Type} (mask : list bool) (rows : list A) :
  select mask rows `sublist_of` rows.
Proof.
  revert mask. induction rows as [|r rows IH]; intros [|[] mask]; simpl;
    try apply sublist_nil_l.
  - by apply sublist_skip.
  - by apply sublist_cons.
Qed.

(** The mask of [df[c] > 0] has one entry per row, and is true only where
    the cell is present and positive. *)
Lemma series_gt0_spec (c : string) (rows : list (gmap string value))
    (mask : list bool) :
  series_gt0 c rows = Ret mask →
  Forall2 (λ r b, b = true → positive_at c r) rows mask.
Proof.
  revert mask. induction rows as [|r rows IH]; intros mask; simpl.
  - by intros [= <-].
  - destruct (r !! c) as [v|] eqn:Hcell; simpl.
    + destruct (value_gt0 v) as [b|] eqn:Hv; simpl; [|done].
      destruct (series_gt0 c rows) as [bs|]; simpl; [|done].
      intros [= <-]. constructor; [|by apply IH].
      intros ->. by exists v.
    + destruct (series_gt0 c rows) as [bs|]; simpl; [|done].
      intros [= <-]. constructor; [done|by apply IH].
Qed.

Lemma series_gt0_total (c : string) (rows : list (gmap string value)) :
  Forall (numeric_at c) rows → ∃ mask, series_gt0 c rows = Ret mask.
Proof.
  induction 1 as [|r rows Hr _ [mask IH]]; simpl; [by eexists|].
  rewrite IH. destruct (r !! c) as [[s| |]|] eqn:Hcell; simpl; try by eexists.
  by destruct (Hr s).
Qed.

Lemma select_both {A : Type} (P Q : A → Prop) (rows : list A) (ps qs : list bool) :
  Forall2 (λ r b, b = true → P r) rows ps →
  Forall2 (λ r b, b = true → Q r) rows qs →
  Forall (λ r, P r ∧ Q r) (select (zip_with andb ps qs) rows).
Proof.
  intros HP. revert qs. induction HP as [|r p rows ps Hp _ IH];
    intros qs HQ; inversion HQ as [|? q ? qs' Hq HQ']; subst; simpl; [done|].
  destruct p, q; simpl; auto.
Qed.

(** C9.  For a table with a price and an area column: whatever table
    [clean_data] returns, each of its rows has a price and an area that are
    present and above 0, its rows are rows of the input, unchanged and in
    their order, and its columns are those of the input; and [clean_data]
    does return a table when no price or area cell holds a string (the one
    case in which the comparison with 0 raises). *)
Theorem clean_data_keeps_valid_rows (df : DataFrame) (w : world) :
  "price" ∈ df_columns df →
  "area" ∈ df_columns df →
  (∀ out w',
     data_processor.clean_data (Some df) w = (Ret out, w') →
     ∃ cleaned,
       out = Some cleaned
       ∧ Forall (λ r, positive_at "price" r ∧ positive_at "area" r)
           (df_rows cleaned)
       ∧ df_rows cleaned `sublist_of` df_rows df
       ∧ df_columns cleaned = df_columns df)
  ∧ (Forall (λ r, numeric_at "price" r ∧ numeric_at "area" r) (df_rows df) →
     ∃ cleaned w',
       data_processor.clean_data (Some df) w = (Ret (Some cleaned), w')).
Proof.
  intros Hprice Harea. unfold data_processor.clean_data.
  destruct (df_empty df) eqn:Hempty.
  { split; [|by eexists _, _].
    intros out w' [= <- <-]. exists df. split; [done|].
    assert (df_rows df = []) as ->.
    { unfold df_empty in Hempty. destruct (df_rows df); [done|].
      destruct (df_columns df); [|done]. by apply elem_of_nil in Hprice. }
    by repeat split. }
  unfold mbind, IO_bind, lift, dropna. simpl.
  rewrite !bool_decide_eq_true_2 by done. simpl.
  set (rows := List.filter _ (drop_dups _ _ _)).
  assert (rows `sublist_of` df_rows df) as Hsub.
  { trans (drop_dups (df_columns df) [] (df_rows df));
      [|apply drop_dups_sublist]. subst rows.
    generalize (drop_dups (df_columns df) [] (df_rows df)).
    induction l as [|r l IH]; simpl; [constructor|].
    case_match; [by apply sublist_skip|by apply sublist_cons]. }
  split.
  - intros out w'.
    destruct (series_gt0 "price" rows) as [ps|] eqn:Hps; [|done].
    destruct (series_gt0 "area" rows) as [qs|] eqn:Hqs; [|done].
    unfold print, mret, IO_ret. intros [= <- <-].
    eexists. split; [done|]. simpl. repeat split.
    + apply select_both; by apply series_gt0_spec.
    + etrans; [apply select_sublist|done].
  - intros Hnum.
    assert (Forall (λ r, numeric_at "price" r ∧ numeric_at "area" r) rows)
      as Hrows by (eapply Forall_sublist; done).
    apply Forall_and in Hrows as [Hp Ha].
    destruct (series_gt0_total _ _ Hp) as [ps ->].
    destruct (series_gt0_total _ _ Ha) as [qs ->].
    by eexists _, _.
Qed.

End CleanFacts.

(** ** Command line *)

Section CommandLine.
Context {py : Prims} {net : Network} {csv : Csv}.

(** A crawl of a range with its end below its start requests nothing. *)
Lemma scrape_page_range_reversed (start_page end_page : Z) (w : world) :
  end_page < start_page →
  scrape_page_range start_page end_page w
  = (Ret [], extend [PCrawlStart start_page end_page; PTotal 0] [] 0 w).
Proof.
  intros Hlt. unfold scrape_page_range, crawl_pages, range.
  rewrite seqZ_nil by lia. simpl.
  rewrite (bind_ret _ _ _ _ _ (print_run _ _)).
  unfold mbind at 1, IO_bind at 1. unfold mret at 1, IO_ret at 1.
  rewrite (bind_ret _ _ _ _ _ (print_run _ _)). simpl.
  unfold mbind, IO_bind, mret, IO_ret. by rewrite extend_extend.
Qed.

(** Two arguments with the start above the end: the range check of [main]
    prints its error and [main] returns, with no request made. *)
Lemma main_two_arguments_reversed (script a1 a2 : string)
    (start_page end_page : Z) (w : world) :
  py_int a1 = Some start_page →
  py_int a2 = Some end_page →
  end_page < start_page →
  run_scraper.main [script; a1; a2] w = (Ret tt, extend [PErrArgRange] [] 0 w).
Proof.
  intros Hstart Hend Hlt. unfold run_scraper.main, run_scraper.page_range. simpl.
  change ([script; a1; a2] !!! 1%nat) with a1.
  change ([script; a1; a2] !!! 2%nat) with a2.
  rewrite Hstart, Hend.
  destruct (Z.ltb_spec end_page start_page); [|lia]. simpl.
  unfold mbind, IO_bind. by rewrite print_run.
Qed.

(** C4, at the one-argument form: what [main] does with an end page below
    1.  No range check is made on this path: [main] prints no error, keeps
    start 1 and the end page it was given, and calls the crawl, which finds
    the range empty; [main] ends on the no-data message, having made no
    request. *)
Theorem main_one_argument_reversed (script arg : string) (end_page : Z) (w : world) :
  py_int arg = Some end_page →
  end_page < 1 →
  run_scraper.main [script; arg] w
  = (Ret tt,
     extend [PRunStart 1 end_page; PExpect (end_page - 1 + 1); PRule;
             PCrawlStart 1 end_page; PTotal 0; PNoData] [] 0 w).
Proof.
  intros Hint Hlt. unfold run_scraper.main, run_scraper.page_range. simpl.
  change ([script; arg] !!! 1%nat) with arg. rewrite Hint.
  unfold mbind at 1, IO_bind at 1. unfold mret at 1, IO_ret at 1.
  rewrite !(bind_ret _ _ _ _ _ (print_run _ _)).
  rewrite (bind_ret _ _ _ _ _ (scrape_page_range_reversed _ _ _ Hlt)).
  rewrite print_run, !extend_extend. done.
Qed.

(** The interactive prompt does check the range: a round that reads a
    start above the end prints the error and asks again. *)
Lemma ask_once_reversed (a b : string) (rest : list stdin_event)
    (start_page end_page : Z) (w : world) :
  stdin w = Line a :: Line b :: rest →
  py_strip a ≠ "" → py_int (py_strip a) = Some start_page →
  py_strip b ≠ "" → py_int (py_strip b) = Some end_page →
  1 ≤ start_page → end_page < start_page →
  run_scraper.ask_once w
  = (Ret None,
     mkWorld (stdout w ++ [PPromptStart; PPromptEnd; PErrEndBelowStart])
       (requests w) (sleeps w) (disk w) rest).
Proof.
  intros Hin Ha Hstart Hb Hend Hge Hlt.
  unfold run_scraper.ask_once, try_except, mbind, IO_bind, input, lift, int_,
    print, mret, IO_ret.
  rewrite Hin. simpl.
  rewrite !bool_decide_eq_false_2 by done. rewrite Hstart. simpl.
  rewrite Hend.
  destruct (Z.ltb_spec start_page 1); [lia|].
  destruct (Z.ltb_spec end_page start_page); [|lia].
  rewrite bool_decide_eq_false_2 by done.
  simpl. by rewrite <- !app_assoc.
Qed.

(** A round of the prompt that goes round again has read some input. *)
Lemma ask_once_consumes (w w' : world) :
  run_scraper.ask_once w = (Ret None, w') →
  (length (stdin w') < length (stdin w))%nat.
Proof.
  unfold run_scraper.ask_once, try_except, mbind, IO_bind, input, lift, int_,
    print, mret, IO_ret.
  destruct (stdin w) as [|[a|] rest] eqn:Hin; simpl; [done| |done].
  repeat (case_match; simplify_eq/=; try done); intros [= <-]; simpl; lia.
Qed.

(** The bound on the rounds of the prompt loop is never what ends it: any
    number of rounds above the number of lines left gives the same run. *)
Lemma ask_loop_enough (n m : nat) (w : world) :
  (length (stdin w) < n)%nat → (length (stdin w) < m)%nat →
  run_scraper.ask_loop n w = run_scraper.ask_loop m w.
Proof.
  revert m w. induction n as [|n IH]; intros [|m] w Hn Hm; [lia..|].
  simpl. unfold mbind, IO_bind.
  destruct (run_scraper.ask_once w) as [[[answer|]|e] w'] eqn:Hask;
    [done| |done].
  apply ask_once_consumes in Hask. apply IH; lia.
Qed.

End CommandLine.

(** ** The statements at work on the sample site and tables *)

(** Witness of C1: the site with the gap at pages 6, 7 and 8. *)
Lemma crawl_stops_at_third_empty_page_witness :
  ∃ (st : crawl) (w1 : world),
    crawl_pages (py:=Demo.prims) (net:=Demo.gap_site) 1 10 world0 = (Ret st, w1)
    ∧ requests w1 = [1; 2; 3; 4; 5; 6; 7; 8]
    ∧ skipped_pages st = [6; 7; 8].
Proof.
  destruct (@crawl_stops_at_third_empty_page Demo.prims Demo.gap_site world0)
    as (st & w1 & Hrun & Hreq & _ & Hskip & _).
  - intros p Hp.
    assert (p = 1 ∨ p = 2 ∨ p = 3 ∨ p = 4 ∨ p = 5) as Hcases by lia.
    destruct Hcases as [->|[->|[->|[->| ->]]]]; vm_compute; discriminate.
  - vm_compute. reflexivity.
  - vm_compute. reflexivity.
  - vm_compute. reflexivity.
  - exists st, w1. split; [exact Hrun|]. split; [exact Hreq|exact Hskip].
Defined.

(** Witness of C6: the site with listings on every page. *)
Lemma crawl_without_gaps_witness :
  ∃ (st : crawl) (w2 : world),
    scrape_page_range (py:=Demo.prims) (net:=Demo.full_site) 1 10 world0
      = (Ret (all_listings st), w2)
    ∧ requests w2 = [1; 2; 3; 4; 5; 6; 7; 8; 9; 10]
    ∧ length (all_listings st) = 20%nat.
Proof.
  destruct (@crawl_without_gaps Demo.prims Demo.full_site world0)
    as (st & w1 & w2 & _ & _ & _ & Hall & Hrun & Hreq & _).
  - intros p Hp.
    assert (p = 1 ∨ p = 2 ∨ p = 3 ∨ p = 4 ∨ p = 5
            ∨ p = 6 ∨ p = 7 ∨ p = 8 ∨ p = 9 ∨ p = 10) as Hcases by lia.
    destruct Hcases as [->|[->|[->|[->|[->|[->|[->|[->|[->| ->]]]]]]]]];
      vm_compute; discriminate.
  - exists st, w2. split; [exact Hrun|]. split; [exact Hreq|].
    rewrite Hall. vm_compute. reflexivity.
Defined.

(** Witness of C3: the site with the gap at pages 6, 7 and 8, from an empty
    file system: the five records of pages 1 to 5 are returned, and the
    three empty pages are what the log holds. *)
Lemma crawl_output_witness :
  ∃ (st : crawl) (w2 : world),
    scrape_page_range (py:=Demo.prims) (net:=Demo.gap_site) 1 10 world0
      = (Ret (all_listings st), w2)
    ∧ length (all_listings st) = 5%nat
    ∧ skipped_pages st = [6; 7; 8]
    ∧ file_text (disk w2) skipped_log = log_lines [6; 7; 8].
Proof.
  destruct (@crawl_output Demo.prims Demo.gap_site 1 10 world0)
    as (st & fetched & w1 & w2 & Hcrawl & Hrun & _ & _ & _ & _ & _ & Hlog & _).
  - split; [intros c|]; vm_compute; discriminate.
  - vm_compute in Hcrawl. injection Hcrawl as Hst _.
    exists st, w2. split; [exact Hrun|]. rewrite Hlog, <- Hst.
    split; [reflexivity|]. split; [reflexivity|].
    vm_compute. reflexivity.
Defined.



(** Witness of C9: the sample table. *)
Lemma clean_data_keeps_valid_rows_witness :
  ∃ cleaned w',
    data_processor.clean_data (Some Demo.loaded_table) world0
      = (Ret (Some cleaned), w')
    ∧ Forall (λ r, positive_at "price" r ∧ positive_at "area" r) (df_rows cleaned)
    ∧ df_rows cleaned `sublist_of` df_rows Demo.loaded_table.
Proof.
  destruct (clean_data_keeps_valid_rows Demo.loaded_table world0)
    as [Hsound Hruns].
  - simpl. repeat constructor.
  - simpl. repeat constructor.
  - destruct Hruns as (cleaned & w' & Hrun).
    + simpl. repeat constructor; intros s; vm_compute; discriminate.
    + destruct (Hsound _ _ Hrun) as (cleaned' & Hsome & Hpos & Hsub & _).
      injection Hsome as <-.
      exists cleaned, w'. split; [exact Hrun|]. split; [exact Hpos|exact Hsub].
Defined.

(** Witness of C4: [run_scraper.py 0]. *)
Lemma main_one_argument_reversed_witness :
  run_scraper.main (py:=Demo.prims) (net:=Demo.gap_site) (csv:=Demo.plain_csv)
    ["run_scraper.py"; "0"] world0
  = (Ret tt,
     extend [PRunStart 1 0; PExpect 0; PRule; PCrawlStart 1 0; PTotal 0; PNoData]
       [] 0 world0).
Proof.
  exact (@main_one_argument_reversed Demo.prims Demo.gap_site Demo.plain_csv
           "run_scraper.py" "0" 0 world0 eq_refl eq_refl).
Defined.

(** ** Sample runs *)

Example parse_full_item :
  parse_listing_try (py:=Demo.prims) Demo.full_item
  = Ret [("title", VStr "合租·望京花园 3居室"); ("rent_type", VStr "合租");
         ("district", VStr "朝阳"); ("sub_district", VStr "望京");
         ("community", VStr "望京花园"); ("area", VFloat (25 # 2));
         ("orientation", VStr "12.50㎡"); ("bedrooms", VInt 3);
         ("living_rooms", VInt 1); ("bathrooms", VInt 1);
         ("tags", VStr "近地铁|精装"); ("platform", VStr "链家");
         ("price", VInt 0)].
Proof. vm_compute. reflexivity. Qed.

Example crawl_gap_site :
  let '(r, w) :=
    scrape_page_range (py:=Demo.prims) (net:=Demo.gap_site) 1 10 world0 in
  r = Ret ((λ title, Demo.record title 5000)
             <$> ["整租·1"; "整租·2"; "整租·3"; "整租·4"; "整租·5"])
  ∧ requests w = [1; 2; 3; 4; 5; 6; 7; 8]
  ∧ sleeps w = 5%nat
  ∧ map_to_list (disk w)
    = [(skipped_log, File ("6" +:+ newline +:+ "7" +:+ newline +:+ "8" +:+ newline));
       (OUTPUT_DIR, Dir)].
Proof. vm_compute. repeat split. Qed.

Example run_with_reversed_arguments :
  run_scraper.main (py:=Demo.prims) (net:=Demo.gap_site) (csv:=Demo.plain_csv)
    ["run_scraper.py"; "5"; "2"] world0
  = (Ret tt, mkWorld [PErrArgRange] [] 0 ∅ []).
Proof. vm_compute. reflexivity. Qed.

Example run_interactively :
  let '(r, w) :=
    run_scraper.main (py:=Demo.prims) (net:=Demo.gap_site) (csv:=Demo.plain_csv)
      ["run_scraper.py"]
      (mkWorld [] [] 0 ∅ [Line "3"; Line "2"; Line "x"; Line ""; Line " 2 "]) in
  r = Ret tt
  ∧ take 9 (stdout w)
    = [PBanner; PAskRange; PPromptStart; PPromptEnd; PErrEndBelowStart;
       PPromptStart; PErrNotInteger; PPromptStart; PPromptEnd]
  ∧ requests w = [1; 2]
  ∧ file_text (disk w) "data/beijing_rental_data.csv"
    = "title,rent_type,price" +:+ newline
      +:+ "整租·1,整租,5000" +:+ newline
      +:+ "整租·2,整租,5000" +:+ newline.
Proof. vm_compute. repeat split. Qed.

Example clean_loaded_table :
  (data_processor.clean_data (Some Demo.loaded_table) world0).1
  = Ret (Some {| df_columns := ["title"; "area"; "price"];
                 df_rows :=
                   dict_row <$>
                     [ [("title", VStr "A"); ("area", VFloat (25 # 2));
                        ("price", VInt 2300)];
                       [("title", VStr "E"); ("area", VFloat 88);
                        ("price", VFloat 7000)] ] |}).
Proof. vm_compute. reflexivity. Qed.

(** * Further properties *)

From Stdlib Require Import Lqa.

Import Terms Samples.

(** ** The stop rule of the crawl *)

Section StopRule.
Context {py : Prims} {net : Network}.

(** The loop runs through a stretch of pages without stopping when, counting
    the empty pages just before it, the stretch and what follows at once
    never make three empty pages in a row. *)
Lemma crawl_loop_advance (l1 l2 l3 : list Z) (st : crawl) (w : world) :
  0 ≤ consecutive_empty_pages st →
  ¬ three_in_a_row (replicate (Z.to_nat (consecutive_empty_pages st)) true
                      ++ (empty_page <$> l1 ++ l2)) →
  ∃ (st' : crawl) (out : list line),
    crawl_loop (l1 ++ l2 ++ l3) st w
      = crawl_loop (l2 ++ l3) st'
          (extend out l1 (length (full_pages l1)) w)
    ∧ 0 ≤ consecutive_empty_pages st'
    ∧ ¬ three_in_a_row (replicate (Z.to_nat (consecutive_empty_pages st')) true
                          ++ (empty_page <$> l2))
    ∧ all_listings st' = all_listings st ++ concat (page_result <$> l1)
    ∧ skipped_pages st' = skipped_pages st ++ empty_pages l1.
Proof.
  revert st w. induction l1 as [|page l1 IH]; intros st w Hc Hno.
  - exists st, []. rewrite extend_nothing. simpl. by rewrite !app_nil_r.
  - simpl in Hno. unfold empty_page at 1 in Hno.
    destruct (page_result page) as [|l ls] eqn:Hpage; simpl in Hno.
    + assert (consecutive_empty_pages st + 1 < max_consecutive_empty) as Hlt.
      { destruct (Z.lt_ge_cases (consecutive_empty_pages st + 1)
                    max_consecutive_empty) as [|Hge]; [done|].
        destruct Hno. rewrite <- replicate_true_snoc.
        apply three_replicate. unfold max_consecutive_empty in Hge. lia. }
      rewrite <- app_comm_cons, (crawl_loop_skip _ _ _ _ Hpage Hlt).
      edestruct (IH (mkCrawl (all_listings st) (skipped_pages st ++ [page])
                       (consecutive_empty_pages st + 1)))
        as (st' & out & -> & Hc' & Hno' & Hall & Hskip).
      { simpl. lia. }
      { simpl. rewrite Z2Nat.inj_add by lia. rewrite Nat.add_1_r.
        by rewrite replicate_true_snoc. }
      exists st'. eexists. rewrite extend_extend.
      unfold full_pages, empty_pages, empty_page. simpl. rewrite Hpage. simpl.
      split; [done|]. simpl in *.
      by rewrite Hall, Hskip, <- app_assoc.
    + rewrite <- app_comm_cons, crawl_loop_page by by rewrite Hpage.
      edestruct (IH (mkCrawl (all_listings st ++ page_result page)
                       (skipped_pages st) 0))
        as (st' & out & -> & Hc' & Hno' & Hall & Hskip).
      { done. }
      { simpl. intros Hthree. apply Hno.
        by apply three_in_a_row_app, three_in_a_row_cons. }
      exists st'. eexists. rewrite extend_extend.
      unfold full_pages, empty_pages, empty_page. simpl. rewrite Hpage. simpl.
      split; [done|]. simpl in *.
      by rewrite Hall, Hskip, Hpage, <- app_assoc.
Qed.

Lemma seqZ_two (p : Z) : seqZ p 2 = [p; p + 1].
Proof.
  rewrite (seqZ_cons p), (seqZ_cons (Z.succ p)) by lia. simpl.
  rewrite seqZ_nil by lia. repeat (f_equal; try lia).
Qed.

Lemma seqZ_three (p n : Z) :
  3 ≤ n → seqZ p n = [p; p + 1; p + 2] ++ seqZ (p + 3) (n - 3).
Proof.
  intros Hn.
  rewrite (seqZ_cons p), (seqZ_cons (Z.succ p)),
    (seqZ_cons (Z.succ (Z.succ p))) by lia.
  simpl. repeat (f_equal; try lia).
Qed.

Lemma no_three_in_range (a n : Z) :
  (∀ q, a ≤ q → q + 2 < a + n →
        ¬ (page_result q = [] ∧ page_result (q + 1) = []
           ∧ page_result (q + 2) = [])) →
  ¬ three_in_a_row (empty_page <$> seqZ a n).
Proof.
  intros Hno (l1 & l2 & Heq).
  assert (∀ j : nat, (j < 3)%nat →
            0 ≤ Z.of_nat (length l1 + j) < n
            ∧ page_result (a + Z.of_nat (length l1 + j)) = []) as Hat.
  { intros j Hj.
    assert ((empty_page <$> seqZ a n) !! (length l1 + j)%nat = Some true) as Hl.
    { rewrite Heq, lookup_app_r by lia.
      replace (length l1 + j - length l1)%nat with j by lia.
      by destruct j as [|[|[|]]]; [..|lia]. }
    rewrite list_lookup_fmap in Hl.
    destruct (seqZ a n !! (length l1 + j)%nat) as [q|] eqn:Hq; [|done].
    apply lookup_seqZ in Hq as [-> Hlt]. simpl in Hl.
    split; [lia|]. apply is_empty_true. by injection Hl. }
  destruct (Hat 0%nat) as [Hi0 He0]; [lia|].
  destruct (Hat 1%nat) as [Hi1 He1]; [lia|].
  destruct (Hat 2%nat) as [Hi2 He2]; [lia|].
  apply (Hno (a + Z.of_nat (length l1 + 0))); [lia|lia|].
  repeat split; [done| |].
  - rewrite <- He1. f_equal. lia.
  - rewrite <- He2. f_equal. lia.
Qed.

(** What [scrape_page_range] does once its loop has returned. *)
Lemma scrape_page_range_finish (start_page end_page : Z) (st : crawl)
    (w w1 : world) :
  crawl_pages start_page end_page (extend [PCrawlStart start_page end_page] [] 0 w)
    = (Ret st, w1) →
  writable (disk w1) skipped_log →
  ∃ w2,
    scrape_page_range start_page end_page w = (Ret (all_listings st), w2)
    ∧ requests w2 = requests w1
    ∧ sleeps w2 = sleeps w1
    ∧ stdin w2 = stdin w1
    ∧ file_text (disk w2) skipped_log
      = file_text (disk w1) skipped_log +:+ log_lines (skipped_pages st).
Proof.
  intros Hcrawl Hdisk. unfold scrape_page_range.
  rewrite (bind_ret _ _ _ _ _ (print_run _ _)).
  rewrite (bind_ret _ _ _ _ _ Hcrawl).
  rewrite (bind_ret _ _ _ _ _ (print_run _ _)).
  destruct (skipped_pages st) as [|page pages] eqn:Hskipped.
  - eexists. split; [done|]. simpl.
    by rewrite append_empty_r, app_nil_r, Nat.add_0_r.
  - erewrite bind_ret; last by apply save_skipped_pages_run.
    eexists. split; [done|]. simpl.
    unfold file_text at 1. by rewrite lookup_insert_eq, app_nil_r, Nat.add_0_r.
Qed.

(** X1.  Where no three consecutive pages of the range are all empty and
    the log of skipped pages can be written, the crawl never stops early:
    it requests every page from the start to the end in order, returns the
    listings of all of them, sleeps once per page that held listings, and
    logs exactly the empty pages as skipped. *)
Theorem crawl_covers_range_without_gap (start_page end_page : Z) (w : world) :
  (∀ p, start_page ≤ p → p + 2 ≤ end_page →
        ¬ (page_result p = [] ∧ page_result (p + 1) = []
           ∧ page_result (p + 2) = [])) →
  writable (disk w) skipped_log →
  ∃ w2,
    scrape_page_range start_page end_page w
      = (Ret (concat (page_result <$> range start_page (end_page + 1))), w2)
    ∧ requests w2 = requests w ++ range start_page (end_page + 1)
    ∧ sleeps w2
      = (sleeps w + length (full_pages (range start_page (end_page + 1))))%nat
    ∧ file_text (disk w2) skipped_log
      = file_text (disk w) skipped_log
        +:+ log_lines (empty_pages (range start_page (end_page + 1))).
Proof.
  intros Hno Hdisk.
  destruct (crawl_loop_advance (range start_page (end_page + 1)) [] []
              (mkCrawl [] [] 0) (extend [PCrawlStart start_page end_page] [] 0 w))
    as (st & out & Hrun & _ & _ & Hall & Hskip); [done| |].
  { simpl. rewrite app_nil_r. apply no_three_in_range.
    intros q ? ?. apply Hno; lia. }
  rewrite !app_nil_r in Hrun. simpl in Hrun, Hall, Hskip.
  destruct (scrape_page_range_finish _ _ _ _ _ Hrun Hdisk)
    as (w2 & Hrange & Hreq & Hnaps & _ & Hlog).
  exists w2. rewrite <- Hall. split; [done|].
  rewrite Hreq, Hnaps, Hlog, Hskip. simpl.
  by rewrite app_nil_r, Nat.add_0_r.
Qed.

(** X2.  Where pages p, p+1 and p+2 of the range are empty, no three
    consecutive pages starting before p are, and the log of skipped pages
    can be written, the crawl stops at page p+2: it requests the pages from
    the start to p+2 and no page after, returns the listings of the pages
    before p, and logs the empty pages up to p+2. *)
Theorem crawl_stops_at_first_gap (start_page end_page p : Z) (w : world) :
  start_page ≤ p → p + 2 ≤ end_page →
  page_result p = [] → page_result (p + 1) = [] → page_result (p + 2) = [] →
  (∀ q, start_page ≤ q < p →
        ¬ (page_result q = [] ∧ page_result (q + 1) = []
           ∧ page_result (q + 2) = [])) →
  writable (disk w) skipped_log →
  ∃ w2,
    scrape_page_range start_page end_page w
      = (Ret (concat (page_result <$> range start_page p)), w2)
    ∧ requests w2 = requests w ++ range start_page (p + 3)
    ∧ sleeps w2 = (sleeps w + length (full_pages (range start_page p)))%nat
    ∧ file_text (disk w2) skipped_log
      = file_text (disk w) skipped_log
        +:+ log_lines (empty_pages (range start_page p) ++ [p; p + 1; p + 2]).
Proof.
  intros Hstart Hend Hp0 Hp1 Hp2 Hfirst Hdisk.
  assert (range start_page (end_page + 1)
          = range start_page p ++ [p; p + 1]
            ++ (p + 2) :: seqZ (p + 3) (end_page - p - 2)) as Hsplit.
  { unfold range.
    replace (end_page + 1 - start_page)
      with ((p - start_page) + (end_page + 1 - p)) by lia.
    rewrite seqZ_app by lia. f_equal.
    replace (start_page + (p - start_page)) with p by lia.
    rewrite seqZ_three by lia. simpl. repeat (f_equal; try lia). }
  destruct (crawl_loop_advance (range start_page p) [p; p + 1]
              ((p + 2) :: seqZ (p + 3) (end_page - p - 2))
              (mkCrawl [] [] 0) (extend [PCrawlStart start_page end_page] [] 0 w))
    as (st & out & Hrun & Hc & Hzero & Hall & Hskip); [done| |].
  { simpl. unfold range.
    replace (seqZ start_page (p - start_page) ++ [p; p + 1])
      with (seqZ start_page ((p - start_page) + 2)).
    - apply no_three_in_range. intros q ? ?. apply Hfirst. lia.
    - rewrite seqZ_app by lia. f_equal.
      replace (start_page + (p - start_page)) with p by lia.
      apply seqZ_two. }
  assert (consecutive_empty_pages st = 0) as Hcount.
  { destruct (decide (consecutive_empty_pages st = 0)) as [|Hne]; [done|].
    destruct Hzero. simpl. unfold empty_page. rewrite Hp0, Hp1. simpl.
    replace (Z.to_nat (consecutive_empty_pages st))
      with (S (Z.to_nat (consecutive_empty_pages st) - 1)) by lia.
    rewrite replicate_true_snoc. apply three_in_a_row_app.
    by exists [], []. }
  cbn [app] in Hrun, Hsplit.
  rewrite (crawl_loop_skip p) in Hrun by (rewrite ?Hcount; done).
  rewrite (crawl_loop_skip (p + 1)) in Hrun by (simpl; rewrite ?Hcount; done).
  rewrite (crawl_loop_stop (p + 2)) in Hrun by (simpl; rewrite ?Hcount; done).
  rewrite !extend_extend in Hrun. rewrite <- Hsplit in Hrun.
  destruct (scrape_page_range_finish _ _ _ _ _ Hrun Hdisk)
    as (w2 & Hrange & Hreq & Hnaps & _ & Hlog).
  exists w2. simpl in *. rewrite Hall in Hrange. split; [done|].
  rewrite Hreq, Hnaps, Hlog, Hskip. simpl.
  split; [|split; [lia|by rewrite <- !app_assoc]].
  f_equal. unfold range.
  replace (p + 3 - start_page) with ((p - start_page) + 3) by lia.
  rewrite seqZ_app by lia. f_equal.
  replace (start_page + (p - start_page)) with p by lia.
  rewrite seqZ_three by lia. simpl. by rewrite seqZ_nil by lia.
Qed.

End StopRule.

(** ** What a page yields *)

Section PageFacts.
Context {py : Prims} {net : Network}.

Lemma parse_items_kept (items : list node) (w : world) :
  (parse_items items w).1 = Ret (omap kept_record items).
Proof.
  revert w. induction items as [|item items IH]; intros w; [done|].
  simpl. unfold mbind, IO_bind, kept_record.
  destruct (parse_listing_try item) as [l|e] eqn:Htry.
  - rewrite (parse_listing_returns _ _ _ Htry).
    specialize (IH w). destruct (parse_items items w) as [r w'].
    simpl in IH. subst r. by destruct l.
  - rewrite (parse_listing_drops _ _ _ Htry).
    specialize (IH (extend [PParseFailed e] [] 0 w)).
    destruct (parse_items items _) as [r w']. simpl in IH. by subst r.
Qed.

Lemma page_result_kept (page : Z) :
  page_result page = omap kept_record (page_items page).
Proof.
  unfold page_result, page_items, scrape_page.
  rewrite (bind_ret _ _ _ _ _ (session_get_run _ _)).
  destruct (http_get page) as [| |soup]; [done..|].
  destruct (find "div" (Some "content__list") soup) as [list_container|];
    [|done].
  destruct (find_all "div" (Some "content__list--item") list_container)
    as [|item items] eqn:Hitems; [done|].
  unfold mbind, IO_bind.
  pose proof (parse_items_kept (item :: items) (extend [] [page] 0 world0))
    as Hkept.
  destruct (parse_items (item :: items) _) as [r w']. simpl in Hkept.
  by subst r.
Qed.

(** X3.  Whatever the site answers, [scrape_page] returns without raising,
    having made exactly one request and touched neither the file system nor
    the sleep count.  What it returns are the records of the items of the
    listing container, in document order, leaving out each item whose
    extraction raised or gave an empty record; a failed request or a page
    without container gives the empty list. *)
Theorem scrape_page_keeps_parsed_items (page : Z) (w : world) :
  ∃ out,
    scrape_page page w
    = (Ret (omap kept_record (page_items page)),
       mkWorld (stdout w ++ out) (requests w ++ [page]) (sleeps w) (disk w)
         (stdin w)).
Proof.
  exists (page_output page).
  rewrite scrape_page_run, page_result_kept. unfold extend.
  by rewrite Nat.add_0_r.
Qed.

End PageFacts.

(** ** The fields of a record *)

Section RecordFields.
Context {py : Prims}.

Lemma keys_set (k : string) (v : value) (l : dict) (K : list string) :
  dict_keys l = K → k ∉ K → dict_keys (dict_set k v l) = K ++ [k].
Proof.
  intros <- Hk. rewrite dict_set_fresh by done. unfold dict_keys.
  by rewrite fmap_app.
Qed.

Lemma not_in_group (k : string) (b : bool) (ks : list string) :
  k ∉ ks → k ∉ keys_if b ks.
Proof. destruct b; simpl; [done|]. intros _. apply not_elem_of_nil. Qed.

Ltac absent :=
  repeat first
    [ assumption
    | apply not_elem_of_app; split
    | apply not_in_group
    | by apply (bool_decide_unpack _); vm_compute ].

Lemma keys_title (item_div : node) :
  dict_keys (parse_title item_div [])
  = keys_if (has_title item_div) ["title"; "rent_type"].
Proof.
  unfold parse_title, has_title.
  destruct (find _ _ item_div); [|done]. by repeat case_match.
Qed.

Lemma keys_links (d : node) (l : dict) (K : list string) :
  dict_keys l = K →
  "district" ∉ K → "sub_district" ∉ K → "community" ∉ K →
  dict_keys (parse_links d l)
  = K ++ keys_if (bool_decide (3 ≤ length (find_all "a" None d))%nat)
           ["district"; "sub_district"; "community"].
Proof.
  intros HK H1 H2 H3. unfold parse_links.
  destruct (find_all "a" None d) as [|a0 [|a1 [|a2 rest]]];
    case_bool_decide as Hlen; simpl in Hlen; try lia; simpl;
    rewrite ?app_nil_r; try done.
  change ["district"; "sub_district"; "community"]
    with (["district"] ++ ["sub_district"] ++ ["community"]).
  rewrite !app_assoc.
  apply keys_set; [apply keys_set; [by apply keys_set|absent]|absent].
Qed.

Lemma keys_area (des_text : string) (l l' : dict) (K : list string) :
  parse_area des_text l = Ret l' →
  dict_keys l = K → "area" ∉ K →
  dict_keys l'
  = K ++ keys_if (found (re_search "(\d+\.?\d*)㎡" des_text)) ["area"].
Proof.
  unfold parse_area. intros Hrun HK Hk.
  destruct (re_search _ des_text) as [m|]; simpl in *.
  - destruct (group m 1) as [g|]; simpl in Hrun; [|done].
    destruct (float_ g) as [x|]; simpl in Hrun; [|done].
    injection Hrun as <-. by apply keys_set.
  - injection Hrun as <-. by rewrite app_nil_r.
Qed.

Lemma keys_orientation (des_text : string) (l l' : dict) (K : list string) :
  parse_orientation des_text l = Ret l' →
  dict_keys l = K → "orientation" ∉ K →
  dict_keys l'
  = K ++ keys_if (found (re_search "/([^/]*?)/" des_text)) ["orientation"].
Proof.
  unfold parse_orientation. intros Hrun HK Hk.
  destruct (re_search _ des_text) as [m|]; simpl in *.
  - destruct (group m 1) as [g|]; simpl in Hrun; [|done].
    injection Hrun as <-. by apply keys_set.
  - injection Hrun as <-. by rewrite app_nil_r.
Qed.

Lemma keys_layout (des_text : string) (l l' : dict) (K : list string) :
  parse_layout des_text l = Ret l' →
  dict_keys l = K →
  "bedrooms" ∉ K → "living_rooms" ∉ K → "bathrooms" ∉ K →
  dict_keys l'
  = K ++ keys_if (found (re_search "(\d+)室(\d+)厅(\d+)卫" des_text))
           ["bedrooms"; "living_rooms"; "bathrooms"].
Proof.
  unfold parse_layout. intros Hrun HK H1 H2 H3.
  destruct (re_search _ des_text) as [m|]; simpl in *.
  - destruct (group m 1) as [g1|]; simpl in Hrun; [|done].
    destruct (int_ g1) as [n1|]; simpl in Hrun; [|done].
    destruct (group m 2) as [g2|]; simpl in Hrun; [|done].
    destruct (int_ g2) as [n2|]; simpl in Hrun; [|done].
    destruct (group m 3) as [g3|]; simpl in Hrun; [|done].
    destruct (int_ g3) as [n3|]; simpl in Hrun; [|done].
    injection Hrun as <-.
    change ["bedrooms"; "living_rooms"; "bathrooms"]
      with (["bedrooms"] ++ ["living_rooms"] ++ ["bathrooms"]).
    rewrite !app_assoc.
    apply keys_set; [apply keys_set; [by apply keys_set|absent]|absent].
  - injection Hrun as <-. by rewrite app_nil_r.
Qed.

Lemma keys_floor (d : node) (l l' : dict) (K : list string) :
  parse_floor d l = Ret l' →
  dict_keys l = K → "floor_level" ∉ K → "total_floors" ∉ K →
  dict_keys l'
  = K ++ keys_if
           match find "span" (Some "hide") d with
           | Some h => found (re_search "(\w+)楼层.*?\((\d+)层\)" (get_text h))
           | None => false
           end ["floor_level"; "total_floors"].
Proof.
  unfold parse_floor. intros Hrun HK H1 H2.
  destruct (find "span" _ d) as [h|]; simpl in *.
  2:{ injection Hrun as <-. by rewrite app_nil_r. }
  destruct (re_search _ (get_text h)) as [m|]; simpl in *.
  - destruct (group m 1) as [g1|]; simpl in Hrun; [|done].
    destruct (group m 2) as [g2|]; simpl in Hrun; [|done].
    destruct (int_ g2) as [n|]; simpl in Hrun; [|done].
    injection Hrun as <-.
    change ["floor_level"; "total_floors"]
      with (["floor_level"] ++ ["total_floors"]).
    rewrite !app_assoc.
    apply keys_set; [by apply keys_set|absent].
  - injection Hrun as <-. by rewrite app_nil_r.
Qed.

Lemma keys_tags (item_div : node) (l : dict) (K : list string) :
  dict_keys l = K → "tags" ∉ K →
  dict_keys (parse_tags item_div l) = K ++ keys_if (has_tags item_div) ["tags"].
Proof.
  intros HK Hk. unfold parse_tags, has_tags.
  destruct (find _ _ item_div); simpl; [by apply keys_set|by rewrite app_nil_r].
Qed.

Lemma keys_platform (item_div : node) (l : dict) (K : list string) :
  dict_keys l = K → "platform" ∉ K →
  dict_keys (parse_platform item_div l)
  = K ++ keys_if (has_platform item_div) ["platform"].
Proof.
  intros HK Hk. unfold parse_platform, has_platform.
  destruct (find _ _ item_div) as [brand_elem|]; simpl;
    [|by rewrite app_nil_r].
  destruct (find _ _ brand_elem); by apply keys_set.
Qed.

Lemma keys_price (item_div : node) (l : dict) (K : list string) :
  dict_keys l = K → "price" ∉ K →
  dict_keys (parse_price item_div l) = K ++ keys_if (has_price item_div) ["price"].
Proof.
  intros HK Hk. unfold parse_price, has_price.
  destruct (find _ _ item_div) as [price_elem|]; simpl;
    [|by rewrite app_nil_r].
  destruct (find _ _ price_elem) as [em_elem|]; simpl;
    [|by rewrite app_nil_r].
  destruct (py_int _); by apply keys_set.
Qed.

Lemma keys_des (item_div : node) (l l' : dict) (K : list string) :
  parse_des item_div l = Ret l' →
  dict_keys l = K →
  Forall (λ k, k ∉ K)
    ["district"; "sub_district"; "community"; "area"; "orientation";
     "bedrooms"; "living_rooms"; "bathrooms"; "floor_level"; "total_floors"] →
  dict_keys l'
  = K ++ keys_if (has_links item_div) ["district"; "sub_district"; "community"]
      ++ keys_if (has_area item_div) ["area"]
      ++ keys_if (has_orientation item_div) ["orientation"]
      ++ keys_if (has_layout item_div) ["bedrooms"; "living_rooms"; "bathrooms"]
      ++ keys_if (has_floor item_div) ["floor_level"; "total_floors"].
Proof.
  intros Hrun HK Hfresh.
  repeat (apply Forall_cons in Hfresh as [? Hfresh]).
  unfold parse_des in Hrun.
  unfold has_links, has_area, has_orientation, has_layout, has_floor, des_elem.
  destruct (find "p" _ item_div) as [d|]; simpl.
  2:{ injection Hrun as <-. by rewrite app_nil_r. }
  destruct (parse_area _ _) as [l1|] eqn:Harea; simpl in Hrun; [|done].
  destruct (parse_orientation _ _) as [l2|] eqn:Hor; simpl in Hrun; [|done].
  destruct (parse_layout _ _) as [l3|] eqn:Hlay; simpl in Hrun; [|done].
  rewrite !app_assoc.
  eapply keys_floor; [done| |absent..].
  eapply keys_layout; [done| |absent..].
  eapply keys_orientation; [done| |absent..].
  eapply keys_area; [done| |absent..].
  apply keys_links; done.
Qed.

(** The record of a listing has exactly the fields whose markup is there
    to be read, in the order of the field list. *)
Lemma listing_keys (item_div : node) (listing : dict) :
  parse_listing_try item_div = Ret listing →
  dict_keys listing = record_keys item_div.
Proof.
  unfold parse_listing_try. intros Hrun.
  destruct (parse_des _ _) as [l1|] eqn:Hdes; simpl in Hrun; [|done].
  injection Hrun as <-. unfold record_keys. rewrite !app_assoc.
  apply keys_price; [|absent].
  apply keys_platform; [|absent].
  apply keys_tags; [|absent].
  rewrite <- !app_assoc.
  eapply keys_des; [done|apply keys_title|].
  repeat constructor; absent.
Qed.

Lemma keys_if_sublist (b : bool) (ks : list string) :
  keys_if b ks `sublist_of` ks.
Proof. destruct b; simpl; [reflexivity|apply sublist_nil_l]. Qed.

(** What [parse_listing] returns as a record is what its [try] block
    returned, and nothing was printed. *)
Lemma parse_listing_record (item_div : node) (listing : dict) (w w' : world) :
  parse_listing item_div w = (Ret (Some listing), w') →
  parse_listing_try item_div = Ret listing ∧ w' = w.
Proof.
  destruct (parse_listing_try item_div) as [l|e] eqn:Htry.
  - rewrite (parse_listing_returns _ _ _ Htry). by intros [= <- <-].
  - by rewrite (parse_listing_drops _ _ _ Htry).
Qed.

(** X4.  A record that [parse_listing] returns has exactly the fields
    whose markup is there to be read: title and rent type with the title
    element; the three district fields with three or more links in the
    description; area, orientation and the three room counts each with a
    match of its pattern; floor level and total floors with a match in the
    hidden span; tags, platform and price with their elements.  Fields of
    one group come together or not at all, and the fields are fields of
    [DATA_FIELDS], each at most once and in the order of that list. *)
Theorem record_has_the_fields_found (item_div : node) (listing : dict)
    (w w' : world) :
  parse_listing item_div w = (Ret (Some listing), w') →
  dict_keys listing = record_keys item_div
  ∧ dict_keys listing `sublist_of` DATA_FIELDS
  ∧ NoDup (dict_keys listing).
Proof.
  intros [Hrun _]%parse_listing_record.
  rewrite (listing_keys _ _ Hrun). split; [done|].
  assert (record_keys item_div `sublist_of` DATA_FIELDS) as Hsub.
  { unfold record_keys.
    change DATA_FIELDS
      with (["title"; "rent_type"] ++ ["district"; "sub_district"; "community"]
            ++ ["area"] ++ ["orientation"]
            ++ ["bedrooms"; "living_rooms"; "bathrooms"]
            ++ ["floor_level"; "total_floors"] ++ ["tags"] ++ ["platform"]
            ++ ["price"]).
    repeat (apply sublist_app; [apply keys_if_sublist|]).
    apply keys_if_sublist. }
  split; [done|].
  eapply sublist_NoDup; [|exact Hsub].
  apply (bool_decide_unpack _). by vm_compute.
Qed.

End RecordFields.

(** ** The types of the fields *)

Section RecordTypes.
Context {py : Prims}.

Lemma dict_get_set_ne (k k' : string) (v : value) (l : dict) :
  k ≠ k' → dict_get k (dict_set k' v l) = dict_get k l.
Proof.
  intros Hne. induction l as [|[k0 v0] l IH]; simpl.
  - by rewrite decide_False.
  - destruct (decide (k' = k0)) as [->|Hne0]; simpl.
    + by rewrite !decide_False.
    + by rewrite IH.
Qed.

Lemma typed_set (k : string) (v : value) (l : dict) :
  well_typed k v = true → typed_record l → typed_record (dict_set k v l).
Proof.
  intros Hv Hl k' v'. destruct (decide (k' = k)) as [->|Hne].
  - rewrite dict_get_set. by intros [= <-].
  - rewrite dict_get_set_ne by done. apply Hl.
Qed.

Lemma typed_empty : typed_record [].
Proof. by intros k v. Qed.

Ltac typed := repeat first [ assumption | apply typed_set; [done|] ].

Lemma typed_title (item_div : node) (l : dict) :
  typed_record l → typed_record (parse_title item_div l).
Proof. intros Hl. unfold parse_title. repeat case_match; typed. Qed.

Lemma typed_links (d : node) (l : dict) :
  typed_record l → typed_record (parse_links d l).
Proof. intros Hl. unfold parse_links. repeat case_match; typed. Qed.

Lemma typed_area (des_text : string) (l l' : dict) :
  parse_area des_text l = Ret l' → typed_record l → typed_record l'.
Proof.
  unfold parse_area. intros Hrun Hl.
  destruct (re_search _ des_text) as [m|]; simpl in *;
    [|by injection Hrun as <-].
  destruct (group m 1) as [g|]; simpl in Hrun; [|done].
  destruct (float_ g) as [x|]; simpl in Hrun; [|done].
  injection Hrun as <-. typed.
Qed.

Lemma typed_orientation (des_text : string) (l l' : dict) :
  parse_orientation des_text l = Ret l' → typed_record l → typed_record l'.
Proof.
  unfold parse_orientation. intros Hrun Hl.
  destruct (re_search _ des_text) as [m|]; simpl in *;
    [|by injection Hrun as <-].
  destruct (group m 1) as [g|]; simpl in Hrun; [|done].
  injection Hrun as <-. typed.
Qed.

Lemma typed_layout (des_text : string) (l l' : dict) :
  parse_layout des_text l = Ret l' → typed_record l → typed_record l'.
Proof.
  unfold parse_layout. intros Hrun Hl.
  destruct (re_search _ des_text) as [m|]; simpl in *;
    [|by injection Hrun as <-].
  destruct (group m 1) as [g1|]; simpl in Hrun; [|done].
  destruct (int_ g1) as [n1|]; simpl in Hrun; [|done].
  destruct (group m 2) as [g2|]; simpl in Hrun; [|done].
  destruct (int_ g2) as [n2|]; simpl in Hrun; [|done].
  destruct (group m 3) as [g3|]; simpl in Hrun; [|done].
  destruct (int_ g3) as [n3|]; simpl in Hrun; [|done].
  injection Hrun as <-. typed.
Qed.

Lemma typed_floor (d : node) (l l' : dict) :
  parse_floor d l = Ret l' → typed_record l → typed_record l'.
Proof.
  unfold parse_floor. intros Hrun Hl.
  destruct (find "span" _ d) as [h|]; simpl in *; [|by injection Hrun as <-].
  destruct (re_search _ (get_text h)) as [m|]; simpl in *;
    [|by injection Hrun as <-].
  destruct (group m 1) as [g1|]; simpl in Hrun; [|done].
  destruct (group m 2) as [g2|]; simpl in Hrun; [|done].
  destruct (int_ g2) as [n|]; simpl in Hrun; [|done].
  injection Hrun as <-. typed.
Qed.

Lemma typed_des (item_div : node) (l l' : dict) :
  parse_des item_div l = Ret l' → typed_record l → typed_record l'.
Proof.
  unfold parse_des. intros Hrun Hl.
  destruct (find "p" _ item_div) as [d|]; simpl in *;
    [|by injection Hrun as <-].
  destruct (parse_area _ _) as [l1|] eqn:Harea; simpl in Hrun; [|done].
  destruct (parse_orientation _ _) as [l2|] eqn:Hor; simpl in Hrun; [|done].
  destruct (parse_layout _ _) as [l3|] eqn:Hlay; simpl in Hrun; [|done].
  eapply typed_floor; [done|]. eapply typed_layout; [done|].
  eapply typed_orientation; [done|]. eapply typed_area; [done|].
  by apply typed_links.
Qed.

(** The [try] block of [parse_listing] gives every field a value of the
    type of its column. *)
Lemma listing_typed (item_div : node) (listing : dict) :
  parse_listing_try item_div = Ret listing → typed_record listing.
Proof.
  unfold parse_listing_try. intros Hrun.
  destruct (parse_des _ _) as [l1|] eqn:Hdes; simpl in Hrun; [|done].
  injection Hrun as <-.
  apply typed_des in Hdes; [|apply typed_title, typed_empty].
  unfold parse_price, parse_platform, parse_tags.
  repeat case_match; typed.
Qed.

(** X5.  In every record [parse_listing] returns each field holds a value
    of the type of its column: the room counts, the number of floors and
    the price are integers, the area is a float, every other field is
    text. *)
Theorem record_fields_are_typed (item_div : node) (listing : dict)
    (w w' : world) :
  parse_listing item_div w = (Ret (Some listing), w') → typed_record listing.
Proof.
  unfold parse_listing, try_except, lift, mbind, IO_bind.
  destruct (parse_listing_try item_div) as [l|e] eqn:Htry.
  - intros [= <- _]. by apply (listing_typed item_div).
  - destruct (is_Exception e); [|done].
    unfold print, mret, IO_ret. done.
Qed.

End RecordTypes.

(** ** What can make the script fail *)

Section Failures.
Context {py : Prims} {net : Network} {csv : Csv}.

Lemma ends_ret {A : Type} (allowed : exn → Prop) (post : A → Prop) (a : A) :
  post a → ends allowed post (mret a).
Proof. by intros Ha w. Qed.

Lemma ends_bind {A B : Type} (allowed : exn → Prop) (mid : A → Prop)
    (post : B → Prop) (m : IO A) (k : A → IO B) :
  ends allowed mid m → (∀ a, mid a → ends allowed post (k a)) →
  ends allowed post (m ≫= k).
Proof.
  intros Hm Hk w. specialize (Hm w). unfold mbind, IO_bind.
  destruct (m w) as [[a|e] w']; simpl in *; [|done]. by apply Hk.
Qed.

Lemma ends_print (allowed : exn → Prop) (post : unit → Prop) (l : line) :
  post tt → ends allowed post (print l).
Proof. by intros Hp w. Qed.


(** Every listing a crawl collects is a typed record. *)
Lemma page_result_typed (page : Z) : Forall typed_record (page_result page).
Proof.
  rewrite page_result_kept. apply Forall_forall. intros l Hl.
  apply list_elem_of_omap in Hl as (item & _ & Hkept).
  unfold kept_record in Hkept.
  destruct (parse_listing_try item) as [[|x l']|] eqn:Htry; [done| |done].
  injection Hkept as <-. by eapply listing_typed.
Qed.




Lemma ends_lift {A : Type} (allowed : exn → Prop) (post : A → Prop)
    (r : res A) :
  match r with Ret a => post a | Raise e => allowed e end →
  ends allowed post (lift r).
Proof. by intros Hr w. Qed.

(** The prices and the areas of typed records are numbers. *)
Lemma positive_field_total (k : string) (listings : list dict) :
  k = "price" ∨ k = "area" →
  Forall typed_record listings →
  ∃ vs, run_scraper.positive_field k listings = Ret vs
        ∧ Forall (λ v, numeric v = true) vs.
Proof.
  intros Hk. induction 1 as [|l listings Hl _ (vs & IH & Hvs)]; simpl;
    [by eexists|].
  rewrite IH.
  assert (numeric (default (VInt 0) (dict_get k l)) = true) as Hnum.
  { destruct (dict_get k l) as [v|] eqn:Hv; simpl; [|done].
    apply Hl in Hv. by destruct Hk as [-> | ->], v. }
  destruct (default (VInt 0) (dict_get k l)) as [s|n|x] eqn:Hv; [done|..];
    simpl; eexists; (split; [done|]); case_match; auto.
Qed.

Lemma float_of_int_ends (n : Z) : overflows_at_worst (float_of_int n).
Proof. unfold float_of_int. by case_match. Qed.

Lemma py_add_ends (a : run_scraper.number) (v : value) :
  numeric v = true → overflows_at_worst (run_scraper.py_add a v).
Proof.
  intros Hv. destruct a as [a|a], v as [s|n|x]; try done; simpl;
    unfold float_of_int; by case_match.
Qed.

Lemma py_sum_ends (a : run_scraper.number) (vs : list value) :
  Forall (λ v, numeric v = true) vs →
  overflows_at_worst (run_scraper.py_sum a vs).
Proof.
  intros Hvs. revert a. induction Hvs as [|v vs Hv _ IH]; intros a; [done|].
  simpl. pose proof (py_add_ends a v Hv) as Hadd.
  destruct (run_scraper.py_add a v) as [b|e]; simpl; [apply IH|done].
Qed.

Lemma mean_ends (vs : list value) :
  Forall (λ v, numeric v = true) vs →
  overflows_at_worst (run_scraper.mean vs).
Proof.
  intros Hvs. unfold run_scraper.mean.
  pose proof (py_sum_ends (run_scraper.NInt 0) vs Hvs) as Hsum.
  destruct (run_scraper.py_sum _ vs) as [[a|[x|]]|e]; simpl; [|done..].
  by case_match.
Qed.

(** The least and the greatest of numbers are among them. *)
Lemma foldl_choice_numeric (f : value → value → value) (vs : list value)
    (best : value) :
  (∀ a b, f a b = a ∨ f a b = b) →
  numeric best = true → Forall (λ v, numeric v = true) vs →
  numeric (foldl f best vs) = true.
Proof.
  intros Hf Hbest Hvs. revert best Hbest.
  induction Hvs as [|v vs Hv _ IH]; intros best Hbest; [done|].
  simpl. apply IH. by destruct (Hf best v) as [-> | ->].
Qed.

Lemma to_float_least_ends (vs : list value) :
  Forall (λ v, numeric v = true) vs →
  overflows_at_worst (run_scraper.to_float (run_scraper.py_min vs))
  ∧ overflows_at_worst (run_scraper.to_float (run_scraper.py_max vs)).
Proof.
  intros Hvs.
  assert (∀ v, numeric v = true → overflows_at_worst (run_scraper.to_float v))
    as Hfloat.
  { intros [s|n|x] Hv; [done|apply float_of_int_ends|done]. }
  assert (numeric (default (VInt 0) (head vs)) = true) as Hhead.
  { by destruct Hvs. }
  assert (Forall (λ v, numeric v = true) (tail vs)) as Htail.
  { by destruct Hvs. }
  split; apply Hfloat, foldl_choice_numeric; try done;
    intros a b; case_match; auto.
Qed.

(** The overview of typed records fails at worst on a number beyond the
    range of the floats. *)
Lemma overview_ends (listings : list dict) (filepath : option string) :
  Forall typed_record listings →
  ends (λ e, e = OverflowError) (λ _, True)
    (run_scraper.overview listings filepath).
Proof.
  intros Htyped. unfold run_scraper.overview.
  destruct (positive_field_total "price" listings)
    as (prices & -> & Hprices); [by left|done|].
  destruct (positive_field_total "area" listings)
    as (areas & -> & Hareas); [by right|done|].
  destruct (to_float_least_ends prices Hprices) as [Hmin Hmax].
  eapply (ends_bind _ (λ _, True)); [by apply ends_print|]. intros _ _.
  eapply (ends_bind _ (λ _, True)); [by apply ends_print|]. intros _ _.
  eapply (ends_bind _ (λ vs, vs = prices)); [by apply ends_lift|].
  intros ? ->.
  eapply (ends_bind _ (λ _, True)).
  { destruct prices as [|p ps]; [by apply ends_ret|].
    eapply (ends_bind _ (λ _, True)).
    { apply ends_lift. pose proof (mean_ends _ Hprices). by case_match. }
    intros average _.
    eapply (ends_bind _ (λ _, True)); [by apply ends_print|]. intros _ _.
    eapply (ends_bind _ (λ _, True)).
    { apply ends_lift. by case_match. }
    intros lowest _.
    eapply (ends_bind _ (λ _, True)); [by apply ends_print|]. intros _ _.
    eapply (ends_bind _ (λ _, True)).
    { apply ends_lift. by case_match. }
    intros highest _. by apply ends_print. }
  intros _ _.
  eapply (ends_bind _ (λ vs, vs = areas)); [by apply ends_lift|].
  intros ? ->.
  eapply (ends_bind _ (λ _, True)).
  { destruct areas as [|a areas']; [by apply ends_ret|].
    eapply (ends_bind _ (λ _, True)).
    { apply ends_lift. pose proof (mean_ends _ Hareas). by case_match. }
    intros average _. by apply ends_print. }
  intros _ _.
  eapply (ends_bind _ (λ _, True)); [by apply ends_print|]. intros _ _.
  eapply (ends_bind _ (λ _, True)); [by apply ends_print|]. intros _ _.
  by apply ends_print.
Qed.





End Failures.

(** ** The page range the script asks for *)

Section PageRange.
Context {py : Prims} {net : Network} {csv : Csv}.

Lemma ask_once_valid :
  ends (λ _, True)
    (λ r, ∀ start_page end_page,
            r = Some (Some (start_page, end_page)) → 1 ≤ start_page ≤ end_page)
    run_scraper.ask_once.
Proof.
  intros w.
  unfold run_scraper.ask_once, try_except, mbind, IO_bind, input, lift, int_,
    print, mret, IO_ret.
  destruct (stdin w) as [|[a|] rest]; simpl; [done| |done].
  repeat (case_match; simplify_eq/=; try done); intros s e [= <- <-]; lia.
Qed.

(** X7.  Whatever is typed at the prompt, a range that
    [get_page_range_interactive] returns has its start at 1 or above and
    its end at the start or above. *)
Theorem prompt_returns_valid_range :
  ends (λ _, True)
    (λ r, ∀ start_page end_page,
            r = Some (start_page, end_page) → 1 ≤ start_page ≤ end_page)
    run_scraper.get_page_range_interactive.
Proof.
  unfold run_scraper.get_page_range_interactive.
  eapply (ends_bind _ (λ _, True)); [by apply ends_print|]. intros _ _.
  eapply (ends_bind _ (λ _, True)); [by apply ends_print|]. intros _ _.
  eapply (ends_bind _ (λ _, True)); [done|]. intros n _.
  generalize (S n). clear n. intros rounds.
  induction rounds as [|rounds IH]; [done|]. simpl.
  eapply ends_bind; [apply ask_once_valid|].
  intros [answer|] Hvalid; [|apply IH].
  apply ends_ret. intros s e ->. by apply Hvalid.
Qed.

(** X8.  With two arguments [main] crawls only a range it has checked: if
    both are integers with 1 ≤ start ≤ end, this is the range it takes;
    otherwise it prints one error line, the range error or the integer
    error, and returns, having requested and written nothing. *)
Theorem two_arguments_are_checked (script a1 a2 : string) (w : world) :
  match py_int a1, py_int a2 with
  | Some start_page, Some end_page =>
      if bool_decide (1 ≤ start_page ≤ end_page) then
        run_scraper.page_range [script; a1; a2] w
        = (Ret (Some (start_page, end_page)), w)
      else
        run_scraper.main [script; a1; a2] w
        = (Ret tt, extend [PErrArgRange] [] 0 w)
  | _, _ =>
      run_scraper.main [script; a1; a2] w
      = (Ret tt, extend [PErrArgNotInteger] [] 0 w)
  end.
Proof.
  unfold run_scraper.main, run_scraper.page_range. simpl.
  change ([script; a1; a2] !!! 1%nat) with a1.
  change ([script; a1; a2] !!! 2%nat) with a2.
  destruct (py_int a1) as [start_page|], (py_int a2) as [end_page|];
    try (unfold mbind, IO_bind; by rewrite print_run).
  case_bool_decide as Hvalid.
  - destruct (Z.ltb_spec end_page start_page); [lia|].
    destruct (Z.ltb_spec start_page 1); [lia|]. done.
  - assert ((end_page <? start_page) || (start_page <? 1) = true) as ->.
    { destruct (Z.ltb_spec end_page start_page); [done|].
      destruct (Z.ltb_spec start_page 1); [done|]. lia. }
    unfold mbind, IO_bind. by rewrite print_run.
Qed.

(** X9.  With three or more arguments after the script name [main] reads
    none of them: any two such command lines run alike (over pages 1 to
    10, with no error printed). *)
Theorem extra_arguments_are_ignored (argv argv' : list string) (w : world) :
  (3 < length argv)%nat →
  (3 < length argv')%nat →
  run_scraper.main argv w = run_scraper.main argv' w
  ∧ run_scraper.page_range argv w = (Ret (Some (1, 10)), w).
Proof.
  intros Hlen Hlen'.
  assert (∀ args : list string, (3 < length args)%nat →
            run_scraper.page_range args = mret (Some (1, 10))) as Hrange.
  { intros args Hargs. unfold run_scraper.page_range.
    by rewrite !bool_decide_eq_false_2 by lia. }
  unfold run_scraper.main. by rewrite !Hrange.
Qed.

(** The prompt after its two header lines. *)
Lemma prompt_run (w : world) :
  run_scraper.get_page_range_interactive w
  = run_scraper.ask_loop (S (length (stdin w)))
      (extend [PBanner; PAskRange] [] 0 w).
Proof.
  unfold run_scraper.get_page_range_interactive.
  rewrite !(bind_ret _ _ _ _ _ (print_run _ _)), extend_extend.
  unfold mbind, IO_bind, pending_input. done.
Qed.

(** X10.  The prompt accepts a valid answer at once: a start that is
    empty (taken as 1) or an integer, and an end that is an integer, with
    1 ≤ start ≤ end, are returned as the range after exactly these two
    lines have been read, with no error printed. *)
Theorem prompt_accepts_valid_answer (a b : string) (rest : list stdin_event)
    (start_page end_page : Z) (w : world) :
  stdin w = Line a :: Line b :: rest →
  (if bool_decide (py_strip a = "") then Some 1 else py_int (py_strip a))
  = Some start_page →
  py_strip b ≠ "" →
  py_int (py_strip b) = Some end_page →
  1 ≤ start_page ≤ end_page →
  run_scraper.get_page_range_interactive w
  = (Ret (Some (start_page, end_page)),
     mkWorld (stdout w ++ [PBanner; PAskRange; PPromptStart; PPromptEnd])
       (requests w) (sleeps w) (disk w) rest).
Proof.
  intros Hin Hstart Hb Hend Hrange. rewrite prompt_run. cbn [run_scraper.ask_loop].
  unfold mbind at 1, IO_bind at 1.
  unfold run_scraper.ask_once, try_except, mbind, IO_bind, input, lift, int_,
    print, mret, IO_ret.
  simpl. rewrite Hin. simpl.
  case_bool_decide as Ha; [injection Hstart as Hstart|rewrite Hstart]; simpl.
  all: rewrite (bool_decide_eq_false_2 (py_strip b = "")) by done.
  all: rewrite Hend, ?Hstart.
  all: destruct (Z.ltb_spec start_page 1); [lia|].
  all: destruct (Z.ltb_spec end_page start_page); [lia|]; simpl.
  all: by rewrite <- !app_assoc, app_nil_r, Nat.add_0_r.
Qed.

(** X11.  An interrupt at the prompt cancels the run: whether it comes at
    the first question, or at the second after a start that is empty or an
    integer, [main] prints the cancellation and returns normally, having
    requested no page and written no file. *)
Theorem interrupt_at_the_prompt_cancels (script a : string)
    (rest : list stdin_event) (w : world) :
  stdin w = CtrlC :: rest
  ∨ (stdin w = Line a :: CtrlC :: rest
     ∧ (py_strip a = "" ∨ is_Some (py_int (py_strip a)))) →
  ∃ out,
    run_scraper.main [script] w
    = (Ret tt,
       mkWorld (stdout w ++ out ++ [PCancelled]) (requests w) (sleeps w)
         (disk w) rest).
Proof.
  intros Hin. unfold run_scraper.main, run_scraper.page_range.
  rewrite bool_decide_eq_true_2 by done.
  unfold mbind at 1, IO_bind at 1. rewrite prompt_run.
  cbn [run_scraper.ask_loop]. unfold mbind at 1, IO_bind at 1.
  unfold run_scraper.ask_once, try_except, mbind, IO_bind, input, lift, int_,
    print, mret, IO_ret.
  simpl. destruct Hin as [Hin|[Hin Ha]]; rewrite Hin; simpl.
  - exists [PBanner; PAskRange; PPromptStart].
    by rewrite <- !app_assoc, app_nil_r, Nat.add_0_r.
  - exists [PBanner; PAskRange; PPromptStart; PPromptEnd].
    destruct Ha as [Ha|[n Ha]].
    + rewrite (bool_decide_eq_true_2 _ Ha). simpl.
      by rewrite <- !app_assoc, app_nil_r, Nat.add_0_r.
    + case_bool_decide; [|rewrite Ha]; simpl;
        by rewrite <- !app_assoc, app_nil_r, Nat.add_0_r.
Qed.

End PageRange.

(** ** Writing the records *)

Section Writer.
Context {py : Prims} {csv : Csv}.

(** X12.  [save_to_csv], given records, returns the path of the destination
    when the output directory can be made and the destination, with that
    directory there, leads to a file or to a free name in a directory that
    exists.  Otherwise it fails and no file has been created, changed or
    removed: with [OSError], or, where the character NUL is in the path,
    with [ValueError]. *)
Theorem save_to_csv_fails_when_unwritable (listings : list dict)
    (filename : option string) (append : bool) (w : world) :
  listings ≠ [] →
  (can_save (disk w) (csv_path filename) →
   ∃ w', save_to_csv listings filename append w
         = (Ret (Some (csv_path filename)), w'))
  ∧ (¬ can_save (disk w) (csv_path filename) →
     ∃ e w', save_to_csv listings filename append w = (Raise e, w')
             ∧ (e = OSError
                ∨ (e = ValueError ∧ has_nul (csv_path filename) = true))
             ∧ ∀ p c, disk w' !! p = Some (File c) ↔ disk w !! p = Some (File c)).
Proof.
  intros Hne.
  assert (∀ p c, disk w !! OUTPUT_DIR ≠ Some (File c) →
            with_output_dir (disk w) !! p = Some (File c)
            ↔ disk w !! p = Some (File c)) as Hfiles.
  { intros p c Hd. unfold with_output_dir.
    destruct (disk w !! OUTPUT_DIR) as [n|] eqn:Hout; [done|].
    destruct (decide (p = OUTPUT_DIR)) as [->|Hp].
    - rewrite lookup_insert_eq, Hout. split; intros [=].
    - by rewrite lookup_insert_ne. }
  split.
  - intros [Hdir Hfile]. rewrite save_to_csv_run by done. cbv zeta.
    destruct Hfile as [-> | [content ->]]; by eexists.
  - intros Hno. destruct (disk w !! OUTPUT_DIR) as [[|c]|] eqn:Hd.
    2: { exists OSError, w. split; [|by split; [left|]].
         destruct listings as [|l ls]; [done|].
         unfold save_to_csv, mbind, IO_bind, os_makedirs. by rewrite Hd. }
    all: assert (∀ c, disk w !! OUTPUT_DIR ≠ Some (File c)) as Hdir
           by (intros c; by rewrite Hd).
    all: rewrite save_to_csv_run by done; cbv zeta.
    all: destruct (lookup_path _ _) as [| | |[|content]] eqn:Hpath.
    all: try (destruct Hno; split; [done|]; by eauto).
    all: eexists _, _; (split; [done|]); cbn [disk].
    all: split; [|intros p c; by apply Hfiles].
    all: try by left.
    all: right; split; [done|]; by eapply lookup_path_invalid.
Qed.


(** X14.  Appending to a file that [pd.read_csv] cannot load starts the
    file over: [save_to_csv] reports the failed read, writes the new
    records alone, and returns the path as if nothing had gone wrong.  What
    the file held is lost. *)
Theorem append_to_unreadable_file_starts_over (listings : list dict)
    (filename : option string) (content : string) (w : world) :
  listings ≠ [] →
  (∀ c, disk w !! OUTPUT_DIR ≠ Some (File c)) →
  disk w !! csv_path filename = Some (File content) →
  read_csv content = None →
  save_to_csv listings filename true w
  = (Ret (Some (csv_path filename)),
     mkWorld
       (stdout w ++ [PReadFailed; PSaved (csv_path filename) (length listings)])
       (requests w) (sleeps w)
       (<[csv_path filename := File (to_csv (pd_DataFrame listings))]>
          (with_output_dir (disk w)))
       (stdin w)).
Proof.
  intros Hne Hdir Hfile Hload. rewrite save_to_csv_run by done. cbv zeta.
  rewrite (lookup_path_node _ _ (File content)), Hload.
  - by rewrite df_len_DataFrame.
  - by rewrite file_text_with_output_dir by apply csv_path_not_output_dir.
Qed.


End Writer.

(** ** The log of skipped pages *)

Section SkippedLog.
Context {py : Prims} {net : Network}.

Lemma append_assoc (a b c : string) : a +:+ b +:+ c = (a +:+ b) +:+ c.
Proof.
  induction a as [|x a IH]; [done|].
  change (String x (a +:+ b +:+ c) = String x ((a +:+ b) +:+ c)).
  by rewrite IH.
Qed.

Lemma concat_cons (x : string) (l : list string) :
  String.concat "" (x :: l) = x +:+ String.concat "" l.
Proof. destruct l; simpl; [by rewrite append_empty_r|done]. Qed.

Lemma log_lines_app (a b : list Z) :
  log_lines (a ++ b) = log_lines a +:+ log_lines b.
Proof.
  unfold log_lines. induction a as [|x a IH]; [done|].
  rewrite <- app_comm_cons, !fmap_cons, !concat_cons, IH.
  apply append_assoc.
Qed.

Lemma skipped_log_writable_after (d : gmap string fsnode) (text : string) :
  writable d skipped_log →
  writable (<[skipped_log := File text]> (with_output_dir d)) skipped_log.
Proof.
  intros [Hdir Hlog]. split.
  - intros c. rewrite lookup_insert_ne by done.
    unfold with_output_dir. destruct (d !! OUTPUT_DIR) as [[|c']|] eqn:Hd.
    + by rewrite Hd.
    + by destruct (Hdir c').
    + by rewrite lookup_insert_eq.
  - by rewrite lookup_insert_eq.
Qed.

(** X16.  The log of skipped pages only grows: two calls of
    [save_skipped_pages] leave the text the log held before, then the
    pages of the first call, then those of the second, one per line. *)
Theorem skipped_log_accumulates (first second : list Z) (w : world) :
  first ≠ [] →
  second ≠ [] →
  writable (disk w) skipped_log →
  ∃ w',
    (save_skipped_pages first;; save_skipped_pages second) w = (Ret tt, w')
    ∧ file_text (disk w') skipped_log
      = file_text (disk w) skipped_log +:+ log_lines (first ++ second).
Proof.
  intros Hfirst Hsecond Hdisk.
  rewrite (bind_ret _ _ _ _ _ (save_skipped_pages_run _ _ Hfirst Hdisk)).
  rewrite save_skipped_pages_run;
    [|done|by apply skipped_log_writable_after].
  eexists. split; [done|]. simpl.
  unfold file_text at 1 2. rewrite !lookup_insert_eq.
  by rewrite log_lines_app, append_assoc.
Qed.

Lemma save_skipped_pages_fails (pages : list Z) (w : world) :
  pages ≠ [] →
  ¬ writable (disk w) skipped_log →
  ∃ w',
    save_skipped_pages pages w = (Raise OSError, w')
    ∧ requests w' = requests w
    ∧ ∀ q c, disk w' !! q = Some (File c) ↔ disk w !! q = Some (File c).
Proof.
  intros Hne Hno. destruct pages as [|page pages]; [done|].
  unfold save_skipped_pages. fold skipped_log.
  destruct (disk w !! OUTPUT_DIR) as [[|c]|] eqn:Hd.
  - rewrite (bind_ret _ _ _ _ _ (os_makedirs_run w ltac:(intros ?; by rewrite Hd))).
    unfold mbind, IO_bind, append_file, with_disk. simpl.
    rewrite file_text_with_output_dir by done.
    destruct (disk w !! skipped_log) as [[|c]|] eqn:Hlog.
    + eexists. split; [done|]. simpl. unfold with_output_dir. by rewrite Hd.
    + destruct Hno. split; [intros ?; by rewrite Hd|by rewrite Hlog].
    + destruct Hno. split; [intros ?; by rewrite Hd|by rewrite Hlog].
  - exists w. unfold mbind, IO_bind, os_makedirs. by rewrite Hd.
  - rewrite (bind_ret _ _ _ _ _ (os_makedirs_run w ltac:(intros ?; by rewrite Hd))).
    unfold mbind, IO_bind, append_file, with_disk. simpl.
    rewrite file_text_with_output_dir by done.
    destruct (disk w !! skipped_log) as [[|c]|] eqn:Hlog.
    + eexists. split; [done|]. simpl. unfold with_output_dir. rewrite Hd.
      split; [done|]. intros q c. destruct (decide (q = OUTPUT_DIR)) as [->|Hq].
      * rewrite lookup_insert_eq, Hd. naive_solver.
      * by rewrite lookup_insert_ne.
    + destruct Hno. split; [intros ?; by rewrite Hd|by rewrite Hlog].
    + destruct Hno. split; [intros ?; by rewrite Hd|by rewrite Hlog].
Qed.

(** The counter of consecutive empty pages never exceeds the number of
    pages skipped. *)
Lemma crawl_loop_counter (pages : list Z) (st st' : crawl) (w w' : world) :
  crawl_loop pages st w = (Ret st', w') →
  0 ≤ consecutive_empty_pages st ≤ Z.of_nat (length (skipped_pages st)) →
  consecutive_empty_pages st' ≤ Z.of_nat (length (skipped_pages st')).
Proof.
  revert st w. induction pages as [|page rest IH]; intros st w Hrun Hc.
  - simpl in Hrun. injection Hrun as <- _. lia.
  - destruct (page_result page) as [|l ls] eqn:Hpage.
    + destruct (Z.lt_ge_cases (consecutive_empty_pages st + 1)
                  max_consecutive_empty) as [Hlt|Hge].
      * rewrite (crawl_loop_skip _ _ _ _ Hpage Hlt) in Hrun.
        apply IH in Hrun; [done|]. simpl. rewrite length_app. simpl. lia.
      * rewrite (crawl_loop_stop _ _ _ _ Hpage Hge) in Hrun.
        injection Hrun as <- _. simpl. rewrite length_app. simpl. lia.
    + rewrite crawl_loop_page in Hrun by by rewrite Hpage.
      apply IH in Hrun; [done|]. simpl. lia.
Qed.

(** X17.  Where the log of skipped pages cannot be written and a page of
    the range is empty, [scrape_page_range] raises [OSError] once the
    crawl is over: pages have been requested, but the records collected
    are not returned, and no file has been created or changed. *)
Theorem crawl_is_lost_when_log_unwritable (start_page end_page p : Z) (w : world) :
  start_page ≤ p ≤ end_page →
  page_result p = [] →
  ¬ writable (disk w) skipped_log →
  ∃ w2 fetched,
    scrape_page_range start_page end_page w = (Raise OSError, w2)
    ∧ fetched ≠ []
    ∧ requests w2 = requests w ++ fetched
    ∧ ∀ q c, disk w2 !! q = Some (File c) ↔ disk w !! q = Some (File c).
Proof.
  intros Hp Hempty Hno. unfold scrape_page_range.
  rewrite (bind_ret _ _ _ _ _ (print_run _ _)).
  destruct (crawl_loop_spec (range start_page (end_page + 1)) (mkCrawl [] [] 0)
              (extend [PCrawlStart start_page end_page] [] 0 w))
    as (st & fetched & out & naps & Hrun & Hpre & _ & Hskip & Hend).
  pose proof (crawl_loop_counter _ _ _ _ _ Hrun) as Hcount.
  unfold crawl_pages. rewrite (bind_ret _ _ _ _ _ Hrun).
  rewrite (bind_ret _ _ _ _ _ (print_run _ _)).
  simpl in Hskip, Hcount.
  assert (skipped_pages st ≠ []) as Hskipped.
  { destruct Hend as [->|Hstop].
    - rewrite Hskip. intros Hnil.
      assert (p ∈ List.filter (λ p, is_empty (page_result p))
                    (range start_page (end_page + 1))) as Hin.
      { apply list_elem_of_In, filter_In. split; [|by rewrite Hempty].
        apply list_elem_of_In, elem_of_seqZ. lia. }
      rewrite Hnil in Hin. by apply elem_of_nil in Hin.
    - intros Hnil. rewrite Hnil in Hcount. unfold max_consecutive_empty in Hstop.
      simpl in Hcount. lia. }
  assert (fetched ≠ []) as Hfetched.
  { intros ->. by rewrite Hskip in Hskipped. }
  destruct (save_skipped_pages_fails (skipped_pages st)
              (extend [PTotal (length (all_listings st))] [] 0
                 (extend out fetched naps
                    (extend [PCrawlStart start_page end_page] [] 0 w))))
    as (w2 & Hsave & Hreq & Hfiles); [done|done|].
  exists w2, fetched. unfold mbind at 1, IO_bind at 1.
  destruct (skipped_pages st) as [|page pages]; [done|].
  rewrite Hsave. split; [done|]. split; [done|].
  split; [|done]. rewrite Hreq. simpl. by rewrite !app_nil_r.
Qed.

End SkippedLog.

(** ** What clean_data keeps and what it drops *)

Section Cleaning.

Lemma value_eqb_refl (v : value) : value_eqb v v = true.
Proof.
  destruct v as [s|n|x]; simpl.
  - by apply bool_decide_eq_true_2.
  - apply Z.eqb_refl.
  - by apply Qeq_bool_iff.
Qed.

Lemma Qeq_bool_sym (x y : Q) : Qeq_bool x y = Qeq_bool y x.
Proof.
  apply Bool.eq_iff_eq_true. rewrite !Qeq_bool_iff. split; intros H; by symmetry.
Qed.

Lemma value_eqb_sym (a b : value) : value_eqb a b = value_eqb b a.
Proof.
  destruct a as [s|m|x], b as [t|n|y]; simpl; try done.
  - apply Bool.eq_iff_eq_true. rewrite !bool_decide_eq_true. naive_solver.
  - apply Z.eqb_sym.
  - apply Qeq_bool_sym.
  - apply Qeq_bool_sym.
  - apply Qeq_bool_sym.
Qed.

Lemma Qpositive_inject (m : Z) : negb (Qle_bool (inject_Z m) 0) = (0 <? m).
Proof.
  apply Bool.eq_iff_eq_true. rewrite negb_true_iff, Z.ltb_lt.
  rewrite <- not_true_iff_false, Qle_bool_iff.
  change 0%Q with (inject_Z 0). rewrite <- Zle_Qle. lia.
Qed.

Lemma Qpositive_proper (x y : Q) :
  Qeq_bool x y = true → negb (Qle_bool x 0) = negb (Qle_bool y 0).
Proof.
  intros Heq%Qeq_bool_iff. f_equal.
  apply Bool.eq_iff_eq_true. rewrite !Qle_bool_iff. by rewrite Heq.
Qed.

(** Values that compare equal compare alike with 0. *)
Lemma value_gt0_proper (a b : value) :
  value_eqb a b = true → value_gt0 a = value_gt0 b.
Proof.
  destruct a as [s|m|x], b as [t|n|y]; simpl; try done.
  - by intros ->%Z.eqb_eq.
  - intros Heq. f_equal. rewrite <- (Qpositive_proper _ _ Heq).
    symmetry. apply Qpositive_inject.
  - intros Heq. f_equal. rewrite (Qpositive_proper _ _ Heq).
    apply Qpositive_inject.
  - intros Heq. f_equal. by apply Qpositive_proper.
Qed.

Lemma cell_eqb_sym (a b : option value) : cell_eqb a b = cell_eqb b a.
Proof. destruct a, b; simpl; try done. apply value_eqb_sym. Qed.

Lemma row_eqb_refl (columns : list string) (r : gmap string value) :
  row_eqb columns r r = true.
Proof.
  apply forallb_forall. intros c _. destruct (r !! c); simpl; [|done].
  apply value_eqb_refl.
Qed.

Lemma row_eqb_sym (columns : list string) (r1 r2 : gmap string value) :
  row_eqb columns r1 r2 = row_eqb columns r2 r1.
Proof.
  unfold row_eqb. induction columns as [|c columns IH]; [done|].
  simpl. by rewrite IH, cell_eqb_sym.
Qed.

Lemma row_eqb_cell (columns : list string) (r1 r2 : gmap string value)
    (c : string) :
  row_eqb columns r1 r2 = true → c ∈ columns →
  cell_eqb (r1 !! c) (r2 !! c) = true.
Proof.
  intros Heq Hc. unfold row_eqb in Heq. rewrite forallb_forall in Heq.
  by apply Heq, list_elem_of_In.
Qed.

Lemma positive_cell_proper (columns : list string) (r1 r2 : gmap string value)
    (c : string) :
  row_eqb columns r1 r2 = true → c ∈ columns →
  positive_cell c r1 = positive_cell c r2.
Proof.
  intros Heq Hc. pose proof (row_eqb_cell _ _ _ _ Heq Hc) as Hcell.
  unfold positive_cell.
  destruct (r1 !! c) as [v1|], (r2 !! c) as [v2|]; simpl in Hcell; try done.
  by rewrite (value_gt0_proper _ _ Hcell).
Qed.

Lemma positive_cell_spec (c : string) (r : gmap string value) :
  positive_cell c r = true ↔ positive_at c r.
Proof.
  unfold positive_cell, positive_at. split.
  - destruct (r !! c) as [v|]; [|done].
    destruct (value_gt0 v) as [[]|] eqn:Hv; try done. by exists v.
  - intros (v & -> & ->). done.
Qed.

Lemma existsb_false {A : Type} (f : A → bool) (l : list A) :
  existsb f l = false ↔ ∀ x, x ∈ l → f x = false.
Proof.
  rewrite <- not_true_iff_false, existsb_exists. split.
  - intros Hno x Hx. apply not_true_iff_false. intros Hfx.
    apply Hno. exists x. by rewrite <- list_elem_of_In.
  - intros Hall (x & Hx%list_elem_of_In & Hfx). by rewrite Hall in Hfx.
Qed.

Lemma filter_sublist {A : Type} (f : A → bool) (l : list A) :
  List.filter f l `sublist_of` l.
Proof.
  induction l as [|x l IH]; simpl; [constructor|].
  destruct (f x); [by apply sublist_skip|by apply sublist_cons].
Qed.

Lemma filter_all {A : Type} (f : A → bool) (l : list A) :
  (∀ x, x ∈ l → f x = true) → List.filter f l = l.
Proof.
  induction l as [|x l IH]; intros Hall; simpl; [done|].
  rewrite Hall by apply list_elem_of_here. f_equal.
  apply IH. intros y Hy. by apply Hall, list_elem_of_further.
Qed.

Lemma elem_of_filter_list {A : Type} (f : A → bool) (l : list A) (x : A) :
  x ∈ List.filter f l ↔ x ∈ l ∧ f x = true.
Proof. by rewrite !list_elem_of_In, filter_In. Qed.

(** What [drop_duplicates] keeps holds no row twice. *)
Lemma drop_dups_fresh (columns : list string)
    (seen rows : list (gmap string value)) :
  fresh_rows columns seen (drop_dups columns seen rows).
Proof.
  revert seen. induction rows as [|r rows IH]; intros seen; simpl; [done|].
  destruct (existsb (row_eqb columns r) seen) eqn:Hseen; [apply IH|].
  simpl. split; [done|apply IH].
Qed.

Lemma fresh_rows_sublist (columns : list string)
    (seen seen' rows rows' : list (gmap string value)) :
  rows' `sublist_of` rows →
  (∀ s, s ∈ seen' → s ∈ seen) →
  fresh_rows columns seen rows → fresh_rows columns seen' rows'.
Proof.
  intros Hsub. revert seen seen'.
  induction Hsub as [|x l k _ IH|x l k _ IH]; intros seen seen' Hseen; simpl.
  - done.
  - intros [Hx Hk]. split.
    + apply existsb_false. intros s Hs.
      by apply (proj1 (existsb_false _ _) Hx), Hseen.
    + apply (IH (seen ++ [x])); [|done].
      intros s [Hs|Hs]%elem_of_app; apply elem_of_app;
        [left; by apply Hseen|by right].
  - intros [_ Hk]. apply (IH (seen ++ [x])); [|done]. intros s Hs.
    apply elem_of_app. left. by apply Hseen.
Qed.

Lemma fresh_rows_seen (columns : list string)
    (seen rows : list (gmap string value)) (s r : gmap string value) :
  fresh_rows columns seen rows → s ∈ seen → r ∈ rows →
  row_eqb columns r s = false.
Proof.
  revert seen. induction rows as [|x rows IH]; intros seen Hfresh Hs Hr.
  - by apply elem_of_nil in Hr.
  - destruct Hfresh as [Hx Hrows]. apply elem_of_cons in Hr as [->|Hr].
    + by apply (proj1 (existsb_false _ _) Hx).
    + apply (IH (seen ++ [x])); [done| |done]. apply elem_of_app. by left.
Qed.

Lemma fresh_rows_lookup (columns : list string)
    (seen rows : list (gmap string value)) (i j : nat)
    (r1 r2 : gmap string value) :
  fresh_rows columns seen rows → (i < j)%nat →
  rows !! i = Some r1 → rows !! j = Some r2 →
  row_eqb columns r1 r2 = false.
Proof.
  revert seen i j. induction rows as [|x rows IH]; intros seen i j Hfresh Hij Hi Hj.
  - done.
  - destruct Hfresh as [_ Hrows]. destruct j as [|j]; [lia|].
    destruct i as [|i]; simpl in Hi, Hj.
    + injection Hi as ->. rewrite row_eqb_sym.
      eapply fresh_rows_seen; [done| |by eapply list_elem_of_lookup_2].
      apply elem_of_app. right. apply list_elem_of_here.
    + eapply (IH _ i j); [done|lia|done|done].
Qed.

Lemma fresh_rows_id (columns : list string)
    (seen rows : list (gmap string value)) :
  fresh_rows columns seen rows → drop_dups columns seen rows = rows.
Proof.
  revert seen. induction rows as [|r rows IH]; intros seen; simpl; [done|].
  intros [-> Hrows]. f_equal. by apply IH.
Qed.

(** Every row has an equal row among those [drop_duplicates] keeps. *)
Lemma drop_dups_complete (columns : list string)
    (seen rows : list (gmap string value)) (r : gmap string value) :
  r ∈ rows →
  (∃ r', r' ∈ drop_dups columns seen rows ∧ row_eqb columns r r' = true)
  ∨ (∃ s, s ∈ seen ∧ row_eqb columns r s = true).
Proof.
  revert seen. induction rows as [|x rows IH]; intros seen Hr.
  - by apply elem_of_nil in Hr.
  - simpl. destruct (existsb (row_eqb columns x) seen) eqn:Hseen.
    + apply elem_of_cons in Hr as [->|Hr]; [|by apply IH].
      right. apply existsb_exists in Hseen as (s & Hs & Heq).
      exists s. by rewrite list_elem_of_In.
    + apply elem_of_cons in Hr as [->|Hr].
      * left. exists x. split; [apply list_elem_of_here|apply row_eqb_refl].
      * destruct (IH (seen ++ [x]) Hr) as [(r' & Hr' & Heq)|(s & Hs & Heq)].
        -- left. exists r'. split; [by apply list_elem_of_further|done].
        -- apply elem_of_app in Hs as [Hs|Hs]; [right; by exists s|].
           apply list_elem_of_singleton in Hs as ->.
           left. exists x. split; [apply list_elem_of_here|done].
Qed.

(** The rows the two masks of [clean_data] select. *)
Lemma select_masks (c1 c2 : string) (rows : list (gmap string value))
    (ps qs : list bool) :
  series_gt0 c1 rows = Ret ps → series_gt0 c2 rows = Ret qs →
  select (zip_with andb ps qs) rows
  = List.filter (λ r, positive_cell c1 r && positive_cell c2 r) rows.
Proof.
  revert ps qs. induction rows as [|r rows IH]; intros ps qs; simpl.
  - by intros [= <-] [= <-].
  - unfold positive_cell at 1 2.
    destruct (r !! c1) as [v1|]; simpl.
    + destruct (value_gt0 v1) as [b1|]; simpl; [|done].
      destruct (series_gt0 c1 rows) as [ps'|]; simpl; [|done]. intros [= <-].
      destruct (r !! c2) as [v2|]; simpl.
      * destruct (value_gt0 v2) as [b2|]; simpl; [|done].
        destruct (series_gt0 c2 rows) as [qs'|]; simpl; [|done]. intros [= <-].
        simpl. destruct b1, b2; simpl; by rewrite (IH ps' qs').
      * destruct (series_gt0 c2 rows) as [qs'|]; simpl; [|done]. intros [= <-].
        simpl. rewrite andb_false_r. simpl. by rewrite (IH ps' qs').
    + destruct (series_gt0 c1 rows) as [ps'|]; simpl; [|done]. intros [= <-].
      destruct (r !! c2) as [v2|]; simpl.
      * destruct (value_gt0 v2) as [b2|]; simpl; [|done].
        destruct (series_gt0 c2 rows) as [qs'|]; simpl; [|done]. intros [= <-].
        simpl. by rewrite (IH ps' qs').
      * destruct (series_gt0 c2 rows) as [qs'|]; simpl; [|done]. intros [= <-].
        simpl. by rewrite (IH ps' qs').
Qed.

Lemma present_of_valid (r : gmap string value) :
  valid_row r = true →
  forallb (λ c, bool_decide (is_Some (r !! c))) ["price"; "area"] = true.
Proof.
  unfold valid_row, positive_cell. simpl.
  destruct (r !! "price") as [vp|], (r !! "area") as [va|]; simpl;
    rewrite ?andb_false_r; done.
Qed.

Lemma filter_valid_present (rows : list (gmap string value)) :
  List.filter valid_row
    (List.filter (λ r, forallb (λ c, bool_decide (is_Some (r !! c)))
                         ["price"; "area"]) rows)
  = List.filter valid_row rows.
Proof.
  induction rows as [|r rows IH]; [done|]. cbn [List.filter].
  destruct (forallb _ _) eqn:Hpresent.
  - cbn [List.filter]. by rewrite IH.
  - destruct (valid_row r) eqn:Hvalid; [|done].
    by rewrite (present_of_valid _ Hvalid) in Hpresent.
Qed.

(** The table [clean_data] returns for a table that is not empty. *)
Lemma clean_data_run (df cleaned : DataFrame) (w w' : world) :
  data_processor.clean_data (Some df) w = (Ret (Some cleaned), w') →
  df_empty df = false →
  "price" ∈ df_columns df
  ∧ "area" ∈ df_columns df
  ∧ cleaned
    = {| df_columns := df_columns df;
         df_rows := List.filter valid_row
                      (drop_dups (df_columns df) [] (df_rows df)) |}
  ∧ w' = extend [PCleaned (df_len df) (df_len cleaned)] [] 0 w.
Proof.
  intros Hrun Hempty. unfold data_processor.clean_data in Hrun.
  rewrite Hempty in Hrun.
  unfold mbind, IO_bind, lift, dropna in Hrun. simpl in Hrun.
  destruct (bool_decide ("price" ∈ df_columns df)) eqn:Hprice; [|done].
  destruct (bool_decide ("area" ∈ df_columns df)) eqn:Harea; [|done].
  apply bool_decide_eq_true in Hprice, Harea. simpl in Hrun.
  destruct (series_gt0 "price" _) as [ps|] eqn:Hps; [|done].
  destruct (series_gt0 "area" _) as [qs|] eqn:Hqs; [|done].
  rewrite (select_masks _ _ _ _ _ Hps Hqs) in Hrun.
  fold valid_row in Hrun.
  change (λ r : gmap string value, positive_cell "price" r && positive_cell "area" r)
    with valid_row in Hrun.
  rewrite filter_valid_present in Hrun.
  unfold print, mret, IO_ret in Hrun. injection Hrun as <- <-.
  repeat split; try done. unfold extend. simpl.
  by rewrite app_nil_r, Nat.add_0_r.
Qed.

(** X18.  The table [clean_data] returns holds no row twice: any two of
    its rows differ in some column (for a table with at least one
    column). *)
Theorem clean_data_output_has_no_duplicates (df cleaned : DataFrame)
    (w w' : world) (i j : nat) (r1 r2 : gmap string value) :
  data_processor.clean_data (Some df) w = (Ret (Some cleaned), w') →
  df_columns df ≠ [] →
  i ≠ j →
  df_rows cleaned !! i = Some r1 →
  df_rows cleaned !! j = Some r2 →
  row_eqb (df_columns cleaned) r1 r2 = false.
Proof.
  intros Hrun Hcols Hij Hi Hj.
  destruct (df_empty df) eqn:Hempty.
  { unfold data_processor.clean_data in Hrun. rewrite Hempty in Hrun.
    injection Hrun as <- _. unfold df_empty in Hempty.
    destruct (df_rows df); [done|]. by destruct (df_columns df). }
  destruct (clean_data_run _ _ _ _ Hrun Hempty) as (_ & _ & -> & _).
  simpl in *.
  assert (fresh_rows (df_columns df) []
            (List.filter valid_row (drop_dups (df_columns df) [] (df_rows df))))
    as Hfresh.
  { eapply fresh_rows_sublist; [apply filter_sublist|done|apply drop_dups_fresh]. }
  destruct (decide (i < j)%nat).
  - by eapply (fresh_rows_lookup _ _ _ i j).
  - rewrite row_eqb_sym. eapply (fresh_rows_lookup _ _ _ j i); [done|lia|done|done].
Qed.

(** X19.  [clean_data] loses no valid record: for every row of the input
    whose price and area are present and above 0, the table returned holds
    a row equal to it in every column. *)
Theorem clean_data_loses_no_valid_row (df cleaned : DataFrame) (w w' : world)
    (r : gmap string value) :
  data_processor.clean_data (Some df) w = (Ret (Some cleaned), w') →
  r ∈ df_rows df →
  positive_at "price" r →
  positive_at "area" r →
  ∃ r', r' ∈ df_rows cleaned ∧ row_eqb (df_columns df) r r' = true.
Proof.
  intros Hrun Hr Hprice Harea.
  destruct (df_empty df) eqn:Hempty.
  { unfold data_processor.clean_data in Hrun. rewrite Hempty in Hrun.
    injection Hrun as <- _. exists r. split; [done|apply row_eqb_refl]. }
  destruct (clean_data_run _ _ _ _ Hrun Hempty) as (Hp & Ha & -> & _).
  destruct (drop_dups_complete (df_columns df) [] _ _ Hr)
    as [(r' & Hr' & Heq)|(s & Hs & _)]; [|by apply elem_of_nil in Hs].
  exists r'. split; [|done]. simpl.
  apply elem_of_filter_list. split; [done|].
  unfold valid_row.
  rewrite <- (positive_cell_proper _ _ _ _ Heq Hp).
  rewrite <- (positive_cell_proper _ _ _ _ Heq Ha).
  apply positive_cell_spec in Hprice, Harea. by rewrite Hprice, Harea.
Qed.

Lemma series_gt0_valid (c : string) (rows : list (gmap string value)) :
  (∀ r, r ∈ rows → positive_cell c r = true) →
  ∃ mask, series_gt0 c rows = Ret mask.
Proof.
  intros Hall. apply series_gt0_total, Forall_forall. intros r Hr s Hcell.
  specialize (Hall r Hr). unfold positive_cell in Hall. by rewrite Hcell in Hall.
Qed.

(** X20.  Cleaning twice changes nothing more: [clean_data] applied to a
    table it returned returns that same table. *)
Theorem clean_data_twice (df cleaned : DataFrame) (w w' : world) :
  data_processor.clean_data (Some df) w = (Ret (Some cleaned), w') →
  ∃ w'', data_processor.clean_data (Some cleaned) w' = (Ret (Some cleaned), w'').
Proof.
  intros Hrun.
  destruct (df_empty df) eqn:Hempty.
  { unfold data_processor.clean_data in *. rewrite Hempty in Hrun.
    injection Hrun as <- <-. rewrite Hempty. by eexists. }
  destruct (clean_data_run _ _ _ _ Hrun Hempty) as (Hp & Ha & Hcleaned & _).
  clear Hrun. set (w1 := w'). clearbody w1. clear w'.
  set (rows := List.filter valid_row (drop_dups (df_columns df) [] (df_rows df)))
    in Hcleaned.
  assert (∀ r, r ∈ rows → valid_row r = true) as Hvalid.
  { intros r Hr. by apply elem_of_filter_list in Hr as [_ ?]. }
  assert (fresh_rows (df_columns df) [] rows) as Hfresh.
  { eapply fresh_rows_sublist; [apply filter_sublist|done|apply drop_dups_fresh]. }
  subst cleaned. unfold data_processor.clean_data.
  destruct (df_empty {| df_columns := df_columns df; df_rows := rows |});
    [by eexists|].
  unfold mbind, IO_bind, lift, dropna, drop_duplicates. simpl.
  rewrite !bool_decide_eq_true_2 by done. simpl.
  rewrite (fresh_rows_id _ _ _ Hfresh).
  rewrite (filter_all _ rows) by (intros r Hr; by apply present_of_valid, Hvalid).
  destruct (series_gt0_valid "price" rows) as [ps Hps].
  { intros r Hr. specialize (Hvalid r Hr). unfold valid_row in Hvalid.
    by apply andb_true_iff in Hvalid as [? _]. }
  destruct (series_gt0_valid "area" rows) as [qs Hqs].
  { intros r Hr. specialize (Hvalid r Hr). unfold valid_row in Hvalid.
    by apply andb_true_iff in Hvalid as [_ ?]. }
  rewrite Hps, Hqs. rewrite (select_masks _ _ _ _ _ Hps Hqs).
  rewrite (filter_all _ rows) by done.
  unfold print, mret, IO_ret. by eexists.
Qed.

(** X21.  A table that is not empty and lacks the price or the area column
    makes [clean_data] raise [KeyError], before anything is printed. *)
Theorem clean_data_needs_price_and_area (df : DataFrame) (w : world) :
  df_empty df = false →
  "price" ∉ df_columns df ∨ "area" ∉ df_columns df →
  data_processor.clean_data (Some df) w = (Raise KeyError, w).
Proof.
  intros Hempty Hmissing. unfold data_processor.clean_data. rewrite Hempty.
  unfold mbind, IO_bind, lift, dropna. simpl.
  destruct Hmissing as [Hno|Hno]; rewrite (bool_decide_eq_false_2 _ Hno);
    [done|by rewrite andb_false_r].
Qed.

Lemma series_gt0_raises (c : string) (rows : list (gmap string value)) (e : exn) :
  series_gt0 c rows = Raise e → e = TypeError.
Proof.
  induction rows as [|r rows IH]; simpl; [done|].
  destruct (r !! c) as [[s|n|x]|]; simpl; try by intros [= <-].
  all: destruct (series_gt0 c rows) as [bs|e']; simpl; try done.
  all: intros [= <-]; by apply IH.
Qed.

Lemma series_gt0_string (c s : string) (rows : list (gmap string value))
    (r : gmap string value) :
  r ∈ rows → r !! c = Some (VStr s) → series_gt0 c rows = Raise TypeError.
Proof.
  intros Hr Hcell. induction rows as [|x rows IH]; [by apply elem_of_nil in Hr|].
  simpl. apply elem_of_cons in Hr as [<-|Hr].
  - by rewrite Hcell.
  - rewrite (IH Hr). by destruct (x !! c) as [[| |]|].
Qed.

(** X22.  A row that has both a price and an area, one of them a string,
    makes [clean_data] raise [TypeError], before anything is printed: such
    a row is not dropped, it stops the cleaning. *)
Theorem clean_data_fails_on_text (df : DataFrame) (w : world)
    (r : gmap string value) (c s : string) :
  "price" ∈ df_columns df →
  "area" ∈ df_columns df →
  r ∈ df_rows df →
  is_Some (r !! "price") →
  is_Some (r !! "area") →
  c = "price" ∨ c = "area" →
  r !! c = Some (VStr s) →
  data_processor.clean_data (Some df) w = (Raise TypeError, w).
Proof.
  intros Hp Ha Hr [vp Hvp] [va Hva] Hc Hcell.
  unfold data_processor.clean_data.
  assert (df_empty df = false) as ->.
  { unfold df_empty. destruct (df_rows df); [by apply elem_of_nil in Hr|].
    destruct (df_columns df); [by apply elem_of_nil in Hp|done]. }
  unfold mbind, IO_bind, lift, dropna. simpl.
  rewrite !bool_decide_eq_true_2 by done. simpl.
  destruct (drop_dups_complete (df_columns df) [] _ _ Hr)
    as [(r' & Hr' & Heq)|(x & Hx & _)]; [|by apply elem_of_nil in Hx].
  set (rows := List.filter _ (drop_dups _ _ _)).
  pose proof (row_eqb_cell _ _ _ _ Heq Hp) as Hcp.
  pose proof (row_eqb_cell _ _ _ _ Heq Ha) as Hca.
  rewrite Hvp in Hcp. rewrite Hva in Hca.
  destruct (r' !! "price") as [vp'|] eqn:Hvp'; [|done].
  destruct (r' !! "area") as [va'|] eqn:Hva'; [|done].
  assert (r' ∈ rows) as Hin.
  { apply elem_of_filter_list. split; [done|]. simpl.
    rewrite Hvp', Hva'. by rewrite !bool_decide_eq_true_2. }
  assert (r' !! c = Some (VStr s)) as Hcell'.
  { destruct Hc as [-> | ->].
    - rewrite Hvp in Hcell. injection Hcell as ->. rewrite Hvp'.
      simpl in Hcp. destruct vp'; try done.
      by apply bool_decide_eq_true in Hcp as ->.
    - rewrite Hva in Hcell. injection Hcell as ->. rewrite Hva'.
      simpl in Hca. destruct va'; try done.
      by apply bool_decide_eq_true in Hca as ->. }
  destruct Hc as [-> | ->].
  - by rewrite (series_gt0_string _ _ _ _ Hin Hcell').
  - destruct (series_gt0 "price" rows) as [ps|e] eqn:Hps.
    + by rewrite (series_gt0_string _ _ _ _ Hin Hcell').
    + by rewrite (series_gt0_raises _ _ _ Hps).
Qed.

End Cleaning.

(** ** The cookie string *)

Section CookieString.
Context {py : Prims}.

Lemma str_contains_char (c x : Ascii.ascii) (s : string) :
  str_contains (String c "") (String x s)
  = bool_decide (c = x) || str_contains (String c "") s.
Proof.
  simpl. destruct (Ascii.ascii_dec c x) as [->|Hne].
  - rewrite bool_decide_eq_true_2 by done. by destruct s.
  - by rewrite bool_decide_eq_false_2.
Qed.

Lemma split_once_contains (c : Ascii.ascii) (s : string) :
  str_contains (String c "") s = bool_decide (is_Some (split_once c s)).
Proof.
  induction s as [|x s IH]; [done|].
  rewrite str_contains_char, IH. cbn [split_once].
  destruct (decide (x = c)) as [->|Hne].
  - by rewrite bool_decide_eq_true_2.
  - rewrite bool_decide_eq_false_2 by done. simpl.
    by destruct (split_once c s) as [[before after]|].
Qed.

Lemma parse_pair_run (cookies : dict) (pair : string) :
  parse_pair cookies pair
  = Ret match split_once "="%char (py_strip pair) with
        | Some (key, value) =>
            dict_set (py_strip key) (VStr (py_strip value)) cookies
        | None => cookies
        end.
Proof.
  unfold parse_pair, str_split1. rewrite split_once_contains.
  by destruct (split_once "=" (py_strip pair)) as [[key value]|].
Qed.

Lemma parse_pairs_lookup (pairs : list string) (cookies : dict) (name : string) :
  ∃ cookies',
    parse_pairs pairs cookies = Ret cookies'
    ∧ dict_get name cookies'
      = match last (omap (cookie_named name) pairs) with
        | Some value => Some (VStr value)
        | None => dict_get name cookies
        end.
Proof.
  revert cookies. induction pairs as [|pair pairs IH]; intros cookies.
  - by exists cookies.
  - cbn [parse_pairs]. rewrite parse_pair_run. cbn [mbind res_bind].
    edestruct IH as (cookies' & Hrun & Hget).
    exists cookies'. split; [exact Hrun|]. rewrite Hget.
    cbn [omap list_omap]. unfold cookie_named at 2.
    destruct (split_once "=" (py_strip pair)) as [[key value]|];
      [|done].
    destruct (decide (py_strip key = name)) as [<-|Hne].
    + rewrite last_cons, dict_get_set. by destruct (last _).
    + by rewrite dict_get_set_ne.
Qed.

(** X23.  [parse_cookie_string] does not fail on a string that is not
    empty, whatever it holds.  The value it gives a name is the text after
    the first equals sign of the last pair with that name, stripped; pairs
    without an equals sign count for nothing. *)
Theorem parse_cookie_string_takes_last_pair (cookie_string name : string) :
  cookie_string ≠ "" →
  ∃ cookies,
    parse_cookie_string cookie_string = Ret cookies
    ∧ dict_get name cookies
      = VStr <$> last (omap (cookie_named name) (str_split ";" cookie_string)).
Proof.
  intros Hne. unfold parse_cookie_string. rewrite bool_decide_eq_false_2 by done.
  destruct (parse_pairs_lookup (str_split ";" cookie_string) [] name)
    as (cookies & Hrun & Hget).
  exists cookies. split; [done|]. rewrite Hget. by destruct (last _).
Qed.

End CookieString.

(** ** From the command line to the file *)

Section EndToEnd.
Context {py : Prims} {net : Network} {csv : Csv}.

Lemma page_range_two (script a1 a2 : string) (start_page end_page : Z)
    (w : world) :
  py_int a1 = Some start_page →
  py_int a2 = Some end_page →
  1 ≤ start_page ≤ end_page →
  run_scraper.page_range [script; a1; a2] w
  = (Ret (Some (start_page, end_page)), w).
Proof.
  intros H1 H2 Hrange. unfold run_scraper.page_range. simpl.
  change ([script; a1; a2] !!! 1%nat) with a1.
  change ([script; a1; a2] !!! 2%nat) with a2.
  rewrite H1, H2.
  destruct (Z.ltb_spec end_page start_page); [lia|].
  destruct (Z.ltb_spec start_page 1); [lia|]. done.
Qed.

(** The crawl of a range with no three consecutive empty pages, and what
    it leaves of the file system. *)
Lemma crawl_gapless_disk (start_page end_page : Z) (w : world) :
  (∀ p, start_page ≤ p → p + 2 ≤ end_page →
        ¬ (page_result p = [] ∧ page_result (p + 1) = []
           ∧ page_result (p + 2) = [])) →
  writable (disk w) skipped_log →
  ∃ w2,
    scrape_page_range start_page end_page w
      = (Ret (concat (page_result <$> range start_page (end_page + 1))), w2)
    ∧ requests w2 = requests w ++ range start_page (end_page + 1)
    ∧ stdin w2 = stdin w
    ∧ (∀ c, disk w2 !! OUTPUT_DIR ≠ Some (File c))
    ∧ ∀ p, p ≠ skipped_log → p ≠ OUTPUT_DIR → disk w2 !! p = disk w !! p.
Proof.
  intros Hno [Hdir Hlog].
  destruct (crawl_loop_advance (range start_page (end_page + 1)) [] []
              (mkCrawl [] [] 0) (extend [PCrawlStart start_page end_page] [] 0 w))
    as (st & out & Hrun & _ & _ & Hall & Hskip); [done| |].
  { simpl. rewrite app_nil_r. apply no_three_in_range.
    intros q ? ?. apply Hno; lia. }
  rewrite !app_nil_r in Hrun. simpl in Hrun, Hall.
  unfold scrape_page_range.
  rewrite (bind_ret _ _ _ _ _ (print_run _ _)).
  unfold crawl_pages. rewrite (bind_ret _ _ _ _ _ Hrun).
  rewrite (bind_ret _ _ _ _ _ (print_run _ _)).
  rewrite <- Hall.
  destruct (skipped_pages st) as [|page pages] eqn:Hskipped.
  - eexists. split; [done|]. simpl. rewrite !app_nil_r. done.
  - erewrite bind_ret; last by apply save_skipped_pages_run.
    eexists. split; [done|]. simpl. rewrite !app_nil_r.
    split; [done|]. split; [done|]. split.
    + intros c. rewrite lookup_insert_ne by done.
      unfold with_output_dir.
      destruct (disk w !! OUTPUT_DIR) as [[|c']|] eqn:Hd.
      * by rewrite Hd.
      * by destruct (Hdir c').
      * by rewrite lookup_insert_eq.
    + intros p Hp Hp'. rewrite lookup_insert_ne by done.
      by apply file_text_with_output_dir.
Qed.

Lemma quiet_ret {A : Type} (a : A) : quiet (mret a).
Proof. by intros w. Qed.

Lemma quiet_print (l : line) : quiet (print l).
Proof. by intros w. Qed.

Lemma quiet_lift {A : Type} (r : res A) : quiet (lift r).
Proof. by intros w. Qed.

Lemma quiet_bind {A B : Type} (m : IO A) (k : A → IO B) :
  quiet m → (∀ a, quiet (k a)) → quiet (m ≫= k).
Proof.
  intros Hm Hk w. unfold mbind, IO_bind.
  destruct (Hm w) as [Hreq Hdisk].
  destruct (m w) as [[a|e] w1]; simpl in *; [|done].
  destruct (Hk a w1) as [Hreq' Hdisk']. by rewrite Hreq', Hdisk'.
Qed.

(** The overview only prints. *)
Lemma overview_quiet (listings : list dict) (filepath : option string) :
  quiet (run_scraper.overview listings filepath).
Proof.
  unfold run_scraper.overview.
  repeat first
    [ apply quiet_print | apply quiet_lift | apply quiet_ret
    | apply quiet_bind; [|intros ?]
    | case_match ].
Qed.

(** With the output directory there and no data file yet, the default
    destination is a free name. *)
Lemma lookup_path_default (d : gmap string fsnode) :
  d !! OUTPUT_DIR = Some Dir →
  d !! csv_path None = None →
  lookup_path d (csv_path None) = Nothing.
Proof.
  intros Hdir Hnone. unfold lookup_path. rewrite Hnone.
  assert (walk d [] ["data"] = Some ["data"]) as Hwalk.
  { cbn [walk]. rewrite !bool_decide_eq_false_2 by done. cbn [orb app].
    unfold is_dir. change (String.concat "/" ["data"]) with OUTPUT_DIR.
    by rewrite Hdir. }
  change (match walk d [] ["data"] with
          | Some directory =>
              match d !! String.concat "/"
                           (directory ++ ["beijing_rental_data.csv"]) with
              | Some n => Node n
              | None => Nothing
              end
          | None => NoSuchPath
          end = Nothing).
  rewrite Hwalk.
  change (String.concat "/" (["data"] ++ ["beijing_rental_data.csv"]))
    with (csv_path None).
  by rewrite Hnone.
Qed.

(** X24.  From the command line to the file: run with two integer
    arguments [start ≤ end], [start ≥ 1], on a site with no three
    consecutive empty pages in that range and at least one listing, and on
    a file system with no data file yet where the log of skipped pages can
    be written, [main] requests every page of the range, and the data file
    holds the table of the records of all these pages, in page order.  It
    then returns normally, unless a figure of the overview is beyond the
    range of the floats: then it raises [OverflowError], with the file
    written all the same. *)
Theorem main_writes_the_records_of_the_range (script a1 a2 : string)
    (start_page end_page : Z) (w : world) :
  py_int a1 = Some start_page →
  py_int a2 = Some end_page →
  1 ≤ start_page ≤ end_page →
  (∀ p, start_page ≤ p → p + 2 ≤ end_page →
        ¬ (page_result p = [] ∧ page_result (p + 1) = []
           ∧ page_result (p + 2) = [])) →
  concat (page_result <$> range start_page (end_page + 1)) ≠ [] →
  writable (disk w) skipped_log →
  disk w !! csv_path None = None →
  ∃ r w',
    run_scraper.main [script; a1; a2] w = (r, w')
    ∧ (r = Ret tt ∨ r = Raise OverflowError)
    ∧ requests w' = requests w ++ range start_page (end_page + 1)
    ∧ disk w' !! csv_path None
      = Some (File (to_csv (pd_DataFrame
                              (concat (page_result
                                         <$> range start_page (end_page + 1)))))).
Proof.
  intros H1 H2 Hrange Hno Hsome Hdisk Hfresh. unfold run_scraper.main.
  rewrite (bind_ret _ _ _ _ _ (page_range_two _ _ _ _ _ _ H1 H2 Hrange)).
  rewrite !(bind_ret _ _ _ _ _ (print_run _ _)), !extend_extend.
  set (w0 := extend _ _ _ w).
  destruct (crawl_gapless_disk start_page end_page w0 Hno Hdisk)
    as (w2 & Hcrawl & Hreq & _ & Hdir & Hframe).
  rewrite (bind_ret _ _ _ _ _ Hcrawl).
  set (listings := concat _) in *.
  assert (Forall typed_record listings) as Htyped.
  { apply Forall_concat, Forall_fmap, Forall_forall.
    intros page _. apply page_result_typed. }
  clearbody listings. destruct listings as [|l ls]; [done|].
  set (listings := l :: ls) in *.
  assert (lookup_path (with_output_dir (disk w2)) (csv_path None) = Nothing)
    as Hnone.
  { apply lookup_path_default.
    - unfold with_output_dir.
      destruct (disk w2 !! OUTPUT_DIR) as [[|c]|] eqn:Hd;
        [done|by destruct (Hdir c)|by rewrite lookup_insert_eq].
    - rewrite file_text_with_output_dir by by vm_compute.
      rewrite Hframe; [done|by vm_compute|by vm_compute]. }
  pose proof (save_to_csv_run listings None true w2 Hsome Hdir) as Hsave.
  cbv zeta in Hsave. rewrite Hnone in Hsave.
  rewrite (bind_ret _ _ _ _ _ Hsave).
  match goal with
  | |- context [run_scraper.overview ?ls ?fp ?w1] =>
      pose proof (overview_ends ls fp Htyped w1) as Hret;
      destruct (overview_quiet ls fp w1) as (Hreqs & Hdisks);
      destruct (run_scraper.overview ls fp w1) as [r w']
  end.
  simpl in Hret, Hreqs, Hdisks. exists r, w'. split; [done|].
  split; [destruct r as [[]|e]; [by left|right; by rewrite Hret]|].
  rewrite Hreqs, Hdisks, Hreq, lookup_insert_eq. subst w0. simpl.
  by rewrite app_nil_r.
Qed.

End EndToEnd.

(** ** The default range *)

Section DefaultRange.
Context {py : Prims} {net : Network}.

(** X25.  [scrape_all] called with no bound, or with the bound 0, crawls up
    to page 300: on a site with no three consecutive empty pages among the
    pages 1 to 300, and where the log of skipped pages can be written, it
    requests all of them, in order, and returns their listings. *)
Theorem scrape_all_zero_means_no_bound (max_pages : option Z) (w : world) :
  max_pages = None ∨ max_pages = Some 0 →
  (∀ p, 1 ≤ p → p + 2 ≤ MAX_PAGES →
        ¬ (page_result p = [] ∧ page_result (p + 1) = []
           ∧ page_result (p + 2) = [])) →
  writable (disk w) skipped_log →
  ∃ w2,
    scrape_all max_pages w
      = (Ret (concat (page_result <$> range 1 (MAX_PAGES + 1))), w2)
    ∧ requests w2 = requests w ++ range 1 (MAX_PAGES + 1).
Proof.
  intros Hmax Hno Hdisk.
  destruct (crawl_gapless_disk 1 MAX_PAGES w Hno Hdisk)
    as (w2 & Hrun & Hreq & _).
  exists w2. split; [|done].
  by destruct Hmax as [-> | ->].
Qed.

End DefaultRange.

(** ** The overview that main prints *)

Section Overview.

Lemma count_incr_total (district : value) (districts : list (value * Z)) :
  total_count (run_scraper.count_incr district districts)
  = total_count districts + 1.
Proof.
  unfold total_count.
  induction districts as [|[d n] districts IH]; simpl; [done|].
  destruct (value_eqb district d); simpl; lia.
Qed.

Lemma count_incr_positive (district : value) (districts : list (value * Z)) :
  Forall (λ dn, 1 ≤ dn.2) districts →
  Forall (λ dn, 1 ≤ dn.2) (run_scraper.count_incr district districts).
Proof.
  induction 1 as [|[d n] districts Hn Hrest IH]; simpl.
  - by repeat constructor.
  - destruct (value_eqb district d).
    + constructor; [simpl in *; lia|done].
    + constructor; [done|exact IH].
Qed.

(** Every record is counted once, a record without district as unknown,
    and no count is below 1. *)
Lemma count_districts_total (listings : list dict) :
  total_count (run_scraper.count_districts listings)
  = Z.of_nat (length listings)
  ∧ Forall (λ dn, 1 ≤ dn.2) (run_scraper.count_districts listings).
Proof.
  unfold run_scraper.count_districts.
  assert (∀ acc : list (value * Z),
            Forall (λ dn, 1 ≤ dn.2) acc →
            let counts :=
              foldl (λ districts item,
                       run_scraper.count_incr
                         (default (VStr "未知") (dict_get "district" item))
                         districts) acc listings in
            total_count counts = total_count acc + Z.of_nat (length listings)
            ∧ Forall (λ dn, 1 ≤ dn.2) counts) as Hgen.
  { induction listings as [|item listings IH]; intros acc Hacc.
    - simpl. split; [lia|done].
    - destruct (IH (run_scraper.count_incr
                      (default (VStr "未知") (dict_get "district" item)) acc))
        as [Hsum Hpos]; [by apply count_incr_positive|].
      cbn [foldl length]. split; [|done].
      rewrite Hsum, count_incr_total. lia. }
  destruct (Hgen [] (Forall_nil_2 _)) as [Hsum Hpos]. by split.
Qed.

Lemma total_count_app (l1 l2 : list (value * Z)) :
  total_count (l1 ++ l2) = total_count l1 + total_count l2.
Proof.
  unfold total_count. induction l1 as [|dn l1 IH]; simpl; [done|].
  rewrite IH. lia.
Qed.

Lemma total_count_perm (l1 l2 : list (value * Z)) :
  l1 ≡ₚ l2 → total_count l1 = total_count l2.
Proof.
  unfold total_count. induction 1; simpl; lia.
Qed.

Lemma total_count_positive (l : list (value * Z)) :
  Forall (λ dn, 1 ≤ dn.2) l → 0 ≤ total_count l.
Proof.
  unfold total_count. induction 1 as [|dn l Hdn _ IH]; simpl; lia.
Qed.

(** [sorted] keeps the items, and puts them by falling count. *)
Lemma insert_by_count_perm (item : value * Z) (sorted : list (value * Z)) :
  run_scraper.insert_by_count item sorted ≡ₚ item :: sorted.
Proof.
  induction sorted as [|other rest IH]; simpl; [done|].
  destruct (other.2 <? item.2); [done|].
  rewrite IH. apply Permutation_swap.
Qed.

Lemma insert_by_count_sorted (item : value * Z) (sorted : list (value * Z)) :
  StronglySorted (λ a b, b.2 ≤ a.2) sorted →
  StronglySorted (λ a b, b.2 ≤ a.2) (run_scraper.insert_by_count item sorted).
Proof.
  induction 1 as [|other rest Hrest IH Hall]; simpl.
  - by repeat constructor.
  - destruct (Z.ltb_spec other.2 item.2) as [Hlt|Hge].
    + constructor; [by constructor|].
      constructor; [lia|]. eapply Forall_impl; [exact Hall|].
      simpl. intros x Hx. lia.
    + constructor; [exact IH|].
      rewrite insert_by_count_perm. by constructor.
Qed.

Lemma sorted_by_count_spec (items : list (value * Z)) :
  run_scraper.sorted_by_count items ≡ₚ items
  ∧ StronglySorted (λ a b, b.2 ≤ a.2) (run_scraper.sorted_by_count items).
Proof.
  unfold run_scraper.sorted_by_count.
  assert (∀ acc,
            StronglySorted (λ a b : value * Z, b.2 ≤ a.2) acc →
            foldl (λ sorted item, run_scraper.insert_by_count item sorted)
              acc items ≡ₚ items ++ acc
            ∧ StronglySorted (λ a b : value * Z, b.2 ≤ a.2)
                (foldl (λ sorted item, run_scraper.insert_by_count item sorted)
                   acc items)) as Hgen.
  { induction items as [|item items IH]; intros acc Hacc; [done|].
    cbn [foldl].
    destruct (IH (run_scraper.insert_by_count item acc)) as [Hperm Hsorted];
      [by apply insert_by_count_sorted|].
    split; [|done].
    rewrite Hperm, insert_by_count_perm. simpl.
    by rewrite Permutation_middle. }
  destruct (Hgen [] (SSorted_nil _)) as [Hperm Hsorted].
  by rewrite app_nil_r in Hperm.
Qed.

Lemma strongly_sorted_falling (l : list (value * Z)) :
  StronglySorted (λ a b, b.2 ≤ a.2) l → falling l.
Proof.
  induction 1 as [|x l Hl IH Hall]; intros i j a b Hij Ha Hb;
    [by rewrite lookup_nil in Ha|].
  destruct j as [|j]; [lia|]. simpl in Hb.
  destruct i as [|i]; simpl in Ha.
  - injection Ha as <-. rewrite Forall_forall in Hall.
    apply Hall. by eapply list_elem_of_lookup_2.
  - apply (IH i j); [lia|done..].
Qed.

(** X26.  The district counts [main] prints are those of at most five
    districts, in the order of falling counts, and no count is below 1.
    No district left out has a count above that of one printed.  The
    counts printed never add up to more than the number of records, a
    record without district counting as unknown; they add up to it where
    the records are of five districts at most. *)
Theorem district_counts_are_the_top_five (listings : list dict) :
  let all := run_scraper.count_districts listings in
  let top := run_scraper.top_districts listings in
  (length top ≤ 5)%nat
  ∧ top ⊆ all
  ∧ falling top
  ∧ Forall (λ dn, 1 ≤ dn.2) top
  ∧ (∀ shown left_out,
       shown ∈ top → left_out ∈ all → left_out ∉ top →
       left_out.2 ≤ shown.2)
  ∧ total_count top ≤ Z.of_nat (length listings)
  ∧ ((length all ≤ 5)%nat → total_count top = Z.of_nat (length listings)).
Proof.
  intros all top.
  destruct (count_districts_total listings) as [Htotal Hpos].
  destruct (sorted_by_count_spec all) as [Hperm Hsorted].
  fold all in Htotal, Hpos.
  set (sorted := run_scraper.sorted_by_count all) in *.
  assert (top = take 5 sorted) as Htop by done. clearbody top sorted all.
  subst top.
  pose proof (take_drop 5 sorted) as Hsplit.
  assert (Forall (λ dn, 1 ≤ dn.2) sorted) as Hpos' by by rewrite Hperm.
  assert (total_count sorted = Z.of_nat (length listings)) as Htotal'
    by by rewrite (total_count_perm _ _ Hperm).
  rewrite <- Hsplit in Hsorted, Hpos', Htotal'.
  apply Forall_app in Hpos' as [Hpos1 Hpos2].
  rewrite total_count_app in Htotal'.
  pose proof (total_count_positive _ Hpos2) as Hrest.
  repeat split.
  - rewrite length_take. lia.
  - intros dn Hdn. rewrite <- Hperm, <- Hsplit. apply elem_of_app. by left.
  - by eapply strongly_sorted_falling, StronglySorted_app_1_l.
  - done.
  - intros shown left_out Hshown Hleft Hnot.
    rewrite <- Hperm, <- Hsplit in Hleft.
    apply elem_of_app in Hleft as [Hleft|Hleft]; [done|].
    by apply (StronglySorted_app_1_elem_of _ _ _ _ _ Hsorted).
  - lia.
  - intros Hfew. rewrite <- Hperm in Hfew.
    rewrite drop_ge in Htotal' by done.
    unfold total_count at 2 in Htotal'. simpl in Htotal'. lia.
Qed.






End Overview.

(** ** The further statements at work on sample sites, tables and files *)

(** Witness of X1: the site with the empty pages 2, 3 and 5. *)
Lemma crawl_covers_range_without_gap_witness :
  ∃ w2 listings,
    scrape_page_range (py:=Demo.prims) (net:=patchy_site) 1 5 world0
      = (Ret listings, w2)
    ∧ requests w2 = [1; 2; 3; 4; 5]
    ∧ sleeps w2 = 2%nat
    ∧ file_text (disk w2) skipped_log = log_lines [2; 3; 5].
Proof.
  destruct (@crawl_covers_range_without_gap Demo.prims patchy_site 1 5 world0)
    as (w2 & Hrun & Hreq & Hnaps & Hlog).
  - intros p Hp1 Hp2 (H1 & H2 & H3).
    assert (p = 1 ∨ p = 2 ∨ p = 3) as [->|[->| ->]] by lia.
    + vm_compute in H1. discriminate.
    + vm_compute in H3. discriminate.
    + vm_compute in H2. discriminate.
  - split; [intros c|]; vm_compute; discriminate.
  - exists w2. eexists. split; [exact Hrun|]. split; [exact Hreq|].
    split; [rewrite Hnaps|rewrite Hlog]; vm_compute; reflexivity.
Defined.

(** Witness of X2: the site with the gap at pages 6, 7 and 8. *)
Lemma crawl_stops_at_first_gap_witness :
  ∃ w2 listings,
    scrape_page_range (py:=Demo.prims) (net:=Demo.gap_site) 1 10 world0
      = (Ret listings, w2)
    ∧ requests w2 = [1; 2; 3; 4; 5; 6; 7; 8]
    ∧ file_text (disk w2) skipped_log = log_lines [6; 7; 8].
Proof.
  destruct (@crawl_stops_at_first_gap Demo.prims Demo.gap_site 1 10 6 world0)
    as (w2 & Hrun & Hreq & _ & Hlog).
  - lia.
  - lia.
  - vm_compute. reflexivity.
  - vm_compute. reflexivity.
  - vm_compute. reflexivity.
  - intros q Hq (H1 & _).
    assert (q = 1 ∨ q = 2 ∨ q = 3 ∨ q = 4 ∨ q = 5) as [->|[->|[->|[->| ->]]]]
      by lia; vm_compute in H1; discriminate.
  - split; [intros c|]; vm_compute; discriminate.
  - exists w2. eexists. split; [exact Hrun|]. split; [exact Hreq|].
    rewrite Hlog. vm_compute. reflexivity.
Defined.

(** Witness of X25: the site with the same listing on every page. *)
Lemma scrape_all_zero_means_no_bound_witness :
  ∃ w2 listings,
    scrape_all (py:=Demo.prims) (net:=steady_site) (Some 0) world0
      = (Ret listings, w2)
    ∧ requests w2 = range 1 301.
Proof.
  destruct (@scrape_all_zero_means_no_bound Demo.prims steady_site (Some 0) world0)
    as (w2 & Hrun & Hreq).
  - right. reflexivity.
  - intros p _ _ (H1 & _). vm_compute in H1. discriminate.
  - split; [intros c|]; vm_compute; discriminate.
  - exists w2. eexists. split; [exact Hrun|exact Hreq].
Defined.

(** Witness of X4: the full listing. *)
Lemma record_has_the_fields_found_witness :
  dict_keys full_record = @record_keys Demo.prims Demo.full_item
  ∧ dict_keys full_record `sublist_of` DATA_FIELDS
  ∧ NoDup (dict_keys full_record).
Proof.
  apply (@record_has_the_fields_found Demo.prims Demo.full_item full_record
           world0 world0).
  vm_compute. reflexivity.
Defined.

(** Witness of X5: the full listing. *)
Lemma record_fields_are_typed_witness : typed_record full_record.
Proof.
  apply (@record_fields_are_typed Demo.prims Demo.full_item full_record
           world0 world0).
  vm_compute. reflexivity.
Defined.

(** Witness of X9: two command lines with three and four arguments. *)
Lemma extra_arguments_are_ignored_witness :
  run_scraper.main (py:=Demo.prims) (net:=Demo.gap_site) (csv:=Demo.plain_csv)
    ["run_scraper.py"; "1"; "50"; "x"] world0
  = run_scraper.main (py:=Demo.prims) (net:=Demo.gap_site) (csv:=Demo.plain_csv)
      ["run_scraper.py"; "a"; "b"; "c"; "d"] world0.
Proof.
  destruct (@extra_arguments_are_ignored Demo.prims Demo.gap_site Demo.plain_csv
              ["run_scraper.py"; "1"; "50"; "x"]
              ["run_scraper.py"; "a"; "b"; "c"; "d"] world0)
    as [Hsame _].
  - simpl. lia.
  - simpl. lia.
  - exact Hsame.
Defined.

(** Witness of X12: a destination in a directory that is not there. *)
Lemma save_to_csv_fails_when_unwritable_witness :
  ∃ w',
    save_to_csv (py:=Demo.prims) (csv:=Demo.plain_csv)
      [Demo.record "整租·两居" 5000] (Some "sub/x.csv") false world0
    = (Raise OSError, w').
Proof.
  destruct (@save_to_csv_fails_when_unwritable Demo.prims Demo.plain_csv
              [Demo.record "整租·两居" 5000] (Some "sub/x.csv") false world0)
    as [_ Hfail]; [discriminate|].
  destruct Hfail as (e & w' & Hrun & [->|[_ Hnul]] & _).
  - intros [_ [Hfree|[content Hfile]]].
    + vm_compute in Hfree. discriminate.
    + vm_compute in Hfile. discriminate.
  - exists w'. exact Hrun.
  - vm_compute in Hnul. discriminate.
Defined.


(** Witness of X14: an empty data file, which the plain codec cannot read. *)
Lemma append_to_unreadable_file_starts_over_witness :
  ∃ w',
    save_to_csv (py:=Demo.prims) (csv:=Demo.plain_csv)
      [Demo.record "整租·两居" 5000] None true garbled_world
    = (Ret (Some (csv_path None)), w')
    ∧ stdout w' = [PReadFailed; PSaved (csv_path None) 1].
Proof.
  eexists. split.
  - apply (@append_to_unreadable_file_starts_over Demo.prims Demo.plain_csv
             [Demo.record "整租·两居" 5000] None "" garbled_world).
    + discriminate.
    + intros c. vm_compute. discriminate.
    + vm_compute. reflexivity.
    + vm_compute. reflexivity.
  - vm_compute. reflexivity.
Defined.

(** Witness of X16: page 2, then pages 5 and 6. *)
Lemma skipped_log_accumulates_witness :
  ∃ w',
    (save_skipped_pages [2];; save_skipped_pages [5; 6]) world0 = (Ret tt, w')
    ∧ file_text (disk w') skipped_log = log_lines [2; 5; 6].
Proof.
  destruct (skipped_log_accumulates [2] [5; 6] world0) as (w' & Hrun & Hlog).
  - discriminate.
  - discriminate.
  - split; [intros c|]; vm_compute; discriminate.
  - exists w'. split; [exact Hrun|]. rewrite Hlog. vm_compute. reflexivity.
Defined.

(** Witness of X17: the site with the gap, and a file in the place of the
    output directory. *)
Lemma crawl_is_lost_when_log_unwritable_witness :
  ∃ w2,
    scrape_page_range (py:=Demo.prims) (net:=Demo.gap_site) 1 10 blocked_world
    = (Raise OSError, w2).
Proof.
  destruct (@crawl_is_lost_when_log_unwritable Demo.prims Demo.gap_site 1 10 6
              blocked_world)
    as (w2 & fetched & Hrun & _).
  - lia.
  - vm_compute. reflexivity.
  - intros [Hdir _]. apply (Hdir ""). vm_compute. reflexivity.
  - exists w2. exact Hrun.
Defined.

(** Witness of X18: the two rows left of the sample table. *)
Lemma clean_data_output_has_no_duplicates_witness :
  row_eqb (df_columns cleaned_table)
    (dict_row [("title", VStr "A"); ("area", VFloat (25 # 2)); ("price", VInt 2300)])
    (dict_row [("title", VStr "E"); ("area", VFloat 88); ("price", VFloat 7000)])
  = false.
Proof.
  apply (clean_data_output_has_no_duplicates Demo.loaded_table cleaned_table
           world0 (extend [PCleaned 6 2] [] 0 world0) 0 1).
  - vm_compute. reflexivity.
  - discriminate.
  - discriminate.
  - vm_compute. reflexivity.
  - vm_compute. reflexivity.
Defined.

(** Witness of X19: the row of the sample table that comes twice. *)
Lemma clean_data_loses_no_valid_row_witness :
  ∃ r',
    r' ∈ df_rows cleaned_table
    ∧ row_eqb (df_columns Demo.loaded_table)
        (dict_row [("title", VStr "A"); ("area", VFloat (25 # 2));
                   ("price", VInt 2300)]) r'
      = true.
Proof.
  apply (clean_data_loses_no_valid_row Demo.loaded_table cleaned_table
           world0 (extend [PCleaned 6 2] [] 0 world0)).
  - vm_compute. reflexivity.
  - apply (list_elem_of_lookup_2 _ 2%nat). vm_compute. reflexivity.
  - exists (VInt 2300). split; vm_compute; reflexivity.
  - exists (VFloat (25 # 2)). split; vm_compute; reflexivity.
Defined.

(** Witness of X20: the sample table. *)
Lemma clean_data_twice_witness :
  ∃ w'',
    data_processor.clean_data (Some cleaned_table)
      (extend [PCleaned 6 2] [] 0 world0)
    = (Ret (Some cleaned_table), w'').
Proof.
  apply (clean_data_twice Demo.loaded_table cleaned_table world0).
  vm_compute. reflexivity.
Defined.

(** Witness of X21: a table without area column. *)
Lemma clean_data_needs_price_and_area_witness :
  data_processor.clean_data (Some table_without_area) world0
  = (Raise KeyError, world0).
Proof.
  apply clean_data_needs_price_and_area.
  - reflexivity.
  - right. apply (bool_decide_unpack _). vm_compute. reflexivity.
Defined.

(** Witness of X22: a table whose price is text. *)
Lemma clean_data_fails_on_text_witness :
  data_processor.clean_data (Some table_with_text) world0
  = (Raise TypeError, world0).
Proof.
  apply (clean_data_fails_on_text table_with_text world0
           (dict_row [("title", VStr "A"); ("area", VFloat 60);
                      ("price", VStr "面议")])
           "price" "面议").
  - apply (bool_decide_unpack _). vm_compute. reflexivity.
  - apply (bool_decide_unpack _). vm_compute. reflexivity.
  - apply list_elem_of_here.
  - eexists. vm_compute. reflexivity.
  - eexists. vm_compute. reflexivity.
  - left. reflexivity.
  - vm_compute. reflexivity.
Defined.

(** Witness of X23: a name given twice, a value with equals signs, a pair
    without one. *)
Lemma parse_cookie_string_takes_last_pair_witness :
  ∃ cookies,
    parse_cookie_string (py:=Demo.prims) "sid=1; token=ab=cd==;flag; sid = 2 "
    = Ret cookies
    ∧ dict_get "sid" cookies = Some (VStr "2")
    ∧ dict_get "token" cookies = Some (VStr "ab=cd==")
    ∧ dict_get "flag" cookies = None.
Proof.
  destruct (@parse_cookie_string_takes_last_pair Demo.prims
              "sid=1; token=ab=cd==;flag; sid = 2 " "sid")
    as (cookies & Hrun & Hsid); [discriminate|].
  destruct (@parse_cookie_string_takes_last_pair Demo.prims
              "sid=1; token=ab=cd==;flag; sid = 2 " "token")
    as (cookies1 & Hrun1 & Htoken); [discriminate|].
  destruct (@parse_cookie_string_takes_last_pair Demo.prims
              "sid=1; token=ab=cd==;flag; sid = 2 " "flag")
    as (cookies2 & Hrun2 & Hflag); [discriminate|].
  rewrite Hrun in Hrun1, Hrun2.
  injection Hrun1 as <-. injection Hrun2 as <-.
  exists cookies. split; [exact Hrun|].
  split; [rewrite Hsid|split; [rewrite Htoken|rewrite Hflag]];
    vm_compute; reflexivity.
Defined.

(** Witness of X24: pages 1 and 2 of the site with two listings per page. *)
Lemma main_writes_the_records_of_the_range_witness :
  ∃ w',
    run_scraper.main (py:=Demo.prims) (net:=Demo.full_site) (csv:=Demo.plain_csv)
      ["run_scraper.py"; "1"; "2"] world0
    = (Ret tt, w')
    ∧ requests w' = [1; 2]
    ∧ file_text (disk w') (csv_path None)
      = "title,rent_type,price" +:+ newline
        +:+ "整租·1,整租,5000" +:+ newline
        +:+ "合租·1,合租,1800" +:+ newline
        +:+ "整租·2,整租,5000" +:+ newline
        +:+ "合租·2,合租,1800" +:+ newline.
Proof.
  destruct (@main_writes_the_records_of_the_range Demo.prims Demo.full_site
              Demo.plain_csv "run_scraper.py" "1" "2" 1 2 world0)
    as (r & w' & Hrun & _ & Hreq & Hfile).
  - vm_compute. reflexivity.
  - vm_compute. reflexivity.
  - lia.
  - intros p Hp1 Hp2. lia.
  - vm_compute. discriminate.
  - split; [intros c|]; vm_compute; discriminate.
  - vm_compute. reflexivity.
  - exists w'. split; [|split; [exact Hreq|]].
    + pose proof (f_equal fst Hrun) as Hr. vm_compute in Hr.
      rewrite Hrun. f_equal. symmetry. exact Hr.
    + unfold file_text. rewrite Hfile. vm_compute. reflexivity.
Defined.


(** Witness of X10: an empty start and the end 5. *)
Lemma prompt_accepts_valid_answer_witness :
  run_scraper.get_page_range_interactive (py:=Demo.prims)
    (mkWorld [] [] 0 ∅ [Line ""; Line " 5 "])
  = (Ret (Some (1, 5)),
     mkWorld [PBanner; PAskRange; PPromptStart; PPromptEnd] [] 0 ∅ []).
Proof.
  apply (@prompt_accepts_valid_answer Demo.prims "" " 5 " [] 1 5
           (mkWorld [] [] 0 ∅ [Line ""; Line " 5 "])).
  - reflexivity.
  - vm_compute. reflexivity.
  - vm_compute. discriminate.
  - vm_compute. reflexivity.
  - lia.
Defined.

(** Witness of X11: an interrupt at the second question. *)
Lemma interrupt_at_the_prompt_cancels_witness :
  ∃ out,
    run_scraper.main (py:=Demo.prims) (net:=Demo.gap_site) (csv:=Demo.plain_csv)
      ["run_scraper.py"] (mkWorld [] [] 0 ∅ [Line "3"; CtrlC])
    = (Ret tt, mkWorld (out ++ [PCancelled]) [] 0 ∅ []).
Proof.
  apply (@interrupt_at_the_prompt_cancels Demo.prims Demo.gap_site Demo.plain_csv
           "run_scraper.py" "3" [] (mkWorld [] [] 0 ∅ [Line "3"; CtrlC])).
  right. split; [reflexivity|]. right. eexists. vm_compute. reflexivity.
Defined.

(** ** Further sample runs *)

(** A destination in a directory that is not there, and a file name that
    is empty: the output directory is made, and nothing is written. *)
Example save_to_missing_directory :
  save_to_csv (py:=Demo.prims) (csv:=Demo.plain_csv)
    [Demo.record "整租·两居" 5000] (Some "sub/x.csv") true world0
  = (Raise OSError, mkWorld [] [] 0 {[OUTPUT_DIR := Dir]} []).
Proof. vm_compute. reflexivity. Qed.

Example save_to_empty_name :
  save_to_csv (py:=Demo.prims) (csv:=Demo.plain_csv)
    [Demo.record "整租·两居" 5000] (Some "") false world0
  = (Raise OSError, mkWorld [] [] 0 {[OUTPUT_DIR := Dir]} []).
Proof. vm_compute. reflexivity. Qed.

(** A destination spelled in another way than it is on record: a
    directory in its place makes the call fail, and a file there is the
    file appended to. *)
Example save_to_a_directory_spelled_otherwise :
  save_to_csv (py:=Demo.prims) (csv:=Demo.plain_csv)
    [Demo.record "整租·两居" 5000] (Some "../x.csv") false
    (mkWorld [] [] 0 {["x.csv" := Dir]} [])
  = (Raise OSError, mkWorld [] [] 0 {["x.csv" := Dir; OUTPUT_DIR := Dir]} []).
Proof. vm_compute. reflexivity. Qed.

Example append_to_a_file_spelled_otherwise :
  let '(r, w) :=
    save_to_csv (py:=Demo.prims) (csv:=Demo.plain_csv)
      [Demo.record "合租·次卧" 1800] (Some "./x.csv") true
      (mkWorld [] [] 0
         {[OUTPUT_DIR := Dir;
           "data/x.csv" := File ("title,rent_type,price" +:+ newline
                                 +:+ "整租·两居,整租,5000" +:+ newline)]} []) in
  r = Ret (Some "data/./x.csv")
  ∧ stdout w = [PAppendTo "data/./x.csv"; PSaved "data/./x.csv" 2]
  ∧ file_text (disk w) "data/./x.csv"
    = "title,rent_type,price" +:+ newline
      +:+ "整租·两居,整租,5000" +:+ newline
      +:+ "合租·次卧,合租,1800" +:+ newline.
Proof. vm_compute. repeat split. Qed.

(** A price above every float: the records are saved, and the overview
    fails on its first figure. *)
Example run_with_a_price_beyond_floats :
  let '(r, w) :=
    run_scraper.main (py:=Demo.prims) (net:=dear_site) (csv:=Demo.plain_csv)
      ["run_scraper.py"; "1"; "1"] world0 in
  r = Raise OverflowError
  ∧ requests w = [1]
  ∧ file_text (disk w) (csv_path None)
    = "title,rent_type,price" +:+ newline
      +:+ "整租·两居,整租," +:+ huge_price +:+ newline
  ∧ last (stdout w) = Some (PCount 1).
Proof. vm_compute. repeat split. Qed.

(** The overview of three records of two districts and one without. *)
Example overview_of_three_records :
  (run_scraper.overview (py:=Demo.prims)
     [ [("district", VStr "朝阳"); ("price", VInt 5000); ("area", VFloat 60)];
       [("price", VInt 1800)];
       [("district", VStr "朝阳"); ("price", VInt 0); ("area", VFloat (25 # 2))] ]
     (Some "data/beijing_rental_data.csv") world0).1
  = Ret tt
  ∧ run_scraper.top_districts
      [ [("district", VStr "朝阳"); ("price", VInt 5000); ("area", VFloat 60)];
        [("price", VInt 1800)];
        [("district", VStr "朝阳"); ("price", VInt 0); ("area", VFloat (25 # 2))] ]
    = [(VStr "朝阳", 2); (VStr "未知", 1)].
Proof. vm_compute. repeat split. Qed.
